(** * parked-domain-operator: the reconciliation engine and its AWS drivers

    A shallow embedding of the controller of [internal/controller]:
    [Reconcile] (parkeddomain_controller.go), the Route 53 helpers and the
    S3 helpers, each remote request made explicit in a state monad that
    threads the remote world and a log of the requests issued. *)

From Stdlib Require Import String Ascii List ZArith Bool Lia DecimalString.
Import ListNotations.
Local Open Scope list_scope.
Local Open Scope string_scope.

Set Implicit Arguments.

(** ** Go strings *)

Module strings.

(** [strings.HasPrefix(s, prefix)]. *)
Fixpoint HasPrefix (s prefix : string) {struct prefix} : bool :=
  match prefix, s with
  | EmptyString, _ => true
  | String _ _, EmptyString => false
  | String a p', String b s' => Ascii.eqb a b && HasPrefix s' p'
  end.

(** The scan of [strings.Replace] for a non-empty [old]: left to right,
    non-overlapping occurrences, at most [n] of them ([None]: no limit, Go's
    [n < 0]).  [skip] counts the bytes of the occurrence just replaced that
    are still to be dropped. *)
Fixpoint replace_scan (old new : string) (n : option nat) (skip : nat)
         (s : string) : string :=
  match s with
  | EmptyString => EmptyString
  | String c s' =>
      match skip with
      | S k => replace_scan old new n k s'
      | O =>
          match n with
          | Some O => String c (replace_scan old new n O s')
          | _ =>
              if HasPrefix s old
              then new ++ replace_scan old new (option_map Nat.pred n)
                                       (String.length old - 1) s'
              else String c (replace_scan old new n O s')
          end
      end
  end.

(** [strings.Replace(s, old, new, n)]: with [n = 0] Go returns [s].  The
    engine calls it with a constant, non-empty [old] only; an empty [old],
    which Go matches between the runes of [s], is left out of the model and
    answered with [s]. *)
Definition Replace (s old new : string) (n : Z) : string :=
  if (n =? 0)%Z || (old =? "") then s
  else replace_scan old new (if (n <? 0)%Z then None else Some (Z.to_nat n)) 0 s.

(** [strings.ReplaceAll(s, old, new)] is [Replace(s, old, new, -1)]. *)
Definition ReplaceAll (s old new : string) : string := Replace s old new (-1).

End strings.

(** [%d] of [fmt.Sprintf] on an [int64]. *)
Definition fmt_d (z : Z) : string := NilZero.string_of_int (Z.to_int z).

(** The double quote, for the JSON texts the code builds. *)
Definition dquote : string := String (ascii_of_nat 34) EmptyString.

(** ** Go errors *)

(** The typed errors the code tests for with [errors.As] or
    [apierrors.IsNotFound]; every other SDK error type is [OtherType]. *)
Inductive ErrType : Type :=
| S3NotFound                    (* *s3types.NotFound *)
| S3NoSuchBucket                (* *s3types.NoSuchBucket *)
| R53NoSuchHostedZone           (* *r53types.NoSuchHostedZone *)
| R53HostedZoneAlreadyExists    (* *r53types.HostedZoneAlreadyExists *)
| K8sNotFound                   (* a StatusError with reason NotFound *)
| OtherType (name : string).

Inductive error : Type :=
| TypedError (t : ErrType) (msg : string)
| errors_New (msg : string)                      (* also fmt.Errorf without %w *)
| fmt_Errorf (prefix : string) (cause : error).  (* fmt.Errorf("prefix%w", cause) *)

Definition ErrType_eqb (a b : ErrType) : bool :=
  match a, b with
  | S3NotFound, S3NotFound => true
  | S3NoSuchBucket, S3NoSuchBucket => true
  | R53NoSuchHostedZone, R53NoSuchHostedZone => true
  | R53HostedZoneAlreadyExists, R53HostedZoneAlreadyExists => true
  | K8sNotFound, K8sNotFound => true
  | OtherType x, OtherType y => String.eqb x y
  | _, _ => false
  end.

(** [errors.As(err, &target)] for a target of type [t]: walks the chain of
    wrapped causes. *)
Fixpoint errors_As (t : ErrType) (e : error) : bool :=
  match e with
  | TypedError t' _ => ErrType_eqb t t'
  | errors_New _ => false
  | fmt_Errorf _ cause => errors_As t cause
  end.

(** [err.Error()]. *)
Fixpoint Error (e : error) : string :=
  match e with
  | TypedError _ msg => msg
  | errors_New msg => msg
  | fmt_Errorf prefix cause => prefix ++ Error cause
  end.

Definition apierrors_IsNotFound (e : error) : bool := errors_As K8sNotFound e.

(** A Go [(value, error)] return. *)
Inductive result (A : Type) : Type :=
| Ok (a : A)
| Err (e : error).
Arguments Ok {A} a.
Arguments Err {A} e.

Definition err_of {A} (r : result A) : option error :=
  match r with Ok _ => None | Err e => Some e end.

(** ** The API types (api/v1alpha1/parkeddomain_types.go) *)

Record ParkedDomainSpec : Type := {
  DomainName : string;
  Region : string;
  TemplateName : string }.

Record ParkedDomainStatus : Type := {
  Status : string;
  ZoneID : string;
  NameServers : list string }.

(** The fields of [metav1.ObjectMeta] the controller reads or writes.
    [DeletionTimestamp] is a [*metav1.Time]: [None] is the nil pointer, the
    number counts seconds from Go's zero instant. *)
Record ObjectMeta : Type := {
  Name : string;
  Namespace : string;
  DeletionTimestamp : option Z;
  Finalizers : list string }.

Record ParkedDomain : Type := {
  Meta : ObjectMeta;
  Spec : ParkedDomainSpec;
  PDStatus : ParkedDomainStatus }.

Record NamespacedName : Type := { nnNamespace : string; nnName : string }.

(** [IsZero] of a [metav1.Time] pointer. *)
Definition IsZero (t : option Z) : bool :=
  match t with
  | None => true
  | Some z => (z =? 0)%Z
  end.

Definition set_Finalizers (pd : ParkedDomain) (fs : list string) : ParkedDomain :=
  {| Meta := {| Name := Name (Meta pd); Namespace := Namespace (Meta pd);
                DeletionTimestamp := DeletionTimestamp (Meta pd);
                Finalizers := fs |};
     Spec := Spec pd; PDStatus := PDStatus pd |}.

(** [pd.Status.Status = s]. *)
Definition set_Status (pd : ParkedDomain) (s : string) : ParkedDomain :=
  {| Meta := Meta pd; Spec := Spec pd;
     PDStatus := {| Status := s; ZoneID := ZoneID (PDStatus pd);
                    NameServers := NameServers (PDStatus pd) |} |}.

(** [pd.Status.ZoneID = z]. *)
Definition set_ZoneID (pd : ParkedDomain) (z : string) : ParkedDomain :=
  {| Meta := Meta pd; Spec := Spec pd;
     PDStatus := {| Status := Status (PDStatus pd); ZoneID := z;
                    NameServers := NameServers (PDStatus pd) |} |}.

(** [pd.Status.NameServers = ns]. *)
Definition set_NameServers (pd : ParkedDomain) (ns : list string) : ParkedDomain :=
  {| Meta := Meta pd; Spec := Spec pd;
     PDStatus := {| Status := Status (PDStatus pd); ZoneID := ZoneID (PDStatus pd);
                    NameServers := ns |} |}.

(** ** controllerutil *)

Module controllerutil.

(** [ContainsFinalizer(o, finalizer)]. *)
Definition ContainsFinalizer (pd : ParkedDomain) (finalizer : string) : bool :=
  existsb (String.eqb finalizer) (Finalizers (Meta pd)).

(** [AddFinalizer(o, finalizer)]: appends unless already present. *)
Definition AddFinalizer (pd : ParkedDomain) (finalizer : string) : ParkedDomain :=
  if ContainsFinalizer pd finalizer then pd
  else set_Finalizers pd (Finalizers (Meta pd) ++ [finalizer])%list.

(** [RemoveFinalizer(o, finalizer)]: drops every occurrence. *)
Definition RemoveFinalizer (pd : ParkedDomain) (finalizer : string) : ParkedDomain :=
  set_Finalizers pd
    (filter (fun f => negb (String.eqb f finalizer)) (Finalizers (Meta pd))).

End controllerutil.

(** ** The AWS SDK types the helpers build or read

    SDK string pointers ([*string]) that the deserialisers always fill in
    ([HostedZone.Id], [HostedZone.Name], [Object.Key]) are plain strings. *)

Record HostedZone : Type := { hzId : string; hzName : string }.

Record AliasTarget : Type := {
  atHostedZoneId : string;
  atDNSName : string;
  atEvaluateTargetHealth : bool }.

Record ResourceRecordSet : Type := {
  rrName : string;
  rrType : string;                       (* r53types.RRType *)
  rrAliasTarget : option AliasTarget }.

Inductive ChangeAction : Type :=
| ChangeActionCreate | ChangeActionDelete | ChangeActionUpsert.

Record Change : Type := {
  chAction : ChangeAction;
  chResourceRecordSet : ResourceRecordSet }.

Record ChangeBatch : Type := {
  cbComment : option string;
  cbChanges : list Change }.

(** [CreateHostedZoneOutput] and [GetHostedZoneOutput], reduced to what is
    read; [DelegationSet] is present, as it is for every public zone. *)
Record ZoneOutput : Type := {
  zoHostedZoneId : string;
  zoNameServers : list string }.

Record S3Object : Type := { objKey : string }.

Record ConfigMap : Type := { cmData : list (string * string) }.

(** [m[key]] with the comma-ok form, on a Go [map[string]string] given by
    its entries. *)
Fixpoint map_lookup (m : list (string * string)) (key : string) : option string :=
  match m with
  | [] => None
  | (k, v) :: m' => if String.eqb k key then Some v else map_lookup m' key
  end.

(** A paginator of the SDK, by the outcomes of its [NextPage] calls.
    [HasMorePages] holds before the first request and then for as long as
    the last page carried a continuation token; a listing has finitely many
    pages. *)
Inductive Pager (P : Type) : Type :=
| PageFails (e : error)                 (* NextPage returns an error *)
| PageLast (p : P)                      (* a page without continuation token *)
| PageMore (p : P) (rest : Pager P).    (* a page with one *)
Arguments PageFails {P} e.
Arguments PageLast {P} p.
Arguments PageMore {P} p rest.

(** ** Requests and the request log *)

Inductive Call : Type :=
| KGet (key : NamespacedName)
| KUpdate (pd : ParkedDomain)
| KStatusUpdate (pd : ParkedDomain)
| KGetConfigMap (key : NamespacedName)
| S3GetClient (region : string)
| S3HeadBucket (bucket : string)
| S3CreateBucket (bucket : string) (locationConstraint : option string)
| S3PutObject (bucket key body contentType : string)
| S3PutBucketWebsite (bucket indexSuffix : string)
| S3PutBucketPolicy (bucket policy : string)
| S3ListObjectsV2 (bucket : string)
| S3DeleteObjects (bucket : string) (keys : list string)
| S3DeleteBucket (bucket : string)
| R53ListHostedZonesByName (dnsName : string)
| R53GetHostedZone (id : string)
| R53CreateHostedZone (name callerReference : string)
| R53ChangeResourceRecordSets (hostedZoneId : string) (batch : ChangeBatch)
| R53ListResourceRecordSets (hostedZoneId : string)
| R53DeleteHostedZone (id : string).


(** The requests to AWS (S3 or Route 53), as opposed to the intent store. *)
Definition aws_call (c : Call) : bool :=
  match c with
  | KGet _ | KUpdate _ | KStatusUpdate _ | KGetConfigMap _ => false
  | _ => true
  end.

(** One entry of the log: the request and the error it came back with. *)
Record Event : Type := Ev { ev_call : Call; ev_err : option error }.

(** ** The remote world

    What the controller talks to: the Kubernetes client, the S3 client and
    its factory, the Route 53 client, the process environment and the clock.
    [W] is the state of all of it; a handler answers one request there and
    gives the state it leaves.

    [Update] and [Status().Update] answer with an error or nil: the object
    in the controller's hands keeps the fields the controller set (what the
    server echoes back besides, such as the resource version, is not read by
    the controller).  A listing through a paginator is answered by the whole
    finite sequence of its page outcomes, fixed in the world in which the
    paginator is made; its requests are logged one by one as the loop asks
    for the pages. *)
Record Remote (W : Type) : Type := {
  k8s_Get : NamespacedName -> W -> result ParkedDomain * W;
  k8s_Update : ParkedDomain -> W -> option error * W;
  k8s_StatusUpdate : ParkedDomain -> W -> option error * W;
  k8s_GetConfigMap : NamespacedName -> W -> result ConfigMap * W;
  os_Getenv : string -> W -> string;
  time_Now_Unix : W -> Z;
  s3_GetClient : string -> W -> option error * W;
  s3_HeadBucket : string -> W -> option error * W;
  s3_CreateBucket : string -> option string -> W -> option error * W;
  s3_PutObject : string -> string -> string -> string -> W -> option error * W;
  s3_PutBucketWebsite : string -> string -> W -> option error * W;
  s3_PutBucketPolicy : string -> string -> W -> option error * W;
  s3_ListObjectsV2 : string -> W -> Pager (list S3Object);
  s3_DeleteObjects : string -> list string -> W -> option error * W;
  s3_DeleteBucket : string -> W -> option error * W;
  r53_ListHostedZonesByName : string -> W -> result (list HostedZone) * W;
  r53_GetHostedZone : string -> W -> result ZoneOutput * W;
  r53_CreateHostedZone : string -> string -> W -> result ZoneOutput * W;
  r53_ChangeResourceRecordSets : string -> ChangeBatch -> W -> option error * W;
  r53_ListResourceRecordSets : string -> W -> Pager (list ResourceRecordSet);
  r53_DeleteHostedZone : string -> W -> option error * W }.

(** ** The monad: world and log threaded through the requests *)

Record State (W : Type) : Type := mkState { world : W; log : list Event }.

Definition M (W A : Type) : Type := State W -> A * State W.

Definition ret {W A} (a : A) : M W A := fun st => (a, st).

Definition bind {W A B} (m : M W A) (k : A -> M W B) : M W B :=
  fun st => let '(a, st') := m st in k a st'.

Declare Scope go_scope.
Delimit Scope go_scope with go.
Notation "x <- m ;; k" := (bind m (fun x => k))
  (at level 61, m at next level, right associativity) : go_scope.
Notation "m ;;; k" := (bind m (fun _ => k))
  (at level 61, right associativity) : go_scope.
Local Open Scope go_scope.

(** A request whose output matters: answered by [h], logged with its error. *)
Definition request {W A} (c : Call) (h : W -> result A * W) : M W (result A) :=
  fun st =>
    let '(r, w') := h (world st) in
    (r, mkState w' (log st ++ [Ev c (err_of r)])%list).

(** A request of which only the error is looked at. *)
Definition request_ {W} (c : Call) (h : W -> option error * W) : M W (option error) :=
  fun st =>
    let '(e, w') := h (world st) in
    (e, mkState w' (log st ++ [Ev c e])%list).

(** A [NextPage] of a paginator whose outcome is already known: logged. *)
Definition next_page {W} (c : Call) (e : option error) : M W unit :=
  fun st => (tt, mkState (world st) (log st ++ [Ev c e])%list).

(** Reading the process environment or the clock: no request. *)
Definition observe {W A} (f : W -> A) : M W A := fun st => (f (world st), st).

(** The requests a computation adds to the log. *)
Definition calls_of (evs : list Event) : list Call := map ev_call evs.

(** The region a helper works in: [pd.Spec.Region], or eu-central-1 when
    that is empty (the same three lines open each helper that needs it). *)
Definition regionOf (pd : ParkedDomain) : string :=
  if Region (Spec pd) =? "" then "eu-central-1" else Region (Spec pd).

(** ** Route 53 helpers (aws_route53_helpers.go, the list-then-adopt copy) *)

Module Route53Helpers.

(** The table of [getS3WebsiteHostedZoneID]. *)
Definition s3HostedZoneIDs : list (string * string) :=
  [ ("us-east-1", "Z3AQBSTGFYJSTF");
    ("us-west-1", "Z2F56UZL2M1ACD");
    ("us-west-2", "Z3BJ6K6RIION7M");
    ("eu-west-1", "Z1BKCTXD74EZPE");
    ("eu-central-1", "Z21DNDUVLTQW6Q") ].

(** [getS3WebsiteHostedZoneID]: indexing a Go map gives the zero value, the
    empty string, for an absent key. *)
Definition getS3WebsiteHostedZoneID (region : string) : string :=
  match map_lookup s3HostedZoneIDs region with
  | Some id => id
  | None => ""
  end.

(** The change batch [reconcileRoute53ARecord] submits. *)
Definition aliasChangeBatch (domainName s3HostedZoneID s3Endpoint : string) : ChangeBatch :=
  {| cbComment := Some "Managed by ParkedDomain Operator";
     cbChanges :=
       [ {| chAction := ChangeActionUpsert;
            chResourceRecordSet :=
              {| rrName := domainName;
                 rrType := "A";
                 rrAliasTarget :=
                   Some {| atHostedZoneId := s3HostedZoneID;
                           atDNSName := s3Endpoint;
                           atEvaluateTargetHealth := false |} |} |} ] |}.

(** The inner loop of [cleanupRoute53Zone]: one page of records appended to
    [changes] as deletions, the NS and SOA records left out.  Each change
    points to the record of its own iteration ([&record] with the
    per-iteration loop variables of Go 1.22, which the module's
    controller-runtime requires). *)
Fixpoint range_records (records : list ResourceRecordSet) (changes : list Change)
  : list Change :=
  match records with
  | [] => changes
  | record :: records' =>
      range_records records'
        (if negb (rrType record =? "NS") && negb (rrType record =? "SOA")
         then (changes ++ [ {| chAction := ChangeActionDelete;
                               chResourceRecordSet := record |} ])%list
         else changes)
  end.

(** The adoption test of [reconcileRoute53Zone]:
    [len(HostedZones) > 0 && *HostedZones[0].Name == domainName+"."]. *)
Definition exact_first (hostedZones : list HostedZone) (domainName : string)
  : option HostedZone :=
  match hostedZones with
  | existingZone :: _ =>
      if hzName existingZone =? domainName ++ "." then Some existingZone else None
  | [] => None
  end.

Section WithRemote.
Context {W : Type} (remote : Remote W).

Definition reconcileRoute53ARecord (pd : ParkedDomain) (zoneID s3Endpoint : string)
  : M W (option error) :=
  let region := regionOf pd in
  let s3HostedZoneID := getS3WebsiteHostedZoneID region in
  if s3HostedZoneID =? "" then
    ret (Some (errors_New ("unsupported S3 website region for alias record: " ++ region)))
  else
    let changeBatch := aliasChangeBatch (DomainName (Spec pd)) s3HostedZoneID s3Endpoint in
    err <- request_ (R53ChangeResourceRecordSets zoneID changeBatch)
                    (r53_ChangeResourceRecordSets remote zoneID changeBatch) ;;
    match err with
    | Some e => ret (Some (fmt_Errorf "failed to create/update A record: " e))
    | None => ret None
    end.

(** The paginator loop of [cleanupRoute53Zone]; [Err] is the early return
    on a failed [NextPage]. *)
Fixpoint list_records (zoneID : string) (pages : Pager (list ResourceRecordSet))
         (changes : list Change) : M W (result (list Change)) :=
  match pages with
  | PageFails e =>
      next_page (R53ListResourceRecordSets zoneID) (Some e) ;;;
      ret (Err e)
  | PageLast page =>
      next_page (R53ListResourceRecordSets zoneID) None ;;;
      ret (Ok (range_records page changes))
  | PageMore page rest =>
      next_page (R53ListResourceRecordSets zoneID) None ;;;
      list_records zoneID rest (range_records page changes)
  end.

Definition cleanupRoute53Zone (pd : ParkedDomain) : M W (option error) :=
  let zoneID := ZoneID (PDStatus pd) in
  if zoneID =? "" then ret None
  else
    pages <- observe (r53_ListResourceRecordSets remote zoneID) ;;
    listed <- list_records zoneID pages [] ;;
    match listed with
    | Err e => ret (Some (fmt_Errorf "failed to list records in Hosted Zone: " e))
    | Ok changes =>
        err <- (if (0 <? length changes)%nat then
                  request_ (R53ChangeResourceRecordSets zoneID
                              {| cbComment := None; cbChanges := changes |})
                           (r53_ChangeResourceRecordSets remote zoneID
                              {| cbComment := None; cbChanges := changes |})
                else ret None) ;;
        match err with
        | Some e => ret (Some (fmt_Errorf "failed to delete records from Hosted Zone: " e))
        | None =>
            err <- request_ (R53DeleteHostedZone zoneID)
                            (r53_DeleteHostedZone remote zoneID) ;;
            match err with
            | Some e =>
                if negb (errors_As R53NoSuchHostedZone e)
                then ret (Some (fmt_Errorf "failed to delete Hosted Zone: " e))
                else ret None
            | None => ret None
            end
        end
    end.

(** The creation branch shared by both copies of [reconcileRoute53Zone], up
    to the [CreateHostedZone] request. *)
Definition createHostedZone (pd : ParkedDomain) : M W (result ZoneOutput) :=
  now <- observe (time_Now_Unix remote) ;;
  let callerReference :=
    "parkeddomain-operator-" ++ Name (Meta pd) ++ "-" ++ fmt_d now in
  request (R53CreateHostedZone (DomainName (Spec pd)) callerReference)
          (r53_CreateHostedZone remote (DomainName (Spec pd)) callerReference).

Definition reconcileRoute53Zone (pd : ParkedDomain)
  : M W (result (string * list string)) :=
  let domainName := DomainName (Spec pd) in
  listOutput <- request (R53ListHostedZonesByName domainName)
                        (r53_ListHostedZonesByName remote domainName) ;;
  match listOutput with
  | Err e => ret (Err (fmt_Errorf "failed to list hosted zones: " e))
  | Ok hostedZones =>
      match exact_first hostedZones domainName with
      | Some existingZone =>
          let zoneID := strings.Replace (hzId existingZone) "/hostedzone/" "" 1 in
          getZoneOutput <- request (R53GetHostedZone (hzId existingZone))
                                   (r53_GetHostedZone remote (hzId existingZone)) ;;
          match getZoneOutput with
          | Err e =>
              ret (Err (fmt_Errorf "failed to get details for existing hosted zone: " e))
          | Ok out => ret (Ok (zoneID, zoNameServers out))
          end
      | None =>
          createOutput <- createHostedZone pd ;;
          match createOutput with
          | Err e => ret (Err (fmt_Errorf "failed to create Route 53 Hosted Zone: " e))
          | Ok out =>
              let zoneID := strings.Replace (zoHostedZoneId out) "/hostedzone/" "" 1 in
              ret (Ok (zoneID, zoNameServers out))
          end
      end
  end.

End WithRemote.
End Route53Helpers.

(** ** Route 53 helpers, the other copy of the file: [reconcileRoute53Zone]
    trusts [status.zoneID] and answers a creation conflict with a placeholder.
    Its other three functions are the same text as above. *)

Module Route53HelpersAlt.
Section WithRemote.
Context {W : Type} (remote : Remote W).

Definition reconcileRoute53Zone (pd : ParkedDomain)
  : M W (result (string * list string)) :=
  if negb (ZoneID (PDStatus pd) =? "") then
    ret (Ok (ZoneID (PDStatus pd), NameServers (PDStatus pd)))
  else
    output <- Route53Helpers.createHostedZone remote pd ;;
    match output with
    | Err e =>
        if errors_As R53HostedZoneAlreadyExists e
        then ret (Ok ("EXISTING_ZONE_ID_PLACEHOLDER", []))
        else ret (Err (fmt_Errorf "failed to create Route 53 Hosted Zone: " e))
    | Ok out =>
        let zoneID := strings.Replace (zoHostedZoneId out) "/hostedzone/" "" 1 in
        ret (Ok (zoneID, zoNameServers out))
    end.

End WithRemote.
End Route53HelpersAlt.

(** ** S3 helpers (internal/controller/aws_s3_helpers.go) *)

Module S3Helpers.

Definition quoted (s : string) : string := dquote ++ s ++ dquote.

(** The public-read policy document for [bucketName]. *)
Definition publicReadPolicy (bucketName : string) : string :=
  "{" ++ quoted "Version" ++ ":" ++ quoted "2012-10-17" ++ ","
      ++ quoted "Statement" ++ ":[{"
      ++ quoted "Sid" ++ ":" ++ quoted "PublicReadGetObject" ++ ","
      ++ quoted "Effect" ++ ":" ++ quoted "Allow" ++ ","
      ++ quoted "Principal" ++ ":" ++ quoted "*" ++ ","
      ++ quoted "Action" ++ ":" ++ quoted "s3:GetObject" ++ ","
      ++ quoted "Resource" ++ ":" ++ quoted ("arn:aws:s3:::" ++ bucketName ++ "/*")
      ++ "}]}".

(** [strings.ReplaceAll(templateContent, "{{DOMAIN_NAME}}", domainName)]. *)
Definition finalContent (templateContent domainName : string) : string :=
  strings.ReplaceAll templateContent "{{DOMAIN_NAME}}" domainName.

Section WithRemote.
Context {W : Type} (remote : Remote W).

(** Steps 2 to 5 of [reconcileS3Bucket]: the template, the upload, website
    hosting, the policy, the endpoint. *)
Definition configureBucket (pd : ParkedDomain) (region : string) : M W (result string) :=
  let bucketName := DomainName (Spec pd) in
  cmName <- observe (os_Getenv remote "TEMPLATE_CONFIGMAP_NAME") ;;
  if cmName =? "" then
    ret (Err (errors_New "TEMPLATE_CONFIGMAP_NAME environment variable must be set"))
  else
    envNamespace <- observe (os_Getenv remote "TEMPLATE_CONFIGMAP_NAMESPACE") ;;
    let cmNamespace :=
      if envNamespace =? "" then Namespace (Meta pd) else envNamespace in
    let templateName :=
      if TemplateName (Spec pd) =? "" then "default.html" else TemplateName (Spec pd) in
    let cmKey := {| nnNamespace := cmNamespace; nnName := cmName |} in
    got <- request (KGetConfigMap cmKey) (k8s_GetConfigMap remote cmKey) ;;
    match got with
    | Err e =>
        ret (Err (fmt_Errorf ("failed to get template ConfigMap '" ++ cmName
                              ++ "' in namespace '" ++ cmNamespace ++ "': ") e))
    | Ok templateCM =>
        match map_lookup (cmData templateCM) templateName with
        | None =>
            ret (Err (errors_New ("template key '" ++ templateName
                                  ++ "' not found in ConfigMap '" ++ cmName ++ "'")))
        | Some templateContent =>
            let body := finalContent templateContent (DomainName (Spec pd)) in
            err <- request_ (S3PutObject bucketName "index.html" body "text/html")
                            (s3_PutObject remote bucketName "index.html" body "text/html") ;;
            match err with
            | Some e => ret (Err (fmt_Errorf "failed to upload final index.html: " e))
            | None =>
                err <- request_ (S3PutBucketWebsite bucketName "index.html")
                                (s3_PutBucketWebsite remote bucketName "index.html") ;;
                match err with
                | Some e =>
                    ret (Err (fmt_Errorf "failed to enable S3 static website hosting: " e))
                | None =>
                    let policy := publicReadPolicy bucketName in
                    err <- request_ (S3PutBucketPolicy bucketName policy)
                                    (s3_PutBucketPolicy remote bucketName policy) ;;
                    match err with
                    | Some e => ret (Err (fmt_Errorf "failed to apply S3 bucket policy: " e))
                    | None =>
                        ret (Ok (bucketName ++ ".s3-website." ++ region ++ ".amazonaws.com"))
                    end
                end
            end
        end
    end.

Definition reconcileS3Bucket (pd : ParkedDomain) : M W (result string) :=
  let bucketName := DomainName (Spec pd) in
  let region := regionOf pd in
  err <- request_ (S3GetClient region) (s3_GetClient remote region) ;;
  match err with
  | Some e => ret (Err e)
  | None =>
      err <- request_ (S3HeadBucket bucketName) (s3_HeadBucket remote bucketName) ;;
      match err with
      | Some e =>
          if errors_As S3NotFound e then
            let location := if negb (region =? "us-east-1") then Some region else None in
            createErr <- request_ (S3CreateBucket bucketName location)
                                  (s3_CreateBucket remote bucketName location) ;;
            match createErr with
            | Some ce => ret (Err (fmt_Errorf "failed to create S3 bucket: " ce))
            | None => configureBucket pd region
            end
          else ret (Err (fmt_Errorf "failed to check S3 bucket existence: " e))
      | None => configureBucket pd region
      end
  end.

(** The body of the paginator loop of [cleanupS3Bucket] after a page came
    in: one [DeleteObjects] for its keys, if it has any. *)
Definition delete_page (bucketName : string) (contents : list S3Object)
  : M W (option error) :=
  if (0 <? length contents)%nat then
    err <- request_ (S3DeleteObjects bucketName (map objKey contents))
                    (s3_DeleteObjects remote bucketName (map objKey contents)) ;;
    match err with
    | Some e => ret (Some (fmt_Errorf "failed to delete objects from S3 bucket: " e))
    | None => ret None
    end
  else ret None.

(** The paginator loop of [cleanupS3Bucket].  [Some r]: the function
    returns [r] from inside the loop; [None]: the loop ran to its end. *)
Fixpoint empty_bucket (bucketName : string) (pages : Pager (list S3Object))
  : M W (option (option error)) :=
  match pages with
  | PageFails e =>
      next_page (S3ListObjectsV2 bucketName) (Some e) ;;;
      if errors_As S3NoSuchBucket e then ret (Some None)
      else ret (Some (Some (fmt_Errorf
                              "failed to list objects in S3 bucket for deletion: " e)))
  | PageLast page =>
      next_page (S3ListObjectsV2 bucketName) None ;;;
      err <- delete_page bucketName page ;;
      match err with
      | Some e => ret (Some (Some e))
      | None => ret None
      end
  | PageMore page rest =>
      next_page (S3ListObjectsV2 bucketName) None ;;;
      err <- delete_page bucketName page ;;
      match err with
      | Some e => ret (Some (Some e))
      | None => empty_bucket bucketName rest
      end
  end.

Definition cleanupS3Bucket (pd : ParkedDomain) : M W (option error) :=
  let bucketName := DomainName (Spec pd) in
  let region := regionOf pd in
  err <- request_ (S3GetClient region) (s3_GetClient remote region) ;;
  match err with
  | Some e => ret (Some e)
  | None =>
      pages <- observe (s3_ListObjectsV2 remote bucketName) ;;
      returned <- empty_bucket bucketName pages ;;
      match returned with
      | Some r => ret r
      | None =>
          err <- request_ (S3DeleteBucket bucketName) (s3_DeleteBucket remote bucketName) ;;
          match err with
          | Some e =>
              if negb (errors_As S3NoSuchBucket e)
              then ret (Some (fmt_Errorf "failed to delete S3 bucket: " e))
              else ret None
          | None => ret None
          end
      end
  end.

End WithRemote.
End S3Helpers.

(** ** S3 helpers, the earlier copy of the file: one client for all regions;
    [cleanupS3Bucket] fails on every listing error and excuses a
    [*s3types.NotFound] from [DeleteBucket]. *)

Module S3HelpersAlt.
Section WithRemote.
Context {W : Type} (remote : Remote W).

Fixpoint empty_bucket (bucketName : string) (pages : Pager (list S3Object))
  : M W (option (option error)) :=
  match pages with
  | PageFails e =>
      next_page (S3ListObjectsV2 bucketName) (Some e) ;;;
      ret (Some (Some (fmt_Errorf
                         "failed to list objects in S3 bucket for deletion: " e)))
  | PageLast page =>
      next_page (S3ListObjectsV2 bucketName) None ;;;
      err <- S3Helpers.delete_page remote bucketName page ;;
      match err with
      | Some e => ret (Some (Some e))
      | None => ret None
      end
  | PageMore page rest =>
      next_page (S3ListObjectsV2 bucketName) None ;;;
      err <- S3Helpers.delete_page remote bucketName page ;;
      match err with
      | Some e => ret (Some (Some e))
      | None => empty_bucket bucketName rest
      end
  end.

Definition cleanupS3Bucket (pd : ParkedDomain) : M W (option error) :=
  let bucketName := DomainName (Spec pd) in
  pages <- observe (s3_ListObjectsV2 remote bucketName) ;;
  returned <- empty_bucket bucketName pages ;;
  match returned with
  | Some r => ret r
  | None =>
      err <- request_ (S3DeleteBucket bucketName) (s3_DeleteBucket remote bucketName) ;;
      match err with
      | Some e =>
          if negb (errors_As S3NotFound e)
          then ret (Some (fmt_Errorf "failed to delete S3 bucket: " e))
          else ret None
      | None => ret None
      end
  end.

(** [reconcileS3Bucket] of this copy: as above without the client factory. *)
Definition reconcileS3Bucket (pd : ParkedDomain) : M W (result string) :=
  let bucketName := DomainName (Spec pd) in
  let region := regionOf pd in
  err <- request_ (S3HeadBucket bucketName) (s3_HeadBucket remote bucketName) ;;
  match err with
  | Some e =>
      if errors_As S3NotFound e then
        let location := if region =? "us-east-1" then None else Some region in
        createErr <- request_ (S3CreateBucket bucketName location)
                              (s3_CreateBucket remote bucketName location) ;;
        match createErr with
        | Some ce => ret (Err (fmt_Errorf "failed to create S3 bucket: " ce))
        | None => S3Helpers.configureBucket remote pd region
        end
      else ret (Err (fmt_Errorf "failed to check S3 bucket existence: " e))
  | None => S3Helpers.configureBucket remote pd region
  end.

End WithRemote.
End S3HelpersAlt.

(** ** The controller (internal/controller/parkeddomain_controller.go) *)

Definition finalizerName : string := "parking.minibaev.eu/finalizer".

(** [ctrl.Result]; the controller only ever returns the zero value. *)
Record Result : Type := { Requeue : bool; RequeueAfter : Z }.
Definition noResult : Result := {| Requeue := false; RequeueAfter := 0 |}.

(** The five helper methods of [ParkedDomainReconciler] that [Reconcile]
    calls; the repository holds two copies of the S3 and Route 53 files. *)
Record Helpers (W : Type) : Type := {
  reconcileRoute53Zone : ParkedDomain -> M W (result (string * list string));
  reconcileS3Bucket : ParkedDomain -> M W (result string);
  reconcileRoute53ARecord : ParkedDomain -> string -> string -> M W (option error);
  cleanupS3Bucket : ParkedDomain -> M W (option error);
  cleanupRoute53Zone : ParkedDomain -> M W (option error) }.

(** The helpers of aws_s3_helpers.go and of the list-then-adopt Route 53 file. *)
Definition helpers {W} (remote : Remote W) : Helpers W :=
  {| reconcileRoute53Zone := Route53Helpers.reconcileRoute53Zone remote;
     reconcileS3Bucket := S3Helpers.reconcileS3Bucket remote;
     reconcileRoute53ARecord := Route53Helpers.reconcileRoute53ARecord remote;
     cleanupS3Bucket := S3Helpers.cleanupS3Bucket remote;
     cleanupRoute53Zone := Route53Helpers.cleanupRoute53Zone remote |}.

(** The helpers of the other two copies. *)
Definition helpersAlt {W} (remote : Remote W) : Helpers W :=
  {| reconcileRoute53Zone := Route53HelpersAlt.reconcileRoute53Zone remote;
     reconcileS3Bucket := S3HelpersAlt.reconcileS3Bucket remote;
     reconcileRoute53ARecord := Route53Helpers.reconcileRoute53ARecord remote;
     cleanupS3Bucket := S3HelpersAlt.cleanupS3Bucket remote;
     cleanupRoute53Zone := Route53Helpers.cleanupRoute53Zone remote |}.

Section Controller.
Context {W : Type} (remote : Remote W) (r : Helpers W).

(** [r.Status().Update(ctx, pd)]. *)
Definition statusUpdate (pd : ParkedDomain) : M W (option error) :=
  request_ (KStatusUpdate pd) (k8s_StatusUpdate remote pd).

(** Steps 3 and 4 of [Reconcile]: the three stages, then the status. *)
Definition reconcileResources (pd : ParkedDomain) : M W (Result * option error) :=
  zone <- reconcileRoute53Zone r pd ;;
  match zone with
  | Err err =>
      let pd := set_Status pd "Error: Route53 Zone" in
      statusUpdate pd ;;;
      ret (noResult, Some err)
  | Ok (zoneID, nameservers) =>
      bucket <- reconcileS3Bucket r pd ;;
      match bucket with
      | Err err =>
          let pd := set_Status pd "Error: S3 Bucket" in
          statusUpdate pd ;;;
          ret (noResult, Some err)
      | Ok s3Endpoint =>
          err <- reconcileRoute53ARecord r pd zoneID s3Endpoint ;;
          match err with
          | Some err =>
              let pd := set_Status pd "Error: Route53 A Record" in
              statusUpdate pd ;;;
              ret (noResult, Some err)
          | None =>
              let pd := set_Status pd "Provisioned" in
              let pd := set_ZoneID pd zoneID in
              let pd := set_NameServers pd nameservers in
              err <- statusUpdate pd ;;
              match err with
              | Some err => ret (noResult, Some err)
              | None => ret (noResult, None)
              end
          end
      end
  end.

(** The deletion branch of step 2, for an object that holds the finalizer. *)
Definition finalize (pd : ParkedDomain) : M W (Result * option error) :=
  err <- cleanupS3Bucket r pd ;;
  match err with
  | Some err => ret (noResult, Some err)
  | None =>
      err <- cleanupRoute53Zone r pd ;;
      match err with
      | Some err => ret (noResult, Some err)
      | None =>
          let pd := controllerutil.RemoveFinalizer pd finalizerName in
          err <- request_ (KUpdate pd) (k8s_Update remote pd) ;;
          match err with
          | Some err => ret (noResult, Some err)
          | None => ret (noResult, None)
          end
      end
  end.

Definition Reconcile (req : NamespacedName) : M W (Result * option error) :=
  got <- request (KGet req) (k8s_Get remote req) ;;
  match got with
  | Err err =>
      if apierrors_IsNotFound err then ret (noResult, None)
      else ret (noResult, Some err)
  | Ok pd =>
      if IsZero (DeletionTimestamp (Meta pd)) then
        if negb (controllerutil.ContainsFinalizer pd finalizerName) then
          let pd := controllerutil.AddFinalizer pd finalizerName in
          err <- request_ (KUpdate pd) (k8s_Update remote pd) ;;
          match err with
          | Some err => ret (noResult, Some err)
          | None => reconcileResources pd
          end
        else reconcileResources pd
      else
        if controllerutil.ContainsFinalizer pd finalizerName then finalize pd
        else ret (noResult, None)
  end.

End Controller.

(** ** An in-memory fake of the remote world

    After the mock clients of parkeddomain_controller_test.go, with the
    answers of the requests a scenario varies taken as arguments.  The fake
    remembers whether the bucket exists and a script of failures for
    [PutBucketPolicy]. *)

Record FakeWorld : Type := {
  fwBucketExists : bool;
  fwPolicyErrors : list error;
  fwClock : Z }.

Definition fake (get : result ParkedDomain)
           (zones : result (list HostedZone)) (getZone create : result ZoneOutput)
           (records : Pager (list ResourceRecordSet))
           (objects : Pager (list S3Object)) : Remote FakeWorld :=
  {| k8s_Get := fun _ w => (get, w);
     k8s_Update := fun _ w => (None, w);
     k8s_StatusUpdate := fun _ w => (None, w);
     k8s_GetConfigMap := fun _ w =>
       (Ok {| cmData := [("default.html", "<h1>{{DOMAIN_NAME}}</h1>")] |}, w);
     os_Getenv := fun name _ =>
       if name =? "TEMPLATE_CONFIGMAP_NAME" then "parking-templates" else "";
     time_Now_Unix := fwClock;
     s3_GetClient := fun _ w => (None, w);
     s3_HeadBucket := fun _ w =>
       (if fwBucketExists w then None else Some (TypedError S3NotFound "NotFound"), w);
     s3_CreateBucket := fun _ _ w =>
       (None, {| fwBucketExists := true; fwPolicyErrors := fwPolicyErrors w;
                 fwClock := fwClock w |});
     s3_PutObject := fun _ _ _ _ w => (None, w);
     s3_PutBucketWebsite := fun _ _ w => (None, w);
     s3_PutBucketPolicy := fun _ _ w =>
       match fwPolicyErrors w with
       | e :: es => (Some e, {| fwBucketExists := fwBucketExists w;
                                fwPolicyErrors := es; fwClock := fwClock w |})
       | [] => (None, w)
       end;
     s3_ListObjectsV2 := fun _ _ => objects;
     s3_DeleteObjects := fun _ _ w => (None, w);
     s3_DeleteBucket := fun _ w =>
       (None, {| fwBucketExists := false; fwPolicyErrors := fwPolicyErrors w;
                 fwClock := fwClock w |});
     r53_ListHostedZonesByName := fun _ w => (zones, w);
     r53_GetHostedZone := fun _ w => (getZone, w);
     r53_CreateHostedZone := fun _ _ w => (create, w);
     r53_ChangeResourceRecordSets := fun _ _ w => (None, w);
     r53_ListResourceRecordSets := fun _ _ => records;
     r53_DeleteHostedZone := fun _ w => (None, w) |}.

(** The intent of the test suite, as the store first hands it out. *)
Definition testDomain : ParkedDomain :=
  {| Meta := {| Name := "test-domain"; Namespace := "default";
                DeletionTimestamp := None; Finalizers := [] |};
     Spec := {| DomainName := "test.example.com"; Region := ""; TemplateName := "" |};
     PDStatus := {| Status := ""; ZoneID := ""; NameServers := [] |} |}.

Definition testKey : NamespacedName :=
  {| nnNamespace := "default"; nnName := "test-domain" |}.

(** What the mock Route 53 client answers to [CreateHostedZone]. *)
Definition mockZone : ZoneOutput :=
  {| zoHostedZoneId := "/hostedzone/MOCKZONEID123";
     zoNameServers := ["ns-1.awsdns.com"; "ns-2.awsdns.com"] |}.

(** The mock listings: a zone with only its NS and SOA records, an empty bucket. *)
Definition mockRecords : Pager (list ResourceRecordSet) :=
  PageLast [ {| rrName := "test.example.com."; rrType := "NS"; rrAliasTarget := None |};
             {| rrName := "test.example.com."; rrType := "SOA"; rrAliasTarget := None |} ].

Definition mockObjects : Pager (list S3Object) := PageLast [].

Definition freshWorld : FakeWorld :=
  {| fwBucketExists := false; fwPolicyErrors := []; fwClock := 1700000000 |}.

Definition start {W} (w : W) : State W := {| world := w; log := [] |}.

(** The error a paginator ends with, if it does. *)
Fixpoint pager_error {P} (pages : Pager P) : option error :=
  match pages with
  | PageFails e => Some e
  | PageLast _ => None
  | PageMore _ rest => pager_error rest
  end.

(** The pages a paginator hands out before it ends. *)
Fixpoint pager_pages {P} (pages : Pager P) : list P :=
  match pages with
  | PageFails _ => []
  | PageLast p => [p]
  | PageMore p rest => p :: pager_pages rest
  end.

(** ** Vocabulary of the statements *)

(** The log entries of a paginator run to its end: one per [NextPage]. *)
Fixpoint page_events {P} (c : Call) (pages : Pager P) : list Event :=
  match pages with
  | PageFails e => [Ev c (Some e)]
  | PageLast _ => [Ev c None]
  | PageMore _ rest => Ev c None :: page_events c rest
  end.

(** The deletions [cleanupRoute53Zone] collects from a list of records. *)
Definition deletions (records : list ResourceRecordSet) : list Change :=
  map (fun record => {| chAction := ChangeActionDelete; chResourceRecordSet := record |})
      (filter (fun record => negb (rrType record =? "NS") && negb (rrType record =? "SOA"))
              records).

Definition ok_event (c : Call) : Event := Ev c None.

(** The requests that empty a bucket listed as [pages]: per page one
    listing and, unless the page is empty, one [DeleteObjects] with exactly
    the keys of the page. *)
Definition bucket_calls (bucketName : string) (pages : list (list S3Object)) : list Call :=
  flat_map (fun page =>
              S3ListObjectsV2 bucketName ::
              (if (0 <? length page)%nat
               then [S3DeleteObjects bucketName (map objKey page)] else []))
           pages.

(** How a run of [cleanupS3Bucket] or of its loop can have gone: every
    request answered without error, or all but the last one. *)
Definition all_ok (evs : list Event) (cs : list Call) : Prop :=
  evs = map ok_event cs.

Definition failed_at (evs : list Event) (c : Call) (e : error) : Prop :=
  exists cs : list Call, evs = (map ok_event cs ++ [Ev c (Some e)])%list.

(** The requests of [configureBucket] besides the upload. *)
Definition configure_call (bucketName : string) (c : Call) : Prop :=
  (exists key, c = KGetConfigMap key)
  \/ c = S3PutBucketWebsite bucketName "index.html"
  \/ c = S3PutBucketPolicy bucketName (S3Helpers.publicReadPolicy bucketName).

(** [Reconcile] gets to its step 3 with object [pd] in state [st']: the
    store handed out [fetched], not marked for deletion, which either held
    the finalizer already or got it by an update that succeeded. *)
Definition reaches_stages {W} (remote : Remote W) (req : NamespacedName)
           (st : State W) (fetched pd : ParkedDomain) (st' : State W) : Prop :=
  exists w1 : W,
    k8s_Get remote req (world st) = (Ok fetched, w1)
    /\ IsZero (DeletionTimestamp (Meta fetched)) = true
    /\ ((controllerutil.ContainsFinalizer fetched finalizerName = true
         /\ pd = fetched
         /\ st' = mkState w1 (log st ++ [Ev (KGet req) None]))
        \/ (controllerutil.ContainsFinalizer fetched finalizerName = false
            /\ pd = controllerutil.AddFinalizer fetched finalizerName
            /\ exists w2 : W,
                 k8s_Update remote pd w1 = (None, w2)
                 /\ st' = mkState w2 (log st ++ [Ev (KGet req) None;
                                                 Ev (KUpdate pd) None]))).

(** The object and log entry of a status write. *)
Definition status_written {W} (remote : Remote W) (pd : ParkedDomain) (s : State W)
  : State W :=
  mkState (snd (k8s_StatusUpdate remote pd (world s)))
          (log s ++ [Ev (KStatusUpdate pd) (fst (k8s_StatusUpdate remote pd (world s)))]).

(** What [cleanupS3Bucket] returns when a listing fails with [e]. *)
Definition list_failure (e : error) : option error :=
  if errors_As S3NoSuchBucket e then None
  else Some (fmt_Errorf "failed to list objects in S3 bucket for deletion: " e).

(** ** Scenarios *)

(** The record of the specification's example: domain example.com in the
    default region; and an intent in a region the table lacks. *)
Definition exampleDomain (region : string) : ParkedDomain :=
  {| Meta := {| Name := "example"; Namespace := "default";
                DeletionTimestamp := None; Finalizers := [finalizerName] |};
     Spec := {| DomainName := "example.com"; Region := region; TemplateName := "" |};
     PDStatus := {| Status := ""; ZoneID := ""; NameServers := [] |} |}.

Definition exampleRemote : Remote FakeWorld :=
  fake (Ok (exampleDomain "")) (Ok []) (Ok mockZone) (Ok mockZone) mockRecords mockObjects.

Definition exampleKey : NamespacedName :=
  {| nnNamespace := "default"; nnName := "example" |}.

Definition existingZoneRemote : Remote FakeWorld :=
  fake (Ok (exampleDomain ""))
       (Ok [ {| hzId := "/hostedzone/Z0EXISTING"; hzName := "example.com." |} ])
       (Ok {| zoHostedZoneId := "/hostedzone/Z0EXISTING";
              zoNameServers := ["ns-7.awsdns.org"; "ns-8.awsdns.net"] |})
       (Err (TypedError R53HostedZoneAlreadyExists "HostedZoneAlreadyExists"))
       mockRecords mockObjects.

Definition provisionedDomain : ParkedDomain :=
  {| Meta := {| Name := "example"; Namespace := "default";
                DeletionTimestamp := Some 63835596900%Z; Finalizers := [finalizerName] |};
     Spec := {| DomainName := "example.com"; Region := ""; TemplateName := "" |};
     PDStatus := {| Status := "Provisioned"; ZoneID := "Z0EXISTING";
                    NameServers := ["ns-7.awsdns.org"] |} |}.

(** A world whose hosted zone is already gone. *)
Definition zoneGoneRemote : Remote FakeWorld :=
  fake (Ok provisionedDomain) (Ok []) (Ok mockZone) (Ok mockZone)
       (PageFails (TypedError R53NoSuchHostedZone "NoSuchHostedZone")) mockObjects.

Definition objectsRemote (objects : Pager (list S3Object)) : Remote FakeWorld :=
  fake (Ok provisionedDomain) (Ok []) (Ok mockZone) (Ok mockZone) mockRecords objects.

(** A world in which the first [PutBucketPolicy] is refused. *)
Definition policyRefusedWorld : FakeWorld :=
  {| fwBucketExists := false;
     fwPolicyErrors := [TypedError (OtherType "AccessDenied") "AccessDenied"];
     fwClock := 1700000000 |}.

(** An intent for a region outside the alias table: zone and bucket stages
    succeed, the record stage fails. *)
Definition farRemote : Remote FakeWorld :=
  fake (Ok (exampleDomain "ap-south-1")) (Ok []) (Ok mockZone) (Ok mockZone)
       mockRecords mockObjects.

Definition testRemote : Remote FakeWorld :=
  fake (Ok testDomain) (Ok []) (Ok mockZone) (Ok mockZone) mockRecords mockObjects.

(** ** Vocabulary of the further properties *)

(** [m] only appends to the log, and every request it appends is a [P]. *)
Definition emits {W A} (P : Call -> Prop) (m : M W A) : Prop :=
  forall st : State W,
  exists evs : list Event,
    log (snd (m st)) = (log st ++ evs)%list
    /\ Forall (fun ev => P (ev_call ev)) evs.

(** The requests [reconcileRoute53Zone] can make for [pd]. *)
Inductive zone_request (pd : ParkedDomain) : Call -> Prop :=
| zone_list : zone_request pd (R53ListHostedZonesByName (DomainName (Spec pd)))
| zone_get (id : string) : zone_request pd (R53GetHostedZone id)
| zone_create (callerReference : string) :
    zone_request pd (R53CreateHostedZone (DomainName (Spec pd)) callerReference).

(** The requests [reconcileS3Bucket] can make for [pd]. *)
Inductive bucket_request (pd : ParkedDomain) : Call -> Prop :=
| bucket_client : bucket_request pd (S3GetClient (regionOf pd))
| bucket_head : bucket_request pd (S3HeadBucket (DomainName (Spec pd)))
| bucket_create :
    bucket_request pd
      (S3CreateBucket (DomainName (Spec pd))
         (if negb (regionOf pd =? "us-east-1") then Some (regionOf pd) else None))
| bucket_template (key : NamespacedName) : bucket_request pd (KGetConfigMap key)
| bucket_upload (templateContent : string) :
    bucket_request pd
      (S3PutObject (DomainName (Spec pd)) "index.html"
         (S3Helpers.finalContent templateContent (DomainName (Spec pd))) "text/html")
| bucket_website :
    bucket_request pd (S3PutBucketWebsite (DomainName (Spec pd)) "index.html")
| bucket_policy :
    bucket_request pd
      (S3PutBucketPolicy (DomainName (Spec pd))
         (S3Helpers.publicReadPolicy (DomainName (Spec pd)))).

(** The request [reconcileRoute53ARecord] can make. *)
Inductive record_request (pd : ParkedDomain) (zoneID s3Endpoint : string) : Call -> Prop :=
| record_upsert (id : string) :
    map_lookup Route53Helpers.s3HostedZoneIDs (regionOf pd) = Some id ->
    record_request pd zoneID s3Endpoint
      (R53ChangeResourceRecordSets zoneID
         (Route53Helpers.aliasChangeBatch (DomainName (Spec pd)) id s3Endpoint)).

(** The requests [cleanupS3Bucket] can make for [pd]. *)
Inductive bucket_cleanup_request (pd : ParkedDomain) : Call -> Prop :=
| bucket_cleanup_client : bucket_cleanup_request pd (S3GetClient (regionOf pd))
| bucket_cleanup_list : bucket_cleanup_request pd (S3ListObjectsV2 (DomainName (Spec pd)))
| bucket_cleanup_objects (keys : list string) :
    bucket_cleanup_request pd (S3DeleteObjects (DomainName (Spec pd)) keys)
| bucket_cleanup_bucket : bucket_cleanup_request pd (S3DeleteBucket (DomainName (Spec pd))).

(** A change that deletes a record which is neither NS nor SOA. *)
Definition record_deletion (ch : Change) : Prop :=
  chAction ch = ChangeActionDelete
  /\ rrType (chResourceRecordSet ch) <> "NS"
  /\ rrType (chResourceRecordSet ch) <> "SOA".

(** The requests [cleanupRoute53Zone] can make for [pd]. *)
Inductive zone_cleanup_request (pd : ParkedDomain) : Call -> Prop :=
| zone_cleanup_list :
    zone_cleanup_request pd (R53ListResourceRecordSets (ZoneID (PDStatus pd)))
| zone_cleanup_records (changes : list Change) :
    changes <> [] ->
    Forall record_deletion changes ->
    zone_cleanup_request pd
      (R53ChangeResourceRecordSets (ZoneID (PDStatus pd))
         {| cbComment := None; cbChanges := changes |})
| zone_cleanup_zone :
    zone_cleanup_request pd (R53DeleteHostedZone (ZoneID (PDStatus pd))).

(** The requests that take something away in AWS: objects, a bucket, a
    zone, or a record by a DELETE change. *)
Definition destructive (c : Call) : bool :=
  match c with
  | S3DeleteObjects _ _ | S3DeleteBucket _ | R53DeleteHostedZone _ => true
  | R53ChangeResourceRecordSets _ batch =>
      existsb (fun ch => match chAction ch with
                         | ChangeActionDelete => true
                         | _ => false
                         end) (cbChanges batch)
  | _ => false
  end.

(** The requests that create or write something in AWS, or write the
    intent's status. *)
Definition constructive (c : Call) : bool :=
  match c with
  | S3CreateBucket _ _ | S3PutObject _ _ _ _ | S3PutBucketWebsite _ _
  | S3PutBucketPolicy _ _ | R53CreateHostedZone _ _ | KStatusUpdate _ => true
  | R53ChangeResourceRecordSets _ batch =>
      existsb (fun ch => match chAction ch with
                         | ChangeActionDelete => false
                         | _ => true
                         end) (cbChanges batch)
  | _ => false
  end.

(** The bucket a request to S3 addresses. *)
Definition bucket_of (c : Call) : option string :=
  match c with
  | S3HeadBucket b | S3CreateBucket b _ | S3PutObject b _ _ _
  | S3PutBucketWebsite b _ | S3PutBucketPolicy b _ | S3ListObjectsV2 b
  | S3DeleteObjects b _ | S3DeleteBucket b => Some b
  | _ => None
  end.

(** Each helper of the set [r] stays within its requests. *)
Definition scoped_helpers {W} (r : Helpers W) : Prop :=
  (forall pd, emits (zone_request pd) (reconcileRoute53Zone r pd))
  /\ (forall pd, emits (bucket_request pd) (reconcileS3Bucket r pd))
  /\ (forall pd zoneID s3Endpoint,
        emits (record_request pd zoneID s3Endpoint)
              (reconcileRoute53ARecord r pd zoneID s3Endpoint))
  /\ (forall pd, emits (bucket_cleanup_request pd) (cleanupS3Bucket r pd))
  /\ (forall pd, emits (zone_cleanup_request pd) (cleanupRoute53Zone r pd)).

(** The two helper sets of the repository. *)
Definition repository_helpers {W} (remote : Remote W) (r : Helpers W) : Prop :=
  r = helpers remote \/ r = helpersAlt remote.

(** ** Further scenarios *)

(** The store no longer has the intent. *)
Definition goneRemote : Remote FakeWorld :=
  fake (Err (fmt_Errorf "get parkeddomain: " (TypedError K8sNotFound "not found")))
       (Ok []) (Ok mockZone) (Ok mockZone) mockRecords mockObjects.

(** An intent marked for deletion that holds another controller's
    finalizer besides the engine's. *)
Definition sharedDomain : ParkedDomain :=
  {| Meta := {| Name := "example"; Namespace := "default";
                DeletionTimestamp := Some 63835596900%Z;
                Finalizers := ["backup.example.org/hold"; finalizerName] |};
     Spec := {| DomainName := "example.com"; Region := ""; TemplateName := "" |};
     PDStatus := {| Status := "Provisioned"; ZoneID := "Z0EXISTING";
                    NameServers := ["ns-7.awsdns.org"] |} |}.

Definition sharedRemote : Remote FakeWorld :=
  fake (Ok sharedDomain) (Ok []) (Ok mockZone) (Ok mockZone) mockRecords mockObjects.

(** An intent marked for deletion whose finalizer is already gone. *)
Definition releasedDomain : ParkedDomain :=
  {| Meta := {| Name := "example"; Namespace := "default";
                DeletionTimestamp := Some 63835596900%Z;
                Finalizers := ["backup.example.org/hold"] |};
     Spec := {| DomainName := "example.com"; Region := ""; TemplateName := "" |};
     PDStatus := {| Status := "Provisioned"; ZoneID := "Z0EXISTING";
                    NameServers := ["ns-7.awsdns.org"] |} |}.

Definition releasedRemote : Remote FakeWorld :=
  fake (Ok releasedDomain) (Ok []) (Ok mockZone) (Ok mockZone) mockRecords mockObjects.

(** Answers that a scenario fixes, over those of another fake world. *)
Record Answers : Type := {
  anGetClient : option error;
  anHeadBucket : option error;
  anGetenv : string -> string;
  anGetConfigMap : result ConfigMap;
  anDeleteObjects : option error;
  anDeleteBucket : option error;
  anChangeResourceRecordSets : option error;
  anDeleteHostedZone : option error }.

Definition answering (a : Answers) (base : Remote FakeWorld) : Remote FakeWorld :=
  {| k8s_Get := k8s_Get base;
     k8s_Update := k8s_Update base;
     k8s_StatusUpdate := k8s_StatusUpdate base;
     k8s_GetConfigMap := fun _ w => (anGetConfigMap a, w);
     os_Getenv := fun name _ => anGetenv a name;
     time_Now_Unix := time_Now_Unix base;
     s3_GetClient := fun _ w => (anGetClient a, w);
     s3_HeadBucket := fun _ w => (anHeadBucket a, w);
     s3_CreateBucket := s3_CreateBucket base;
     s3_PutObject := s3_PutObject base;
     s3_PutBucketWebsite := s3_PutBucketWebsite base;
     s3_PutBucketPolicy := s3_PutBucketPolicy base;
     s3_ListObjectsV2 := s3_ListObjectsV2 base;
     s3_DeleteObjects := fun _ _ w => (anDeleteObjects a, w);
     s3_DeleteBucket := fun _ w => (anDeleteBucket a, w);
     r53_ListHostedZonesByName := r53_ListHostedZonesByName base;
     r53_GetHostedZone := r53_GetHostedZone base;
     r53_CreateHostedZone := r53_CreateHostedZone base;
     r53_ChangeResourceRecordSets := fun _ _ w => (anChangeResourceRecordSets a, w);
     r53_ListResourceRecordSets := r53_ListResourceRecordSets base;
     r53_DeleteHostedZone := fun _ w => (anDeleteHostedZone a, w) |}.

Definition templateEnv (name : string) : string :=
  if name =? "TEMPLATE_CONFIGMAP_NAME" then "parking-templates" else "".

Definition templateMap : ConfigMap :=
  {| cmData := [("default.html", "<h1>{{DOMAIN_NAME}}</h1>")] |}.

Definition accessDenied : error := TypedError (OtherType "AccessDenied") "AccessDenied".

(** The bucket exists but belongs to someone else: [HeadBucket] is refused. *)
Definition foreignBucketRemote : Remote FakeWorld :=
  answering {| anGetClient := None; anHeadBucket := Some accessDenied;
               anGetenv := templateEnv; anGetConfigMap := Ok templateMap;
               anDeleteObjects := None; anDeleteBucket := None;
               anChangeResourceRecordSets := None; anDeleteHostedZone := None |}
            exampleRemote.

(** The ConfigMap is there but holds no default.html. *)
Definition noTemplateRemote : Remote FakeWorld :=
  answering {| anGetClient := None; anHeadBucket := None;
               anGetenv := templateEnv;
               anGetConfigMap := Ok {| cmData := [("fancy.html", "<p>{{DOMAIN_NAME}}</p>")] |};
               anDeleteObjects := None; anDeleteBucket := None;
               anChangeResourceRecordSets := None; anDeleteHostedZone := None |}
            exampleRemote.

(** The listing starts with a zone of another name; a zone of the exact
    name comes second. *)
Definition secondZoneRemote : Remote FakeWorld :=
  fake (Ok (exampleDomain ""))
       (Ok [ {| hzId := "/hostedzone/Z0OTHER"; hzName := "example.org." |};
             {| hzId := "/hostedzone/Z0EXISTING"; hzName := "example.com." |} ])
       (Ok mockZone) (Ok mockZone) mockRecords mockObjects.

(** Route 53 throttles the listing of zones. *)
Definition throttledRemote : Remote FakeWorld :=
  fake (Ok (exampleDomain ""))
       (Err (TypedError (OtherType "ThrottlingException") "Rate exceeded"))
       (Ok mockZone) (Ok mockZone) mockRecords mockObjects.

(** A zone with its NS and SOA records, the alias record and a TXT record,
    listed on two pages. *)
Definition apexNS : ResourceRecordSet :=
  {| rrName := "example.com."; rrType := "NS"; rrAliasTarget := None |}.
Definition apexSOA : ResourceRecordSet :=
  {| rrName := "example.com."; rrType := "SOA"; rrAliasTarget := None |}.
Definition apexAlias : ResourceRecordSet :=
  {| rrName := "example.com."; rrType := "A";
     rrAliasTarget :=
       Some {| atHostedZoneId := "Z21DNDUVLTQW6Q";
               atDNSName := "example.com.s3-website.eu-central-1.amazonaws.com";
               atEvaluateTargetHealth := false |} |}.
Definition apexTXT : ResourceRecordSet :=
  {| rrName := "example.com."; rrType := "TXT"; rrAliasTarget := None |}.

Definition populatedZoneRemote : Remote FakeWorld :=
  fake (Ok provisionedDomain) (Ok []) (Ok mockZone) (Ok mockZone)
       (PageMore [apexAlias; apexNS] (PageLast [apexSOA; apexTXT])) mockObjects.

(** S3 refuses to delete the objects of the bucket. *)
Definition lockedObjectsRemote : Remote FakeWorld :=
  answering {| anGetClient := None; anHeadBucket := None;
               anGetenv := templateEnv; anGetConfigMap := Ok templateMap;
               anDeleteObjects := Some accessDenied; anDeleteBucket := None;
               anChangeResourceRecordSets := None; anDeleteHostedZone := None |}
            (objectsRemote (PageMore [ {| objKey := "index.html" |} ]
                                     (PageLast [ {| objKey := "logo.png" |} ]))).

(** The request is not a record change. *)
Definition not_a_change (c : Call) : Prop :=
  forall z batch, c <> R53ChangeResourceRecordSets z batch.

(** In [evs], every record change comes directly after a public-read
    policy applied without error to the bucket [bucketName]. *)
Definition change_follows_policy (bucketName : string) (evs : list Event) : Prop :=
  forall (z : string) (batch : ChangeBatch) (outcome : option error),
    In (Ev (R53ChangeResourceRecordSets z batch) outcome) evs ->
    exists pre post : list Event,
      evs = (pre ++ [ Ev (S3PutBucketPolicy bucketName
                            (S3Helpers.publicReadPolicy bucketName)) None;
                      Ev (R53ChangeResourceRecordSets z batch) outcome ] ++ post)%list.

(** The bucket stage of the helper set [r], when it succeeds, has applied
    the policy as its last request. *)
Definition policy_last {W} (r : Helpers W) : Prop :=
  forall (pd : ParkedDomain) (st : State W) (s3Endpoint : string),
    fst (reconcileS3Bucket r pd st) = Ok s3Endpoint ->
    exists pre : list Event,
      log (snd (reconcileS3Bucket r pd st))
      = (log st ++ pre ++
         [ Ev (S3PutBucketPolicy (DomainName (Spec pd))
                 (S3Helpers.publicReadPolicy (DomainName (Spec pd)))) None ])%list.

(** The record stage of the helper set [r] makes at most one request. *)
Definition one_change {W} (r : Helpers W) : Prop :=
  forall (pd : ParkedDomain) (zoneID s3Endpoint : string) (st : State W),
    exists evs : list Event,
      log (snd (reconcileRoute53ARecord r pd zoneID s3Endpoint st)) = (log st ++ evs)%list
      /\ (evs = []
          \/ exists batch outcome,
               evs = [Ev (R53ChangeResourceRecordSets zoneID batch) outcome]).

(** The bucket is empty and already gone when its deletion is asked for. *)
Definition bucketGoneRemote : Remote FakeWorld :=
  answering {| anGetClient := None; anHeadBucket := None;
               anGetenv := templateEnv; anGetConfigMap := Ok templateMap;
               anDeleteObjects := None;
               anDeleteBucket := Some (TypedError S3NoSuchBucket "NoSuchBucket");
               anChangeResourceRecordSets := None; anDeleteHostedZone := None |}
            (objectsRemote mockObjects).

(** An intent marked for deletion whose status never got a zone id. *)
Definition unrecordedDomain : ParkedDomain :=
  {| Meta := {| Name := "example"; Namespace := "default";
                DeletionTimestamp := Some 63835596900%Z; Finalizers := [finalizerName] |};
     Spec := {| DomainName := "example.com"; Region := ""; TemplateName := "" |};
     PDStatus := {| Status := "Error: S3 Bucket"; ZoneID := ""; NameServers := [] |} |}.

Definition unrecordedRemote : Remote FakeWorld :=
  fake (Ok unrecordedDomain) (Ok []) (Ok mockZone) (Ok mockZone) mockRecords mockObjects.

(** * Theorems *)

(** ** Strings *)



Example Replace_mock_zone :
  strings.Replace "/hostedzone/MOCKZONEID123" "/hostedzone/" "" 1 = "MOCKZONEID123".
Proof. reflexivity. Qed.

Example ReplaceAll_template :
  S3Helpers.finalContent "<h1>{{DOMAIN_NAME}}</h1> {{DOMAIN_NAME}} is parked" "example.com"
  = "<h1>example.com</h1> example.com is parked".
Proof. reflexivity. Qed.

Example fmt_d_unix : fmt_d 1700000000 = "1700000000".
Proof. reflexivity. Qed.

(** ** Running the monad *)

(** Unfold the monad's operations and reduce what is then a redex; [step H]
    feeds in the answer [H] of the next request. *)
Ltac norm := cbn [world log fst snd err_of]; cbv beta iota zeta.

Ltac unfold_monad :=
  unfold bind, ret, request, request_, next_page, observe; norm.

Ltac step H := rewrite H; norm.

Lemma bind_run {W A B} (m : M W A) (k : A -> M W B) (st : State W) :
  bind m k st = k (fst (m st)) (snd (m st)).
Proof. unfold bind. destruct (m st); reflexivity. Qed.

(** ** The Record Driver: [reconcileRoute53ARecord] *)

Lemma s3HostedZoneIDs_nonempty (region id : string) :
  map_lookup Route53Helpers.s3HostedZoneIDs region = Some id -> id <> "".
Proof.
  unfold Route53Helpers.s3HostedZoneIDs. cbn [map_lookup].
  repeat (destruct (_ =? region)%string;
          [intros H; inversion H; subst; discriminate|]).
  discriminate.
Qed.

(** C7: For a region that the fixed alias-zone table does not list,
    [reconcileRoute53ARecord] returns the unsupported-region error and
    leaves world and log untouched, so no request is made.  For a listed
    region it makes exactly one [ChangeResourceRecordSets] request, with one
    UPSERT change of an alias A record named after the domain, whose DNS
    name is the given website endpoint and whose hosted zone id is the
    table's entry; its result is that request's.  The region is the one of
    the intent, eu-central-1 when that is empty, and the table maps
    eu-central-1 to Z21DNDUVLTQW6Q. *)
Theorem reconcileRoute53ARecord_region_table :
  forall (W : Type) (remote : Remote W) (pd : ParkedDomain)
         (zoneID s3Endpoint : string) (st : State W),
    let region := regionOf pd in
    (map_lookup Route53Helpers.s3HostedZoneIDs region = None ->
     Route53Helpers.reconcileRoute53ARecord remote pd zoneID s3Endpoint st
     = (Some (errors_New ("unsupported S3 website region for alias record: " ++ region)),
        st))
    /\ (forall id : string,
          map_lookup Route53Helpers.s3HostedZoneIDs region = Some id ->
          exists batch : ChangeBatch,
            cbChanges batch =
              [ {| chAction := ChangeActionUpsert;
                   chResourceRecordSet :=
                     {| rrName := DomainName (Spec pd);
                        rrType := "A";
                        rrAliasTarget :=
                          Some {| atHostedZoneId := id;
                                  atDNSName := s3Endpoint;
                                  atEvaluateTargetHealth := false |} |} |} ]
            /\ Route53Helpers.reconcileRoute53ARecord remote pd zoneID s3Endpoint st
               = (option_map (fmt_Errorf "failed to create/update A record: ")
                    (fst (r53_ChangeResourceRecordSets remote zoneID batch (world st))),
                  mkState
                    (snd (r53_ChangeResourceRecordSets remote zoneID batch (world st)))
                    (log st ++
                     [Ev (R53ChangeResourceRecordSets zoneID batch)
                         (fst (r53_ChangeResourceRecordSets remote zoneID batch
                                 (world st)))])))
    /\ (Region (Spec pd) = "" -> region = "eu-central-1")
    /\ map_lookup Route53Helpers.s3HostedZoneIDs "eu-central-1" = Some "Z21DNDUVLTQW6Q".
Proof.
  intros W remote pd zoneID s3Endpoint st region.
  repeat split.
  - intros Hnone.
    unfold Route53Helpers.reconcileRoute53ARecord,
      Route53Helpers.getS3WebsiteHostedZoneID.
    fold region. rewrite Hnone. reflexivity.
  - intros id Hsome.
    exists (Route53Helpers.aliasChangeBatch (DomainName (Spec pd)) id s3Endpoint).
    split; [reflexivity|].
    unfold Route53Helpers.reconcileRoute53ARecord,
      Route53Helpers.getS3WebsiteHostedZoneID.
    fold region. rewrite Hsome.
    destruct (id =? "")%string eqn:Hid.
    + apply String.eqb_eq in Hid. now apply s3HostedZoneIDs_nonempty in Hsome.
    + unfold bind, request_, ret.
      destruct (r53_ChangeResourceRecordSets remote zoneID _ (world st)) as [[e|] w'];
        reflexivity.
  - intros Hreg. unfold region, regionOf. now rewrite Hreg.
Qed.

Lemma reconcileRoute53ARecord_region_table_witness :
  Route53Helpers.reconcileRoute53ARecord exampleRemote (exampleDomain "ap-south-1")
    "Z123" "example.com.s3-website.ap-south-1.amazonaws.com" (start freshWorld)
  = (Some (errors_New "unsupported S3 website region for alias record: ap-south-1"),
     start freshWorld)
  /\ (exists batch : ChangeBatch,
        cbChanges batch =
          [ {| chAction := ChangeActionUpsert;
               chResourceRecordSet :=
                 {| rrName := "example.com";
                    rrType := "A";
                    rrAliasTarget :=
                      Some {| atHostedZoneId := "Z21DNDUVLTQW6Q";
                              atDNSName := "example.com.s3-website.eu-central-1.amazonaws.com";
                              atEvaluateTargetHealth := false |} |} |} ]
        /\ Route53Helpers.reconcileRoute53ARecord exampleRemote (exampleDomain "")
             "Z123" "example.com.s3-website.eu-central-1.amazonaws.com" (start freshWorld)
           = (None,
              mkState freshWorld [Ev (R53ChangeResourceRecordSets "Z123" batch) None])).
Proof.
  split.
  - apply (reconcileRoute53ARecord_region_table exampleRemote
             (exampleDomain "ap-south-1") "Z123"
             "example.com.s3-website.ap-south-1.amazonaws.com" (start freshWorld)).
    reflexivity.
  - destruct (reconcileRoute53ARecord_region_table exampleRemote
                (exampleDomain "") "Z123"
                "example.com.s3-website.eu-central-1.amazonaws.com" (start freshWorld))
      as (_ & Hsome & _).
    destruct (Hsome "Z21DNDUVLTQW6Q" eq_refl) as (batch & Hb & Hrun).
    exists batch. split; [exact Hb | exact Hrun].
Defined.

(** ** The Zone Driver: [reconcileRoute53Zone] *)



(** No exact match in the listing and a [CreateHostedZone] that fails: the
    list-then-adopt copy returns the wrapped error, whatever its type. *)
Lemma reconcileRoute53Zone_create_error :
  forall (W : Type) (remote : Remote W) (pd : ParkedDomain) (st : State W)
         (zones : list HostedZone) (w1 w2 : W) (e : error),
    r53_ListHostedZonesByName remote (DomainName (Spec pd)) (world st) = (Ok zones, w1) ->
    Route53Helpers.exact_first zones (DomainName (Spec pd)) = None ->
    r53_CreateHostedZone remote (DomainName (Spec pd))
      ("parkeddomain-operator-" ++ Name (Meta pd) ++ "-" ++ fmt_d (time_Now_Unix remote w1))
      w1 = (Err e, w2) ->
    fst (Route53Helpers.reconcileRoute53Zone remote pd st)
    = Err (fmt_Errorf "failed to create Route 53 Hosted Zone: " e).
Proof.
  intros W remote pd st zones w1 w2 e Hlist Hnone Hcreate.
  unfold Route53Helpers.reconcileRoute53Zone, Route53Helpers.createHostedZone.
  unfold_monad. step Hlist. step Hnone. step Hcreate. reflexivity.
Qed.

(** C1: In the copy of [reconcileRoute53Zone] that handles the conflict,
    an intent without a recorded zone id whose [CreateHostedZone] fails with
    [HostedZoneAlreadyExists] gets the constant EXISTING_ZONE_ID_PLACEHOLDER
    and no name servers, reported as success, after that single request: no
    lookup of the existing zone takes place. *)
Theorem reconcileRoute53Zone_conflict_placeholder :
  forall (W : Type) (remote : Remote W) (pd : ParkedDomain) (st : State W)
         (e : error) (w' : W),
    ZoneID (PDStatus pd) = "" ->
    r53_CreateHostedZone remote (DomainName (Spec pd))
      ("parkeddomain-operator-" ++ Name (Meta pd) ++ "-"
       ++ fmt_d (time_Now_Unix remote (world st)))
      (world st) = (Err e, w') ->
    errors_As R53HostedZoneAlreadyExists e = true ->
    Route53HelpersAlt.reconcileRoute53Zone remote pd st
    = (Ok ("EXISTING_ZONE_ID_PLACEHOLDER", []),
       mkState w'
         (log st ++
          [ Ev (R53CreateHostedZone (DomainName (Spec pd))
                  ("parkeddomain-operator-" ++ Name (Meta pd) ++ "-"
                   ++ fmt_d (time_Now_Unix remote (world st))))
               (Some e) ])).
Proof.
  intros W remote pd st e w' Hzone Hcreate Has.
  unfold Route53HelpersAlt.reconcileRoute53Zone, Route53Helpers.createHostedZone.
  rewrite Hzone. cbn [String.eqb negb]. unfold_monad. step Hcreate.
  rewrite Has. reflexivity.
Qed.

Lemma reconcileRoute53Zone_conflict_placeholder_witness :
  Route53HelpersAlt.reconcileRoute53Zone existingZoneRemote (exampleDomain "")
    (start freshWorld)
  = (Ok ("EXISTING_ZONE_ID_PLACEHOLDER", []),
     mkState freshWorld
       [ Ev (R53CreateHostedZone "example.com" "parkeddomain-operator-example-1700000000")
            (Some (TypedError R53HostedZoneAlreadyExists "HostedZoneAlreadyExists")) ]).
Proof.
  exact (reconcileRoute53Zone_conflict_placeholder existingZoneRemote (exampleDomain "")
           (start freshWorld) (w' := freshWorld) eq_refl eq_refl eq_refl).
Defined.

(** ** The Zone Driver: [cleanupRoute53Zone] *)

Lemma range_records_deletions (records : list ResourceRecordSet) (changes : list Change) :
  Route53Helpers.range_records records changes = (changes ++ deletions records)%list.
Proof.
  revert changes. induction records as [|record records IH]; intros changes.
  - simpl. now rewrite app_nil_r.
  - cbn [Route53Helpers.range_records]. rewrite IH. unfold deletions.
    cbn [filter].
    destruct (negb (rrType record =? "NS") && negb (rrType record =? "SOA")).
    + cbn [map]. now rewrite <- app_assoc.
    + reflexivity.
Qed.

Lemma deletions_app (xs ys : list ResourceRecordSet) :
  deletions (xs ++ ys) = (deletions xs ++ deletions ys)%list.
Proof. unfold deletions. now rewrite filter_app, map_app. Qed.

(** The paginator loop visits every page, keeps the world as it is, and
    ends with the paginator's error or with the deletions of all records. *)
Lemma list_records_run {W} (zoneID : string)
      (pages : Pager (list ResourceRecordSet)) :
  forall (changes : list Change) (st : State W),
    Route53Helpers.list_records zoneID pages changes st
    = (match pager_error pages with
       | Some e => Err e
       | None => Ok (changes ++ deletions (concat (pager_pages pages)))%list
       end,
       mkState (world st)
               (log st ++ page_events (R53ListResourceRecordSets zoneID) pages)).
Proof.
  induction pages as [e|page|page rest IH]; intros changes st.
  - reflexivity.
  - cbn [Route53Helpers.list_records pager_error pager_pages page_events concat].
    unfold_monad. now rewrite range_records_deletions, app_nil_r.
  - cbn [Route53Helpers.list_records pager_error pager_pages page_events concat].
    unfold bind, next_page. rewrite IH. norm.
    rewrite range_records_deletions, deletions_app.
    destruct (pager_error rest); rewrite <- ?app_assoc; reflexivity.
Qed.

(** With no zone id on the intent, [cleanupRoute53Zone] succeeds without a
    request. *)
Lemma cleanupRoute53Zone_empty {W} (remote : Remote W) (pd : ParkedDomain) (st : State W) :
  ZoneID (PDStatus pd) = "" ->
  Route53Helpers.cleanupRoute53Zone remote pd st = (None, st).
Proof.
  intros H. unfold Route53Helpers.cleanupRoute53Zone. now rewrite H.
Qed.

(** C3: With a zone id on the intent, a listing of the zone's records
    that ends in an error makes [cleanupRoute53Zone] fail with that error
    wrapped, after the [ListResourceRecordSets] requests alone; a
    [NoSuchHostedZone] error is no exception, so the teardown of a zone that
    is already gone fails instead of succeeding. *)
Theorem cleanupRoute53Zone_listing_not_found :
  forall (W : Type) (remote : Remote W) (pd : ParkedDomain) (st : State W) (e : error),
    ZoneID (PDStatus pd) <> "" ->
    pager_error (r53_ListResourceRecordSets remote (ZoneID (PDStatus pd)) (world st))
      = Some e ->
    errors_As R53NoSuchHostedZone e = true ->
    Route53Helpers.cleanupRoute53Zone remote pd st
    = (Some (fmt_Errorf "failed to list records in Hosted Zone: " e),
       mkState (world st)
         (log st ++
          page_events (R53ListResourceRecordSets (ZoneID (PDStatus pd)))
            (r53_ListResourceRecordSets remote (ZoneID (PDStatus pd)) (world st)))).
Proof.
  intros W remote pd st e Hid Herr _.
  unfold Route53Helpers.cleanupRoute53Zone.
  apply String.eqb_neq in Hid. rewrite Hid.
  unfold bind, observe. rewrite list_records_run, Herr. reflexivity.
Qed.

Lemma cleanupRoute53Zone_listing_not_found_witness :
  Route53Helpers.cleanupRoute53Zone zoneGoneRemote provisionedDomain (start freshWorld)
  = (Some (fmt_Errorf "failed to list records in Hosted Zone: "
             (TypedError R53NoSuchHostedZone "NoSuchHostedZone")),
     mkState freshWorld
       [ Ev (R53ListResourceRecordSets "Z0EXISTING")
            (Some (TypedError R53NoSuchHostedZone "NoSuchHostedZone")) ]).
Proof.
  apply (@cleanupRoute53Zone_listing_not_found _ zoneGoneRemote provisionedDomain
           (start freshWorld) (TypedError R53NoSuchHostedZone "NoSuchHostedZone")).
  - discriminate.
  - reflexivity.
  - reflexivity.
Defined.

(** When the listing succeeds, the records other than NS and SOA go in one
    batch (none: no batch), a failed batch is an error whatever its type,
    and then the zone is deleted, where [NoSuchHostedZone] counts as done. *)
Lemma cleanupRoute53Zone_listed {W} (remote : Remote W) (pd : ParkedDomain) (st : State W) :
  let zoneID := ZoneID (PDStatus pd) in
  let pages := r53_ListResourceRecordSets remote zoneID (world st) in
  let changes := deletions (concat (pager_pages pages)) in
  let listed := mkState (world st)
                        (log st ++ page_events (R53ListResourceRecordSets zoneID) pages) in
  let batch := {| cbComment := None; cbChanges := changes |} in
  zoneID <> "" ->
  pager_error pages = None ->
  Route53Helpers.cleanupRoute53Zone remote pd st
  = (let '(err, batched) :=
       match changes with
       | [] => (None, listed)
       | _ :: _ => request_ (R53ChangeResourceRecordSets zoneID batch)
                            (r53_ChangeResourceRecordSets remote zoneID batch) listed
       end in
     match err with
     | Some e => (Some (fmt_Errorf "failed to delete records from Hosted Zone: " e), batched)
     | None =>
         let '(err, deleted) :=
           request_ (R53DeleteHostedZone zoneID) (r53_DeleteHostedZone remote zoneID)
                    batched in
         (match err with
          | Some e => if errors_As R53NoSuchHostedZone e then None
                      else Some (fmt_Errorf "failed to delete Hosted Zone: " e)
          | None => None
          end, deleted)
     end).
Proof.
  intros zoneID pages changes listed batch Hid Hok.
  unfold Route53Helpers.cleanupRoute53Zone. fold zoneID.
  apply String.eqb_neq in Hid. rewrite Hid.
  unfold bind at 1 2, observe. rewrite list_records_run. fold pages. rewrite Hok.
  cbn [app]. fold changes. fold listed. fold batch.
  unfold bind.
  destruct changes as [|c cs]; cbn [length Nat.ltb Nat.leb].
  - unfold ret at 1.
    destruct (request_ (R53DeleteHostedZone zoneID) _ listed) as [[e|] deleted];
      [destruct (errors_As R53NoSuchHostedZone e)|]; reflexivity.
  - destruct (request_ (R53ChangeResourceRecordSets zoneID batch) _ listed)
      as [[e|] batched]; [reflexivity|].
    destruct (request_ (R53DeleteHostedZone zoneID) _ batched) as [[e|] deleted];
      [destruct (errors_As R53NoSuchHostedZone e)|]; reflexivity.
Qed.

(** ** The Bucket Driver: [cleanupS3Bucket] *)


Lemma all_ok_no_error (cs : list Call) (c : Call) (e : error) :
  ~ In (Ev c (Some e)) (map ok_event cs).
Proof.
  intros H. apply in_map_iff in H. destruct H as (c' & Hc & _). discriminate.
Qed.

Lemma failed_at_unique (evs : list Event) (c c' : Call) (e e' : error) :
  failed_at evs c e -> In (Ev c' (Some e')) evs -> c' = c /\ e' = e.
Proof.
  intros (cs & ->) Hin. apply in_app_or in Hin. destruct Hin as [Hin|Hin].
  - now apply all_ok_no_error in Hin.
  - destruct Hin as [Heq|[]]. inversion Heq. now split.
Qed.


Lemma failed_at_cons (evs : list Event) (c0 c : Call) (e : error) :
  failed_at evs c e -> failed_at (Ev c0 None :: evs) c e.
Proof. intros (cs & ->). now exists (c0 :: cs). Qed.

Lemma failed_at_app (cs0 : list Call) (evs : list Event) (c : Call) (e : error) :
  failed_at evs c e -> failed_at (map ok_event cs0 ++ evs) c e.
Proof.
  intros (cs & ->). exists (cs0 ++ cs)%list. now rewrite map_app, app_assoc.
Qed.

Section CleanupS3.
Context {W : Type} (remote : Remote W) (bucketName : string).

(** One page: nothing for an empty page, else one [DeleteObjects]. *)
Lemma delete_page_run (page : list S3Object) (st : State W) :
  exists (w' : W) (evs : list Event),
    snd (S3Helpers.delete_page remote bucketName page st)
      = mkState w' (log st ++ evs)
    /\ match fst (S3Helpers.delete_page remote bucketName page st) with
       | None =>
           all_ok evs (if (0 <? length page)%nat
                       then [S3DeleteObjects bucketName (map objKey page)] else [])
       | Some r =>
           exists e : error,
             failed_at evs (S3DeleteObjects bucketName (map objKey page)) e
             /\ r = fmt_Errorf "failed to delete objects from S3 bucket: " e
       end.
Proof.
  unfold S3Helpers.delete_page.
  destruct (0 <? length page)%nat.
  - unfold_monad.
    destruct (s3_DeleteObjects remote bucketName (map objKey page) (world st))
      as [[e|] w']; norm.
    + exists w', [Ev (S3DeleteObjects bucketName (map objKey page)) (Some e)].
      split; [reflexivity|]. exists e. split; [now exists []|reflexivity].
    + exists w', [Ev (S3DeleteObjects bucketName (map objKey page)) None].
      split; reflexivity.
  - exists (world st), []. unfold ret. cbn [fst snd]. rewrite app_nil_r.
    split; [now destruct st|reflexivity].
Qed.

Ltac page_step :=
  match goal with
  | |- context [S3Helpers.delete_page ?rem ?b ?page ?s] =>
      let w' := fresh "w'" in
      let evs := fresh "evs" in
      let Hst := fresh "Hst" in
      let Hres := fresh "Hres" in
      let r := fresh "r" in
      let st2 := fresh "st2" in
      destruct (delete_page_run page s) as (w' & evs & Hst & Hres);
      destruct (S3Helpers.delete_page rem b page s) as [r st2];
      cbn [fst snd log] in Hst, Hres; subst st2
  end.

(** The loop: it runs to its end over all pages, every request answered
    without error, or it returns at the first failed request, a listing
    ([NoSuchBucket]: success) or a [DeleteObjects]. *)
Lemma empty_bucket_run (pages : Pager (list S3Object)) :
  forall st : State W,
  exists (w' : W) (evs : list Event),
    snd (S3Helpers.empty_bucket remote bucketName pages st)
      = mkState w' (log st ++ evs)
    /\ match fst (S3Helpers.empty_bucket remote bucketName pages st) with
       | None =>
           pager_error pages = None
           /\ all_ok evs (bucket_calls bucketName (pager_pages pages))
       | Some r =>
           exists (c : Call) (e : error),
             failed_at evs c e
             /\ ((c = S3ListObjectsV2 bucketName /\ r = list_failure e)
                 \/ ((exists keys, c = S3DeleteObjects bucketName keys)
                     /\ r = Some (fmt_Errorf "failed to delete objects from S3 bucket: " e)))
       end.
Proof.
  induction pages as [e|page|page rest IH]; intros st.
  - cbn [S3Helpers.empty_bucket]. unfold_monad.
    exists (world st), [Ev (S3ListObjectsV2 bucketName) (Some e)].
    assert (Hf : failed_at [Ev (S3ListObjectsV2 bucketName) (Some e)]
                           (S3ListObjectsV2 bucketName) e) by now exists [].
    unfold list_failure.
    destruct (errors_As S3NoSuchBucket e) eqn:Has; cbn [fst snd];
      (split; [reflexivity|]); exists (S3ListObjectsV2 bucketName), e;
      (split; [exact Hf|]); left; rewrite Has; now split.
  - cbn [S3Helpers.empty_bucket]. unfold bind, next_page. norm.
    page_step.
    destruct r as [r|]; unfold ret; norm;
      exists w', (Ev (S3ListObjectsV2 bucketName) None :: evs);
      (split; [now rewrite <- app_assoc|]).
    + destruct Hres as (e & Hf & ->).
      exists (S3DeleteObjects bucketName (map objKey page)), e.
      split; [now apply failed_at_cons|]. right. split; [now eexists|reflexivity].
    + split; [reflexivity|]. unfold all_ok in *. rewrite Hres.
      cbn [pager_pages bucket_calls flat_map]. now rewrite app_nil_r.
  - cbn [S3Helpers.empty_bucket]. unfold bind, next_page. norm.
    page_step.
    destruct r as [r|]; unfold ret; norm.
    + exists w', (Ev (S3ListObjectsV2 bucketName) None :: evs).
      split; [now rewrite <- app_assoc|].
      destruct Hres as (e & Hf & ->).
      exists (S3DeleteObjects bucketName (map objKey page)), e.
      split; [now apply failed_at_cons|]. right. split; [now eexists|reflexivity].
    + destruct (IH (mkState w' ((log st ++ [Ev (S3ListObjectsV2 bucketName) None]) ++ evs)))
        as (w'' & evs' & Hst' & Hres').
      destruct (S3Helpers.empty_bucket remote bucketName rest _) as [r st3].
      cbn [fst snd log] in *. subst st3.
      exists w'', (Ev (S3ListObjectsV2 bucketName) None :: evs ++ evs')%list.
      split; [now rewrite <- !app_assoc|].
      unfold all_ok in Hres. subst evs.
      destruct r as [r|].
      * destruct Hres' as (c & e & Hf & Hcase). exists c, e. split; [|exact Hcase].
        apply failed_at_cons. now apply failed_at_app.
      * destruct Hres' as (Hok & Hall). split; [exact Hok|].
        unfold all_ok in *. subst evs'.
        cbn [pager_pages bucket_calls flat_map].
        rewrite <- app_comm_cons. cbn [map]. rewrite map_app. reflexivity.
Qed.

End CleanupS3.



(** The earlier copy of the file does not excuse a bucket that is gone
    while listing. *)
Example cleanupS3Bucket_earlier_copy :
  fst (S3HelpersAlt.cleanupS3Bucket
         (objectsRemote (PageFails (TypedError S3NoSuchBucket "NoSuchBucket")))
         provisionedDomain (start freshWorld))
  = Some (fmt_Errorf "failed to list objects in S3 bucket for deletion: "
            (TypedError S3NoSuchBucket "NoSuchBucket")).
Proof. reflexivity. Qed.

(** ** The Bucket Driver: [reconcileS3Bucket] *)

(** Steps 2 to 5 never create a bucket, and what they upload is the
    template with the domain name filled in. *)
Lemma configureBucket_calls {W} (remote : Remote W) (pd : ParkedDomain) (region : string)
      (st : State W) :
  exists evs : list Event,
    log (snd (S3Helpers.configureBucket remote pd region st)) = (log st ++ evs)%list
    /\ forall c : Call,
         In c (calls_of evs) ->
         configure_call (DomainName (Spec pd)) c
         \/ exists templateContent : string,
              c = S3PutObject (DomainName (Spec pd)) "index.html"
                    (S3Helpers.finalContent templateContent (DomainName (Spec pd)))
                    "text/html".
Proof.
  unfold S3Helpers.configureBucket, configure_call. unfold_monad.
  destruct (os_Getenv remote "TEMPLATE_CONFIGMAP_NAME" (world st) =? "").
  { exists []. rewrite app_nil_r. split; [reflexivity|]. intros c []. }
  destruct (k8s_GetConfigMap remote _ (world st)) as [[cm|e] w3]; norm.
  2:{ eexists. split; [reflexivity|]. intros c [<-|[]]. left. left. now eexists. }
  destruct (map_lookup (cmData cm) _) as [templateContent|]; norm.
  2:{ eexists. split; [reflexivity|]. intros c [<-|[]]. left. left. now eexists. }
  destruct (s3_PutObject remote _ _ _ _ w3) as [[e|] w4]; norm.
  { eexists. split; [rewrite <- app_assoc; reflexivity|].
    intros c [<-|[<-|[]]]; [left; left; now eexists|right; now eexists]. }
  destruct (s3_PutBucketWebsite remote _ _ w4) as [[e|] w5]; norm.
  { eexists. split; [rewrite <- !app_assoc; reflexivity|].
    intros c [<-|[<-|[<-|[]]]];
      [left; left; now eexists|right; now eexists|left; right; now left]. }
  destruct (s3_PutBucketPolicy remote _ _ w5) as [[e|] w6]; norm;
    (eexists; split; [rewrite <- !app_assoc; reflexivity|];
     intros c [<-|[<-|[<-|[<-|[]]]]];
     [left; left; now eexists|right; now eexists|left; right; now left
     |left; right; now right]).
Qed.

(** C9: When [HeadBucket] finds the bucket, [reconcileS3Bucket] goes on
    to its remaining steps without any [CreateBucket]: after the client
    lookup and [HeadBucket] it is [configureBucket], whose requests are the
    ConfigMap read, the upload, the website configuration and the policy,
    and whose upload, if made, carries the template with the domain name
    substituted for the placeholder, the same text whenever template and
    domain name are the same.  So a call made when the bucket exists, with
    the template in place and upload and website configuration succeeding,
    makes exactly those four requests and ends with the policy step, whose
    outcome is the call's. *)
Theorem reconcileS3Bucket_existing_bucket :
  forall (W : Type) (remote : Remote W) (pd : ParkedDomain) (st : State W) (w1 w2 : W),
    let bucketName := DomainName (Spec pd) in
    let region := regionOf pd in
    s3_GetClient remote region (world st) = (None, w1) ->
    s3_HeadBucket remote bucketName w1 = (None, w2) ->
    let st2 := mkState w2 (log st ++ [ Ev (S3GetClient region) None;
                                       Ev (S3HeadBucket bucketName) None ]) in
    S3Helpers.reconcileS3Bucket remote pd st
      = S3Helpers.configureBucket remote pd region st2
    /\ (exists evs : list Event,
          log (snd (S3Helpers.configureBucket remote pd region st2))
            = (log st2 ++ evs)%list
          /\ forall c : Call,
               In c (calls_of evs) ->
               configure_call bucketName c
               \/ exists templateContent : string,
                    c = S3PutObject bucketName "index.html"
                          (S3Helpers.finalContent templateContent bucketName) "text/html")
    /\ (forall (cm : ConfigMap) (templateContent : string) (w3 w4 w5 : W),
          let cmName := os_Getenv remote "TEMPLATE_CONFIGMAP_NAME" w2 in
          let cmKey :=
            {| nnNamespace :=
                 if os_Getenv remote "TEMPLATE_CONFIGMAP_NAMESPACE" w2 =? ""
                 then Namespace (Meta pd)
                 else os_Getenv remote "TEMPLATE_CONFIGMAP_NAMESPACE" w2;
               nnName := cmName |} in
          let body := S3Helpers.finalContent templateContent bucketName in
          let policy := S3Helpers.publicReadPolicy bucketName in
          cmName <> "" ->
          k8s_GetConfigMap remote cmKey w2 = (Ok cm, w3) ->
          map_lookup (cmData cm)
            (if TemplateName (Spec pd) =? "" then "default.html"
             else TemplateName (Spec pd)) = Some templateContent ->
          s3_PutObject remote bucketName "index.html" body "text/html" w3 = (None, w4) ->
          s3_PutBucketWebsite remote bucketName "index.html" w4 = (None, w5) ->
          S3Helpers.reconcileS3Bucket remote pd st
          = (match fst (s3_PutBucketPolicy remote bucketName policy w5) with
             | Some e => Err (fmt_Errorf "failed to apply S3 bucket policy: " e)
             | None => Ok (bucketName ++ ".s3-website." ++ region ++ ".amazonaws.com")
             end,
             mkState (snd (s3_PutBucketPolicy remote bucketName policy w5))
               (log st2 ++
                [ Ev (KGetConfigMap cmKey) None;
                  Ev (S3PutObject bucketName "index.html" body "text/html") None;
                  Ev (S3PutBucketWebsite bucketName "index.html") None;
                  Ev (S3PutBucketPolicy bucketName policy)
                     (fst (s3_PutBucketPolicy remote bucketName policy w5)) ]))).
Proof.
  intros W remote pd st w1 w2 bucketName region Hclient Hhead st2.
  assert (Hskip : S3Helpers.reconcileS3Bucket remote pd st
                  = S3Helpers.configureBucket remote pd region st2).
  { unfold S3Helpers.reconcileS3Bucket. fold bucketName region.
    unfold bind, request_. norm. step Hclient. step Hhead.
    subst st2. now rewrite <- app_assoc. }
  split; [exact Hskip|]. split; [apply configureBucket_calls|].
  intros cm templateContent w3 w4 w5 cmName cmKey body policy Hname Hcm Htpl Hput Hweb.
  rewrite Hskip. unfold S3Helpers.configureBucket. fold bucketName.
  unfold_monad. subst st2. norm. fold cmName.
  apply String.eqb_neq in Hname. step Hname. fold cmKey.
  step Hcm. step Htpl. fold body. step Hput. step Hweb. fold policy.
  destruct (s3_PutBucketPolicy remote bucketName policy w5) as [[e|] w6]; norm;
    rewrite <- !app_assoc; reflexivity.
Qed.

(** The first call creates the bucket and fails at the policy; the second,
    in the world the first one left, does not create and completes. *)
Lemma reconcileS3Bucket_existing_bucket_witness :
  let first := S3Helpers.reconcileS3Bucket exampleRemote (exampleDomain "")
                 (start policyRefusedWorld) in
  (fst first = Err (fmt_Errorf "failed to apply S3 bucket policy: "
                      (TypedError (OtherType "AccessDenied") "AccessDenied"))
   /\ In (S3CreateBucket "example.com" (Some "eu-central-1")) (calls_of (log (snd first))))
  /\ S3Helpers.reconcileS3Bucket exampleRemote (exampleDomain "")
       (start (world (snd first)))
     = (Ok "example.com.s3-website.eu-central-1.amazonaws.com",
        mkState {| fwBucketExists := true; fwPolicyErrors := []; fwClock := 1700000000 |}
          [ Ev (S3GetClient "eu-central-1") None;
            Ev (S3HeadBucket "example.com") None;
            Ev (KGetConfigMap {| nnNamespace := "default"; nnName := "parking-templates" |})
               None;
            Ev (S3PutObject "example.com" "index.html" "<h1>example.com</h1>" "text/html")
               None;
            Ev (S3PutBucketWebsite "example.com" "index.html") None;
            Ev (S3PutBucketPolicy "example.com" (S3Helpers.publicReadPolicy "example.com"))
               None ]).
Proof.
  split.
  - split; [reflexivity|]. vm_compute. tauto.
  - destruct (reconcileS3Bucket_existing_bucket exampleRemote (exampleDomain "")
                (start (world (snd (S3Helpers.reconcileS3Bucket exampleRemote
                                      (exampleDomain "") (start policyRefusedWorld)))))
                (w1 := {| fwBucketExists := true; fwPolicyErrors := [];
                          fwClock := 1700000000 |})
                (w2 := {| fwBucketExists := true; fwPolicyErrors := [];
                          fwClock := 1700000000 |})
                eq_refl eq_refl) as (_ & _ & Hrun).
    exact (Hrun {| cmData := [("default.html", "<h1>{{DOMAIN_NAME}}</h1>")] |}
                "<h1>{{DOMAIN_NAME}}</h1>" _ _ _
                ltac:(discriminate) eq_refl eq_refl eq_refl eq_refl).
Defined.

(** ** The Finalizer Gate and the Reconciliation Engine: [Reconcile] *)

Lemma ContainsFinalizer_AddFinalizer (pd : ParkedDomain) (f : string) :
  controllerutil.ContainsFinalizer (controllerutil.AddFinalizer pd f) f = true.
Proof.
  unfold controllerutil.AddFinalizer.
  destruct (controllerutil.ContainsFinalizer pd f) eqn:H; [exact H|].
  unfold controllerutil.ContainsFinalizer, set_Finalizers. cbn [Meta Finalizers].
  rewrite existsb_app. cbn [existsb]. rewrite String.eqb_refl.
  now rewrite orb_true_r.
Qed.

Lemma ContainsFinalizer_RemoveFinalizer (pd : ParkedDomain) (f : string) :
  controllerutil.ContainsFinalizer (controllerutil.RemoveFinalizer pd f) f = false.
Proof.
  unfold controllerutil.ContainsFinalizer, controllerutil.RemoveFinalizer, set_Finalizers.
  cbn [Meta Finalizers].
  induction (Finalizers (Meta pd)) as [|g fs IH]; [reflexivity|].
  cbn [filter]. destruct (g =? f) eqn:Hg; cbn [negb]; [exact IH|].
  cbn [existsb]. rewrite IH, String.eqb_sym, Hg. reflexivity.
Qed.

(** [AddFinalizer] leaves specification and status alone. *)
Lemma AddFinalizer_frame (pd : ParkedDomain) (f : string) :
  Spec (controllerutil.AddFinalizer pd f) = Spec pd
  /\ PDStatus (controllerutil.AddFinalizer pd f) = PDStatus pd.
Proof.
  unfold controllerutil.AddFinalizer.
  destruct (controllerutil.ContainsFinalizer pd f); split; reflexivity.
Qed.

Lemma Reconcile_reaches_stages {W} (remote : Remote W) (r : Helpers W)
      (req : NamespacedName) (st : State W) (fetched pd : ParkedDomain) (st' : State W) :
  reaches_stages remote req st fetched pd st' ->
  Reconcile remote r req st = reconcileResources remote r pd st'.
Proof.
  intros (w1 & Hget & Hzero & Hcase).
  unfold Reconcile. unfold bind at 1, request. step Hget. rewrite Hzero.
  destruct Hcase as [(Hfin & -> & ->)|(Hfin & -> & w2 & Hupd & ->)]; rewrite Hfin;
    cbn [negb].
  - reflexivity.
  - unfold bind at 1, request_. norm. step Hupd. now rewrite <- app_assoc.
Qed.

Lemma reaches_stages_frame {W} (remote : Remote W) (req : NamespacedName)
      (st : State W) (fetched pd : ParkedDomain) (st' : State W) :
  reaches_stages remote req st fetched pd st' ->
  Spec pd = Spec fetched /\ PDStatus pd = PDStatus fetched.
Proof.
  intros (w1 & _ & _ & [(_ & -> & _)|(_ & -> & _)]).
  - now split.
  - apply AddFinalizer_frame.
Qed.

Lemma statusUpdate_run {W} (remote : Remote W) (pd : ParkedDomain) (s : State W) :
  statusUpdate remote pd s
  = (fst (k8s_StatusUpdate remote pd (world s)), status_written remote pd s).
Proof.
  unfold statusUpdate, request_, status_written.
  now destruct (k8s_StatusUpdate remote pd (world s)).
Qed.

(** What [reconcileResources] does, stage by stage. *)
Lemma reconcileResources_run {W} (remote : Remote W) (r : Helpers W)
      (pd : ParkedDomain) (st : State W) :
  let zone := reconcileRoute53Zone r pd st in
  let failed (tag : string) (err : error) (s : State W) :=
    ((noResult, Some err), status_written remote (set_Status pd tag) s) in
  reconcileResources remote r pd st
  = match fst zone with
    | Err err => failed "Error: Route53 Zone" err (snd zone)
    | Ok (zoneID, nameservers) =>
        let bucket := reconcileS3Bucket r pd (snd zone) in
        match fst bucket with
        | Err err => failed "Error: S3 Bucket" err (snd bucket)
        | Ok s3Endpoint =>
            let record := reconcileRoute53ARecord r pd zoneID s3Endpoint (snd bucket) in
            match fst record with
            | Some err => failed "Error: Route53 A Record" err (snd record)
            | None =>
                let provisioned :=
                  set_NameServers (set_ZoneID (set_Status pd "Provisioned") zoneID)
                                  nameservers in
                ((noResult,
                  fst (k8s_StatusUpdate remote provisioned (world (snd record)))),
                 status_written remote provisioned (snd record))
            end
        end
    end.
Proof.
  intros zone failed. subst zone failed. unfold reconcileResources.
  rewrite bind_run.
  destruct (reconcileRoute53Zone r pd st) as [[[zoneID nameservers]|err] s1]; cbn [fst snd].
  2:{ rewrite bind_run, statusUpdate_run. reflexivity. }
  rewrite bind_run.
  destruct (reconcileS3Bucket r pd s1) as [[s3Endpoint|err] s2]; cbn [fst snd].
  2:{ rewrite bind_run, statusUpdate_run. reflexivity. }
  rewrite bind_run.
  destruct (reconcileRoute53ARecord r pd zoneID s3Endpoint s2) as [[err|] s3]; cbn [fst snd].
  { rewrite bind_run, statusUpdate_run. reflexivity. }
  rewrite bind_run, statusUpdate_run. cbn [fst snd].
  destruct (fst (k8s_StatusUpdate remote _ (world s3))); reflexivity.
Qed.

(** C8: Once [Reconcile] is at its stages with object [pd], the first of
    the zone, bucket and record stages to fail makes it set the status field
    to "Error: Route53 Zone", "Error: S3 Bucket" or "Error: Route53 A
    Record" respectively, issue a status update with that object from the
    state the failed stage left, and return the stage's error; when all
    three succeed it issues a status update with status "Provisioned", the
    zone id and the name servers of the zone stage, and returns that
    update's outcome. *)
Theorem Reconcile_reports_stage :
  forall (W : Type) (remote : Remote W) (r : Helpers W) (req : NamespacedName)
         (st : State W) (fetched pd : ParkedDomain) (st0 : State W),
    reaches_stages remote req st fetched pd st0 ->
    let zone := reconcileRoute53Zone r pd st0 in
    let failed (tag : string) (err : error) (s : State W) :=
      Reconcile remote r req st
      = ((noResult, Some err), status_written remote (set_Status pd tag) s)
      /\ Status (PDStatus (set_Status pd tag)) = tag in
    match fst zone with
    | Err err => failed "Error: Route53 Zone" err (snd zone)
    | Ok (zoneID, nameservers) =>
        let bucket := reconcileS3Bucket r pd (snd zone) in
        match fst bucket with
        | Err err => failed "Error: S3 Bucket" err (snd bucket)
        | Ok s3Endpoint =>
            let record := reconcileRoute53ARecord r pd zoneID s3Endpoint (snd bucket) in
            match fst record with
            | Some err => failed "Error: Route53 A Record" err (snd record)
            | None =>
                exists provisioned : ParkedDomain,
                  PDStatus provisioned
                    = {| Status := "Provisioned"; ZoneID := zoneID;
                         NameServers := nameservers |}
                  /\ Reconcile remote r req st
                     = ((noResult,
                         fst (k8s_StatusUpdate remote provisioned (world (snd record)))),
                        status_written remote provisioned (snd record))
            end
        end
    end.
Proof.
  intros W remote r req st fetched pd st0 Hreach zone failed. subst zone failed.
  rewrite (Reconcile_reaches_stages r Hreach), reconcileResources_run.
  destruct (fst (reconcileRoute53Zone r pd st0)) as [[zoneID nameservers]|err];
    [|split; reflexivity].
  cbv zeta.
  destruct (fst (reconcileS3Bucket r pd _)) as [s3Endpoint|err]; [|split; reflexivity].
  destruct (fst (reconcileRoute53ARecord r pd zoneID s3Endpoint _)) as [err|];
    [split; reflexivity|].
  eexists. split; [|reflexivity]. reflexivity.
Qed.

Lemma farRemote_reaches_stages :
  reaches_stages farRemote exampleKey (start freshWorld)
    (exampleDomain "ap-south-1") (exampleDomain "ap-south-1")
    (mkState freshWorld [Ev (KGet exampleKey) None]).
Proof.
  exists freshWorld. split; [reflexivity|]. split; [reflexivity|].
  left. repeat split.
Qed.

Lemma Reconcile_reports_stage_witness :
  fst (Reconcile farRemote (helpers farRemote) exampleKey (start freshWorld))
  = (noResult,
     Some (errors_New "unsupported S3 website region for alias record: ap-south-1"))
  /\ exists s : State FakeWorld,
       snd (Reconcile farRemote (helpers farRemote) exampleKey (start freshWorld))
       = status_written farRemote
           (set_Status (exampleDomain "ap-south-1") "Error: Route53 A Record") s.
Proof.
  pose proof (Reconcile_reports_stage (helpers farRemote) farRemote_reaches_stages) as H.
  cbv zeta in H.
  change (fst (reconcileRoute53Zone (helpers farRemote) (exampleDomain "ap-south-1")
                 (mkState freshWorld [Ev (KGet exampleKey) None])))
    with (Ok ("MOCKZONEID123", ["ns-1.awsdns.com"; "ns-2.awsdns.com"])) in H.
  cbv beta iota in H.
  change (fst (reconcileS3Bucket (helpers farRemote) (exampleDomain "ap-south-1") _))
    with (@Ok string "example.com.s3-website.ap-south-1.amazonaws.com") in H.
  cbv beta iota in H.
  change (fst (reconcileRoute53ARecord (helpers farRemote) (exampleDomain "ap-south-1") _ _ _))
    with (Some (errors_New "unsupported S3 website region for alias record: ap-south-1"))
    in H.
  cbv beta iota in H. destruct H as (Hrun & _).
  rewrite Hrun. split; [reflexivity|]. eexists. reflexivity.
Defined.

(** C10: Once [Reconcile] is at its stages, a failure of the zone, bucket
    or record stage is followed by one status update whose object has the
    zone id and the name servers of the object fetched from the store (and
    its specification), only the status field being set; the zone id and the
    name servers that the zone stage returned are written by the status
    update of the path on which all three stages succeed, and only there. *)
Theorem Reconcile_zone_status_frame :
  forall (W : Type) (remote : Remote W) (r : Helpers W) (req : NamespacedName)
         (st : State W) (fetched pd : ParkedDomain) (st0 : State W),
    reaches_stages remote req st fetched pd st0 ->
    let zone := reconcileRoute53Zone r pd st0 in
    let unchanged (err : error) (s : State W) :=
      exists written : ParkedDomain,
        Reconcile remote r req st = ((noResult, Some err), status_written remote written s)
        /\ ZoneID (PDStatus written) = ZoneID (PDStatus fetched)
        /\ NameServers (PDStatus written) = NameServers (PDStatus fetched)
        /\ Spec written = Spec fetched
        /\ Meta written = Meta pd in
    match fst zone with
    | Err err => unchanged err (snd zone)
    | Ok (zoneID, nameservers) =>
        let bucket := reconcileS3Bucket r pd (snd zone) in
        match fst bucket with
        | Err err => unchanged err (snd bucket)
        | Ok s3Endpoint =>
            let record := reconcileRoute53ARecord r pd zoneID s3Endpoint (snd bucket) in
            match fst record with
            | Some err => unchanged err (snd record)
            | None =>
                exists written : ParkedDomain,
                  snd (Reconcile remote r req st)
                    = status_written remote written (snd record)
                  /\ ZoneID (PDStatus written) = zoneID
                  /\ NameServers (PDStatus written) = nameservers
            end
        end
    end.
Proof.
  intros W remote r req st fetched pd st0 Hreach zone unchanged. subst zone unchanged.
  destruct (reaches_stages_frame Hreach) as (Hspec & Hstatus).
  rewrite (Reconcile_reaches_stages r Hreach), reconcileResources_run.
  assert (Hfail : forall tag,
             ZoneID (PDStatus (set_Status pd tag)) = ZoneID (PDStatus fetched)
             /\ NameServers (PDStatus (set_Status pd tag)) = NameServers (PDStatus fetched)
             /\ Spec (set_Status pd tag) = Spec fetched
             /\ Meta (set_Status pd tag) = Meta pd).
  { intros tag. cbn [set_Status PDStatus ZoneID NameServers Spec Meta].
    now rewrite Hstatus, Hspec. }
  destruct (fst (reconcileRoute53Zone r pd st0)) as [[zoneID nameservers]|err].
  2:{ eexists. split; [reflexivity|apply Hfail]. }
  cbv zeta.
  destruct (fst (reconcileS3Bucket r pd _)) as [s3Endpoint|err].
  2:{ eexists. split; [reflexivity|apply Hfail]. }
  destruct (fst (reconcileRoute53ARecord r pd zoneID s3Endpoint _)) as [err|].
  { eexists. split; [reflexivity|apply Hfail]. }
  eexists. split; [reflexivity|]. split; reflexivity.
Qed.

(** The zone stage creates MOCKZONEID123, the record stage fails: the status
    written still has the empty zone id of the fetched object. *)
Lemma Reconcile_zone_status_frame_witness :
  In (R53CreateHostedZone "example.com" "parkeddomain-operator-example-1700000000")
     (calls_of (log (snd (Reconcile farRemote (helpers farRemote) exampleKey
                            (start freshWorld)))))
  /\ exists (written : ParkedDomain) (s : State FakeWorld),
       snd (Reconcile farRemote (helpers farRemote) exampleKey (start freshWorld))
         = status_written farRemote written s
       /\ ZoneID (PDStatus written) = ""
       /\ NameServers (PDStatus written) = [].
Proof.
  split; [vm_compute; tauto|].
  pose proof (Reconcile_zone_status_frame (helpers farRemote) farRemote_reaches_stages)
    as H.
  cbv zeta in H.
  change (fst (reconcileRoute53Zone (helpers farRemote) (exampleDomain "ap-south-1")
                 (mkState freshWorld [Ev (KGet exampleKey) None])))
    with (Ok ("MOCKZONEID123", ["ns-1.awsdns.com"; "ns-2.awsdns.com"])) in H.
  cbv beta iota in H.
  change (fst (reconcileS3Bucket (helpers farRemote) (exampleDomain "ap-south-1") _))
    with (@Ok string "example.com.s3-website.ap-south-1.amazonaws.com") in H.
  cbv beta iota in H.
  change (fst (reconcileRoute53ARecord (helpers farRemote) (exampleDomain "ap-south-1") _ _ _))
    with (Some (errors_New "unsupported S3 website region for alias record: ap-south-1"))
    in H.
  cbv beta iota in H. destruct H as (written & Hrun & Hzone & Hns & _).
  exists written. eexists. rewrite Hrun. cbn [snd].
  split; [reflexivity|]. split; [exact Hzone|exact Hns].
Defined.

(** C5: For an intent marked for deletion that holds the finalizer,
    [Reconcile] runs the bucket cleanup first, from the state the fetch
    left.  If that returns an error, [Reconcile] returns it in the state the
    bucket cleanup left: no zone cleanup, no update of the intent.
    Otherwise the zone cleanup runs from there; if it returns an error,
    [Reconcile] returns it in the state the zone cleanup left, again without
    an update.  Only when both returned no error is the intent updated, with
    the finalizer removed, and the outcome of that update returned. *)
Theorem Reconcile_finalizer_safety :
  forall (W : Type) (remote : Remote W) (r : Helpers W) (req : NamespacedName)
         (st : State W) (pd : ParkedDomain) (w1 : W),
    k8s_Get remote req (world st) = (Ok pd, w1) ->
    IsZero (DeletionTimestamp (Meta pd)) = false ->
    controllerutil.ContainsFinalizer pd finalizerName = true ->
    let bucket := cleanupS3Bucket r pd (mkState w1 (log st ++ [Ev (KGet req) None])) in
    let zone := cleanupRoute53Zone r pd (snd bucket) in
    let released := controllerutil.RemoveFinalizer pd finalizerName in
    let update := k8s_Update remote released (world (snd zone)) in
    match fst bucket with
    | Some err => Reconcile remote r req st = ((noResult, Some err), snd bucket)
    | None =>
        match fst zone with
        | Some err => Reconcile remote r req st = ((noResult, Some err), snd zone)
        | None =>
            Reconcile remote r req st
            = ((noResult, fst update),
               mkState (snd update)
                       (log (snd zone) ++ [Ev (KUpdate released) (fst update)]))
            /\ controllerutil.ContainsFinalizer released finalizerName = false
        end
    end.
Proof.
  intros W remote r req st pd w1 Hget Hzero Hfin bucket zone released update.
  subst update released zone bucket.
  assert (Hgate : Reconcile remote r req st
                  = finalize remote r pd (mkState w1 (log st ++ [Ev (KGet req) None]))).
  { unfold Reconcile. unfold bind at 1, request. step Hget. now rewrite Hzero, Hfin. }
  rewrite Hgate. unfold finalize. rewrite bind_run.
  destruct (cleanupS3Bucket r pd _) as [[err|] s1]; cbn [fst snd]; [reflexivity|].
  rewrite bind_run.
  destruct (cleanupRoute53Zone r pd s1) as [[err|] s2]; cbn [fst snd]; [reflexivity|].
  split; [|apply ContainsFinalizer_RemoveFinalizer].
  unfold bind, request_.
  destruct (k8s_Update remote _ (world s2)) as [[err|] w3]; reflexivity.
Qed.

(** The zone of the intent is gone and its listing fails: the bucket is
    emptied and deleted, the zone cleanup fails, the finalizer stays. *)
Lemma Reconcile_finalizer_safety_witness :
  let run := Reconcile zoneGoneRemote (helpers zoneGoneRemote) exampleKey
               (start freshWorld) in
  fst run
  = (noResult,
     Some (fmt_Errorf "failed to list records in Hosted Zone: "
             (TypedError R53NoSuchHostedZone "NoSuchHostedZone")))
  /\ calls_of (log (snd run))
     = [ KGet exampleKey;
         S3GetClient "eu-central-1"; S3ListObjectsV2 "example.com";
         S3DeleteBucket "example.com";
         R53ListResourceRecordSets "Z0EXISTING" ].
Proof.
  pose proof (@Reconcile_finalizer_safety _ zoneGoneRemote (helpers zoneGoneRemote)
                exampleKey (start freshWorld) provisionedDomain freshWorld
                eq_refl eq_refl eq_refl) as H.
  cbv zeta in H.
  change (fst (cleanupS3Bucket (helpers zoneGoneRemote) provisionedDomain _))
    with (@None error) in H.
  cbv beta iota in H.
  change (fst (cleanupRoute53Zone (helpers zoneGoneRemote) provisionedDomain _))
    with (Some (fmt_Errorf "failed to list records in Hosted Zone: "
                  (TypedError R53NoSuchHostedZone "NoSuchHostedZone"))) in H.
  cbv beta iota in H. cbv zeta. rewrite H. split; reflexivity.
Defined.

(** The intent of the test suite, fresh from the store: not marked for
    deletion, no finalizer.  One [Reconcile] adds the finalizer, updates
    the intent, and in the same invocation goes through the zone, bucket and
    record stages: nine requests to AWS follow the update. *)
Lemma Reconcile_first_sight_counterexample :
  k8s_Get testRemote testKey freshWorld = (Ok testDomain, freshWorld)
  /\ IsZero (DeletionTimestamp (Meta testDomain)) = true
  /\ controllerutil.ContainsFinalizer testDomain finalizerName = false
  /\ filter aws_call
       (calls_of (log (snd (Reconcile testRemote (helpers testRemote) testKey
                              (start freshWorld)))))
     = [ R53ListHostedZonesByName "test.example.com";
         R53CreateHostedZone "test.example.com"
           "parkeddomain-operator-test-domain-1700000000";
         S3GetClient "eu-central-1";
         S3HeadBucket "test.example.com";
         S3CreateBucket "test.example.com" (Some "eu-central-1");
         S3PutObject "test.example.com" "index.html" "<h1>test.example.com</h1>"
           "text/html";
         S3PutBucketWebsite "test.example.com" "index.html";
         S3PutBucketPolicy "test.example.com"
           (S3Helpers.publicReadPolicy "test.example.com");
         R53ChangeResourceRecordSets "MOCKZONEID123"
           (Route53Helpers.aliasChangeBatch "test.example.com" "Z21DNDUVLTQW6Q"
              "test.example.com.s3-website.eu-central-1.amazonaws.com") ]
  /\ ~ (calls_of (log (snd (Reconcile testRemote (helpers testRemote) testKey
                              (start freshWorld))))
        = [ KGet testKey;
            KUpdate (controllerutil.AddFinalizer testDomain finalizerName) ]).
Proof.
  repeat split.
  vm_compute. discriminate.
Qed.

(** C2 (amended): For an intent that is not marked for deletion and lacks
    the finalizer, [Reconcile] adds the finalizer and updates the intent
    right after fetching it.  If the update fails, it returns that error and
    makes no further request.  If the update succeeds, it continues in the
    same invocation with the zone, bucket and record stages and the status
    update, on the object that now holds the finalizer. *)
Theorem Reconcile_first_sight :
  forall (W : Type) (remote : Remote W) (r : Helpers W) (req : NamespacedName)
         (st : State W) (pd : ParkedDomain) (w1 : W),
    k8s_Get remote req (world st) = (Ok pd, w1) ->
    IsZero (DeletionTimestamp (Meta pd)) = true ->
    controllerutil.ContainsFinalizer pd finalizerName = false ->
    let registered := controllerutil.AddFinalizer pd finalizerName in
    let update := k8s_Update remote registered w1 in
    let st2 := mkState (snd update)
                       (log st ++ [ Ev (KGet req) None;
                                    Ev (KUpdate registered) (fst update) ]) in
    controllerutil.ContainsFinalizer registered finalizerName = true
    /\ match fst update with
       | Some err => Reconcile remote r req st = ((noResult, Some err), st2)
       | None => Reconcile remote r req st = reconcileResources remote r registered st2
       end.
Proof.
  intros W remote r req st pd w1 Hget Hzero Hfin registered update st2.
  split; [apply ContainsFinalizer_AddFinalizer|].
  subst st2 update.
  assert (Hgate : Reconcile remote r req st
                  = bind (request_ (KUpdate registered) (k8s_Update remote registered))
                         (fun err => match err with
                                     | Some err => ret (noResult, Some err)
                                     | None => reconcileResources remote r registered
                                     end)
                         (mkState w1 (log st ++ [Ev (KGet req) None]))).
  { unfold Reconcile. unfold bind at 1, request. step Hget. now rewrite Hzero, Hfin. }
  rewrite Hgate. unfold bind, request_. norm.
  destruct (k8s_Update remote registered w1) as [[e|] w2]; norm;
    rewrite <- app_assoc; reflexivity.
Qed.

Lemma Reconcile_first_sight_witness :
  Reconcile testRemote (helpers testRemote) testKey (start freshWorld)
  = reconcileResources testRemote (helpers testRemote)
      (controllerutil.AddFinalizer testDomain finalizerName)
      (mkState freshWorld
         [ Ev (KGet testKey) None;
           Ev (KUpdate (controllerutil.AddFinalizer testDomain finalizerName)) None ]).
Proof.
  exact (proj2 (@Reconcile_first_sight _ testRemote (helpers testRemote) testKey
                  (start freshWorld) testDomain freshWorld eq_refl eq_refl eq_refl)).
Defined.

(** ** The scenario of the test suite

    parkeddomain_controller_test.go creates the intent and expects the
    status to become Provisioned with zone id MOCKZONEID123 and name server
    ns-1.awsdns.com among the name servers.  Its mock Route 53 client has no
    listing, which is the copy of [reconcileRoute53Zone] that only creates. *)
Example Reconcile_test_suite :
  let run := Reconcile testRemote (helpersAlt testRemote) testKey (start freshWorld) in
  fst run = (noResult, None)
  /\ exists provisioned : ParkedDomain,
       last (calls_of (log (snd run))) (KGet testKey) = KStatusUpdate provisioned
       /\ Status (PDStatus provisioned) = "Provisioned"
       /\ ZoneID (PDStatus provisioned) = "MOCKZONEID123"
       /\ In "ns-1.awsdns.com" (NameServers (PDStatus provisioned))
       /\ Finalizers (Meta provisioned) = [finalizerName].
Proof.
  split; [reflexivity|]. eexists. split; [reflexivity|].
  repeat split. now left.
Qed.

(** * Further properties *)

(** ** What a computation can request *)

Lemma emits_ret {W A} (P : Call -> Prop) (a : A) : emits P (@ret W A a).
Proof. intros st. exists []. split; [now rewrite app_nil_r|constructor]. Qed.

Lemma emits_observe {W A} (P : Call -> Prop) (f : W -> A) : emits P (observe f).
Proof. intros st. exists []. split; [now rewrite app_nil_r|constructor]. Qed.

Lemma emits_bind {W A B} (P : Call -> Prop) (m : M W A) (k : A -> M W B) :
  emits P m -> (forall a, emits P (k a)) -> emits P (bind m k).
Proof.
  intros Hm Hk st. rewrite bind_run.
  destruct (Hm st) as (evs1 & Hlog1 & Hall1).
  destruct (Hk (fst (m st)) (snd (m st))) as (evs2 & Hlog2 & Hall2).
  exists (evs1 ++ evs2)%list. split.
  - now rewrite Hlog2, Hlog1, app_assoc.
  - apply Forall_app. now split.
Qed.

Lemma emits_request {W A} (P : Call -> Prop) (c : Call) (h : W -> result A * W) :
  P c -> emits P (request c h).
Proof.
  intros Hc st. unfold request. destruct (h (world st)) as [r w'].
  exists [Ev c (err_of r)]. split; [reflexivity|]. now repeat constructor.
Qed.

Lemma emits_request_ {W} (P : Call -> Prop) (c : Call) (h : W -> option error * W) :
  P c -> emits P (request_ c h).
Proof.
  intros Hc st. unfold request_. destruct (h (world st)) as [e w'].
  exists [Ev c e]. split; [reflexivity|]. now repeat constructor.
Qed.

Lemma emits_next_page {W} (P : Call -> Prop) (c : Call) (e : option error) :
  P c -> emits P (@next_page W c e).
Proof.
  intros Hc st. exists [Ev c e]. split; [reflexivity|]. now repeat constructor.
Qed.

Lemma emits_weaken {W A} (P Q : Call -> Prop) (m : M W A) :
  (forall c, P c -> Q c) -> emits P m -> emits Q m.
Proof.
  intros HPQ Hm st. destruct (Hm st) as (evs & Hlog & Hall).
  exists evs. split; [exact Hlog|]. eapply Forall_impl; [|exact Hall].
  intros ev. apply HPQ.
Qed.

(** Decompose a computation along its binds and case distinctions. *)
Ltac emits_walk :=
  repeat match goal with
         | |- emits _ (ret _) => apply emits_ret
         | |- emits _ (observe _) => apply emits_observe
         | |- emits _ (bind _ _) => apply emits_bind; [|intros ?]
         | |- emits _ (let x := _ in _) => cbv zeta
         | |- emits _ (match ?x with _ => _ end) => destruct x
         end.

Section HelperRequests.
Context {W : Type} (remote : Remote W) (pd : ParkedDomain).

Lemma createHostedZone_emits :
  emits (zone_request pd) (Route53Helpers.createHostedZone remote pd).
Proof.
  unfold Route53Helpers.createHostedZone. emits_walk.
  apply emits_request. constructor.
Qed.

Lemma reconcileRoute53Zone_emits :
  emits (zone_request pd) (Route53Helpers.reconcileRoute53Zone remote pd).
Proof.
  unfold Route53Helpers.reconcileRoute53Zone. emits_walk;
    try (apply emits_request; constructor); apply createHostedZone_emits.
Qed.

Lemma reconcileRoute53ZoneAlt_emits :
  emits (zone_request pd) (Route53HelpersAlt.reconcileRoute53Zone remote pd).
Proof.
  unfold Route53HelpersAlt.reconcileRoute53Zone. emits_walk;
    apply createHostedZone_emits.
Qed.

Lemma configureBucket_emits :
  emits (bucket_request pd) (S3Helpers.configureBucket remote pd (regionOf pd)).
Proof.
  unfold S3Helpers.configureBucket. emits_walk;
    first [apply emits_request | apply emits_request_]; constructor.
Qed.

Lemma reconcileS3Bucket_emits :
  emits (bucket_request pd) (S3Helpers.reconcileS3Bucket remote pd).
Proof.
  unfold S3Helpers.reconcileS3Bucket. emits_walk;
    try (apply emits_request_; constructor); apply configureBucket_emits.
Qed.

Lemma reconcileRoute53ARecord_emits (zoneID s3Endpoint : string) :
  emits (record_request pd zoneID s3Endpoint)
        (Route53Helpers.reconcileRoute53ARecord remote pd zoneID s3Endpoint).
Proof.
  unfold Route53Helpers.reconcileRoute53ARecord,
    Route53Helpers.getS3WebsiteHostedZoneID.
  destruct (map_lookup Route53Helpers.s3HostedZoneIDs (regionOf pd)) as [id|] eqn:Hid.
  - emits_walk. apply emits_request_. now constructor.
  - cbn [String.eqb]. apply emits_ret.
Qed.

Lemma delete_page_emits (page : list S3Object) :
  emits (bucket_cleanup_request pd)
        (S3Helpers.delete_page remote (DomainName (Spec pd)) page).
Proof.
  unfold S3Helpers.delete_page. emits_walk. apply emits_request_. constructor.
Qed.

Lemma empty_bucket_emits (pages : Pager (list S3Object)) :
  emits (bucket_cleanup_request pd)
        (S3Helpers.empty_bucket remote (DomainName (Spec pd)) pages).
Proof.
  induction pages as [e|page|page rest IH]; cbn [S3Helpers.empty_bucket]; emits_walk;
    first [ apply emits_next_page; constructor
          | apply delete_page_emits
          | exact IH ].
Qed.

Lemma cleanupS3Bucket_emits :
  emits (bucket_cleanup_request pd) (S3Helpers.cleanupS3Bucket remote pd).
Proof.
  unfold S3Helpers.cleanupS3Bucket. emits_walk;
    first [ apply emits_request_; constructor | apply empty_bucket_emits ].
Qed.

End HelperRequests.

Lemma emits_bind_post {W A B} (P : Call -> Prop) (Q : A -> Prop)
      (m : M W A) (k : A -> M W B) :
  emits P m -> (forall st, Q (fst (m st))) -> (forall a, Q a -> emits P (k a)) ->
  emits P (bind m k).
Proof.
  intros Hm HQ Hk st. rewrite bind_run.
  destruct (Hm st) as (evs1 & Hlog1 & Hall1).
  destruct (Hk (fst (m st)) (HQ st) (snd (m st))) as (evs2 & Hlog2 & Hall2).
  exists (evs1 ++ evs2)%list. split.
  - now rewrite Hlog2, Hlog1, app_assoc.
  - apply Forall_app. now split.
Qed.

(** What [deletions] holds: a deletion for each record that is neither NS
    nor SOA, and nothing else. *)
Lemma In_deletions (records : list ResourceRecordSet) (ch : Change) :
  In ch (deletions records)
  <-> chAction ch = ChangeActionDelete
      /\ In (chResourceRecordSet ch) records
      /\ rrType (chResourceRecordSet ch) <> "NS"
      /\ rrType (chResourceRecordSet ch) <> "SOA".
Proof.
  unfold deletions. rewrite in_map_iff. split.
  - intros (record & <- & Hin). apply filter_In in Hin. destruct Hin as (Hin & Hkeep).
    apply andb_true_iff in Hkeep. destruct Hkeep as (Hns & Hsoa).
    apply negb_true_iff, String.eqb_neq in Hns.
    apply negb_true_iff, String.eqb_neq in Hsoa.
    cbn [chAction chResourceRecordSet]. now repeat split.
  - intros (Hact & Hin & Hns & Hsoa). exists (chResourceRecordSet ch). split.
    + destruct ch as [action record]. cbn in *. now subst.
    + apply filter_In. split; [exact Hin|].
      apply String.eqb_neq in Hns. apply String.eqb_neq in Hsoa.
      now rewrite Hns, Hsoa.
Qed.

Lemma deletions_record_deletion (records : list ResourceRecordSet) :
  Forall record_deletion (deletions records).
Proof.
  apply Forall_forall. intros ch Hin. apply In_deletions in Hin.
  destruct Hin as (Hact & _ & Hns & Hsoa). now repeat split.
Qed.

Section MoreHelperRequests.
Context {W : Type} (remote : Remote W) (pd : ParkedDomain).

Lemma list_records_emits (pages : Pager (list ResourceRecordSet)) (changes : list Change) :
  emits (zone_cleanup_request pd)
        (@Route53Helpers.list_records W (ZoneID (PDStatus pd)) pages changes).
Proof.
  revert changes.
  induction pages as [e|page|page rest IH]; intros changes;
    cbn [Route53Helpers.list_records]; emits_walk;
    first [ apply emits_next_page; constructor | apply IH ].
Qed.

Lemma cleanupRoute53Zone_emits :
  emits (zone_cleanup_request pd) (Route53Helpers.cleanupRoute53Zone remote pd).
Proof.
  unfold Route53Helpers.cleanupRoute53Zone.
  destruct (ZoneID (PDStatus pd) =? ""); [apply emits_ret|].
  apply emits_bind; [apply emits_observe|intros pages].
  apply emits_bind_post
    with (Q := fun listed : result (list Change) =>
                 match listed with
                 | Ok changes => Forall record_deletion changes
                 | Err _ => True
                 end).
  - apply list_records_emits.
  - intros st. rewrite list_records_run. cbn [fst app].
    destruct (pager_error pages); [exact I|apply deletions_record_deletion].
  - intros [changes|e] Hchanges; [|apply emits_ret].
    apply emits_bind.
    + destruct changes as [|ch changes]; cbn [length Nat.ltb Nat.leb];
        [apply emits_ret|].
      apply emits_request_. constructor; [discriminate|exact Hchanges].
    + intros err. emits_walk. apply emits_request_. constructor.
Qed.

Lemma empty_bucketAlt_emits (pages : Pager (list S3Object)) :
  emits (bucket_cleanup_request pd)
        (S3HelpersAlt.empty_bucket remote (DomainName (Spec pd)) pages).
Proof.
  induction pages as [e|page|page rest IH]; cbn [S3HelpersAlt.empty_bucket]; emits_walk;
    first [ apply emits_next_page; constructor
          | apply delete_page_emits
          | exact IH ].
Qed.

Lemma cleanupS3BucketAlt_emits :
  emits (bucket_cleanup_request pd) (S3HelpersAlt.cleanupS3Bucket remote pd).
Proof.
  unfold S3HelpersAlt.cleanupS3Bucket. emits_walk;
    first [ apply emits_request_; constructor | apply empty_bucketAlt_emits ].
Qed.

Lemma reconcileS3BucketAlt_emits :
  emits (bucket_request pd) (S3HelpersAlt.reconcileS3Bucket remote pd).
Proof.
  unfold S3HelpersAlt.reconcileS3Bucket. emits_walk;
    try apply configureBucket_emits; apply emits_request_; try constructor.
  generalize (bucket_create pd).
  destruct (regionOf pd =? "us-east-1"); intros H; exact H.
Qed.

End MoreHelperRequests.

Lemma helpers_scoped {W} (remote : Remote W) : scoped_helpers (helpers remote).
Proof.
  repeat split; intros; cbn.
  - apply reconcileRoute53Zone_emits.
  - apply reconcileS3Bucket_emits.
  - apply reconcileRoute53ARecord_emits.
  - apply cleanupS3Bucket_emits.
  - apply cleanupRoute53Zone_emits.
Qed.

Lemma helpersAlt_scoped {W} (remote : Remote W) : scoped_helpers (helpersAlt remote).
Proof.
  repeat split; intros; cbn.
  - apply reconcileRoute53ZoneAlt_emits.
  - apply reconcileS3BucketAlt_emits.
  - apply reconcileRoute53ARecord_emits.
  - apply cleanupS3BucketAlt_emits.
  - apply cleanupRoute53Zone_emits.
Qed.

Lemma repository_helpers_scoped {W} (remote : Remote W) (r : Helpers W) :
  repository_helpers remote r -> scoped_helpers r.
Proof. intros [->| ->]; [apply helpers_scoped|apply helpersAlt_scoped]. Qed.

(** ** What [Reconcile] can request *)

Section ReconcileRequests.
Context {W : Type} (remote : Remote W) (r : Helpers W) (P : Call -> Prop).
Hypothesis Hscoped : scoped_helpers r.

Lemma reconcileResources_emits (pd : ParkedDomain) :
  (forall c, zone_request pd c -> P c) ->
  (forall c, bucket_request pd c -> P c) ->
  (forall zoneID s3Endpoint c, record_request pd zoneID s3Endpoint c -> P c) ->
  (forall written, P (KStatusUpdate written)) ->
  emits P (reconcileResources remote r pd).
Proof.
  destruct Hscoped as (Hzone & Hbucket & Hrecord & _ & _).
  intros Pzone Pbucket Precord Pstatus.
  unfold reconcileResources, statusUpdate. emits_walk;
    first [ apply emits_request_; apply Pstatus
          | eapply emits_weaken; [|apply Hzone]; exact Pzone
          | eapply emits_weaken; [|apply Hbucket]; exact Pbucket
          | eapply emits_weaken; [|apply Hrecord]; apply Precord ].
Qed.

Lemma finalize_emits (pd : ParkedDomain) :
  (forall c, bucket_cleanup_request pd c -> P c) ->
  (forall c, zone_cleanup_request pd c -> P c) ->
  P (KUpdate (controllerutil.RemoveFinalizer pd finalizerName)) ->
  emits P (finalize remote r pd).
Proof.
  destruct Hscoped as (_ & _ & _ & Hbucket & Hzone).
  intros Pbucket Pzone Pupdate.
  unfold finalize. emits_walk;
    first [ apply emits_request_; exact Pupdate
          | eapply emits_weaken; [|apply Hbucket]; exact Pbucket
          | eapply emits_weaken; [|apply Hzone]; exact Pzone ].
Qed.

Lemma Reconcile_requests (req : NamespacedName) (st : State W)
      (fetched : ParkedDomain) (w1 : W) :
  k8s_Get remote req (world st) = (Ok fetched, w1) ->
  P (KGet req) ->
  (IsZero (DeletionTimestamp (Meta fetched)) = true ->
   P (KUpdate (controllerutil.AddFinalizer fetched finalizerName))
   /\ forall pd : ParkedDomain,
        Spec pd = Spec fetched ->
        (forall c, zone_request pd c -> P c)
        /\ (forall c, bucket_request pd c -> P c)
        /\ (forall zoneID s3Endpoint c, record_request pd zoneID s3Endpoint c -> P c)
        /\ (forall written, P (KStatusUpdate written))) ->
  (IsZero (DeletionTimestamp (Meta fetched)) = false ->
   (forall c, bucket_cleanup_request fetched c -> P c)
   /\ (forall c, zone_cleanup_request fetched c -> P c)
   /\ P (KUpdate (controllerutil.RemoveFinalizer fetched finalizerName))) ->
  exists evs : list Event,
    log (snd (Reconcile remote r req st)) = (log st ++ evs)%list
    /\ Forall (fun ev => P (ev_call ev)) evs.
Proof.
  intros Hget Pget Hlive Hdead.
  assert (Hstages : forall pd, IsZero (DeletionTimestamp (Meta fetched)) = true ->
                               Spec pd = Spec fetched ->
                               emits P (reconcileResources remote r pd)).
  { intros pd Hzero Hspec. destruct (Hlive Hzero) as (_ & Hpd).
    destruct (Hpd pd Hspec) as (Pzone & Pbucket & Precord & Pstatus).
    now apply reconcileResources_emits. }
  assert (Hrest : emits P
            (if IsZero (DeletionTimestamp (Meta fetched)) then
               if negb (controllerutil.ContainsFinalizer fetched finalizerName) then
                 bind (request_ (KUpdate (controllerutil.AddFinalizer fetched finalizerName))
                         (k8s_Update remote
                            (controllerutil.AddFinalizer fetched finalizerName)))
                      (fun err => match err with
                                  | Some err => ret (noResult, Some err)
                                  | None =>
                                      reconcileResources remote r
                                        (controllerutil.AddFinalizer fetched finalizerName)
                                  end)
               else reconcileResources remote r fetched
             else
               if controllerutil.ContainsFinalizer fetched finalizerName
               then finalize remote r fetched
               else ret (noResult, None))).
  { destruct (IsZero (DeletionTimestamp (Meta fetched))) eqn:Hzero.
    - destruct (negb (controllerutil.ContainsFinalizer fetched finalizerName)).
      + apply emits_bind; [apply emits_request_; now apply Hlive|].
        intros [err|]; [apply emits_ret|].
        apply Hstages; [reflexivity|apply AddFinalizer_frame].
      + now apply Hstages.
    - destruct (controllerutil.ContainsFinalizer fetched finalizerName);
        [|apply emits_ret].
      destruct (Hdead eq_refl) as (Pbucket & Pzone & Pupdate).
      now apply finalize_emits. }
  unfold Reconcile. unfold bind at 1, request. step Hget.
  destruct (Hrest (mkState w1 (log st ++ [Ev (KGet req) None]))) as (evs & Hlog & Hall).
  exists (Ev (KGet req) None :: evs). split.
  - rewrite Hlog. cbn [log]. now rewrite <- app_assoc.
  - constructor; [exact Pget|exact Hall].
Qed.

End ReconcileRequests.

Lemma record_deletions_not_constructive (changes : list Change) :
  Forall record_deletion changes ->
  existsb (fun ch => match chAction ch with
                     | ChangeActionDelete => false
                     | _ => true
                     end) changes = false.
Proof.
  induction 1 as [|ch changes (Hact & _) _ IH]; [reflexivity|].
  cbn [existsb]. now rewrite Hact, IH.
Qed.

(** X1: A [Reconcile] for an intent that is not marked for deletion, with
    either helper set of the repository, only adds to the log and requests
    nothing that deletes: no [DeleteObjects], [DeleteBucket] or
    [DeleteHostedZone], and no record change with a DELETE action. *)
Theorem Reconcile_live_never_deletes :
  forall (W : Type) (remote : Remote W) (r : Helpers W) (req : NamespacedName)
         (st : State W) (fetched : ParkedDomain) (w1 : W),
    repository_helpers remote r ->
    k8s_Get remote req (world st) = (Ok fetched, w1) ->
    IsZero (DeletionTimestamp (Meta fetched)) = true ->
    exists evs : list Event,
      log (snd (Reconcile remote r req st)) = (log st ++ evs)%list
      /\ Forall (fun ev => destructive (ev_call ev) = false) evs.
Proof.
  intros W remote r req st fetched w1 Hrepo Hget Hzero.
  apply (@Reconcile_requests _ remote r (fun c => destructive c = false)
           (repository_helpers_scoped Hrepo) req st fetched w1 Hget).
  - reflexivity.
  - intros _. split; [reflexivity|]. intros pd _. repeat split.
    + intros c []; reflexivity.
    + intros c []; reflexivity.
    + intros zoneID s3Endpoint c []; reflexivity.
  - intros Hdead. congruence.
Qed.

Lemma Reconcile_live_never_deletes_witness :
  exists evs : list Event,
    log (snd (Reconcile testRemote (helpersAlt testRemote) testKey (start freshWorld)))
      = (log (start freshWorld) ++ evs)%list
    /\ Forall (fun ev => destructive (ev_call ev) = false) evs.
Proof.
  exact (@Reconcile_live_never_deletes _ testRemote (helpersAlt testRemote) testKey
           (start freshWorld) testDomain freshWorld (or_intror eq_refl) eq_refl eq_refl).
Defined.

(** X2: A [Reconcile] for an intent that is marked for deletion, with
    either helper set of the repository, only adds to the log and requests
    nothing that creates or writes: no bucket or zone creation, no upload,
    website configuration or policy, no record change with an action other
    than DELETE, and no status update. *)
Theorem Reconcile_deleting_never_creates :
  forall (W : Type) (remote : Remote W) (r : Helpers W) (req : NamespacedName)
         (st : State W) (fetched : ParkedDomain) (w1 : W),
    repository_helpers remote r ->
    k8s_Get remote req (world st) = (Ok fetched, w1) ->
    IsZero (DeletionTimestamp (Meta fetched)) = false ->
    exists evs : list Event,
      log (snd (Reconcile remote r req st)) = (log st ++ evs)%list
      /\ Forall (fun ev => constructive (ev_call ev) = false) evs.
Proof.
  intros W remote r req st fetched w1 Hrepo Hget Hzero.
  apply (@Reconcile_requests _ remote r (fun c => constructive c = false)
           (repository_helpers_scoped Hrepo) req st fetched w1 Hget).
  - reflexivity.
  - intros Hlive. congruence.
  - intros _. repeat split.
    + intros c []; reflexivity.
    + intros c [|changes _ Hdel|]; try reflexivity.
      cbn [constructive cbChanges]. now apply record_deletions_not_constructive.
Qed.

Lemma Reconcile_deleting_never_creates_witness :
  exists evs : list Event,
    log (snd (Reconcile zoneGoneRemote (helpers zoneGoneRemote) exampleKey
                (start freshWorld)))
      = (log (start freshWorld) ++ evs)%list
    /\ Forall (fun ev => constructive (ev_call ev) = false) evs.
Proof.
  exact (@Reconcile_deleting_never_creates _ zoneGoneRemote (helpers zoneGoneRemote)
           exampleKey (start freshWorld) provisionedDomain freshWorld
           (or_introl eq_refl) eq_refl eq_refl).
Defined.

(** X3: Whatever the intent and whichever path is taken, every request
    that [Reconcile] (with either helper set) sends to S3 about a bucket
    names the bucket after the intent's domain name. *)
Theorem Reconcile_only_own_bucket :
  forall (W : Type) (remote : Remote W) (r : Helpers W) (req : NamespacedName)
         (st : State W) (fetched : ParkedDomain) (w1 : W),
    repository_helpers remote r ->
    k8s_Get remote req (world st) = (Ok fetched, w1) ->
    exists evs : list Event,
      log (snd (Reconcile remote r req st)) = (log st ++ evs)%list
      /\ Forall (fun ev => forall b, bucket_of (ev_call ev) = Some b ->
                                     b = DomainName (Spec fetched)) evs.
Proof.
  intros W remote r req st fetched w1 Hrepo Hget.
  apply (@Reconcile_requests _ remote r
           (fun c => forall b, bucket_of c = Some b -> b = DomainName (Spec fetched))
           (repository_helpers_scoped Hrepo) req st fetched w1 Hget).
  - discriminate.
  - intros _. split; [discriminate|]. intros pd Hspec. rewrite <- Hspec. repeat split.
    + intros c [] b; discriminate.
    + intros c [] b Hb; cbn in Hb; congruence.
    + intros zoneID s3Endpoint c [] b; discriminate.
    + discriminate.
  - intros _. repeat split.
    + intros c [] b Hb; cbn in Hb; congruence.
    + intros c [] b; discriminate.
    + discriminate.
Qed.

Lemma Reconcile_only_own_bucket_witness :
  exists evs : list Event,
    log (snd (Reconcile testRemote (helpers testRemote) testKey (start freshWorld)))
      = (log (start freshWorld) ++ evs)%list
    /\ Forall (fun ev => forall b, bucket_of (ev_call ev) = Some b ->
                                   b = DomainName (Spec testDomain)) evs.
Proof.
  exact (@Reconcile_only_own_bucket _ testRemote (helpers testRemote) testKey
           (start freshWorld) testDomain freshWorld (or_introl eq_refl) eq_refl).
Defined.

(** ** [Reconcile]: the fetch and the gate *)

(** X4: When the fetch of the intent fails, [Reconcile] makes no other
    request; a NotFound error is swallowed (success), any other error is
    returned as it is, unwrapped. *)
Theorem Reconcile_fetch_failure :
  forall (W : Type) (remote : Remote W) (r : Helpers W) (req : NamespacedName)
         (st : State W) (e : error) (w1 : W),
    k8s_Get remote req (world st) = (Err e, w1) ->
    Reconcile remote r req st
    = ((noResult, if apierrors_IsNotFound e then None else Some e),
       mkState w1 (log st ++ [Ev (KGet req) (Some e)])).
Proof.
  intros W remote r req st e w1 Hget.
  unfold Reconcile. unfold bind, request. step Hget.
  destruct (apierrors_IsNotFound e); reflexivity.
Qed.

Lemma Reconcile_fetch_failure_witness :
  Reconcile goneRemote (helpers goneRemote) exampleKey (start freshWorld)
  = ((noResult, None),
     mkState freshWorld
       [ Ev (KGet exampleKey)
            (Some (fmt_Errorf "get parkeddomain: "
                     (TypedError K8sNotFound "not found"))) ]).
Proof.
  exact (@Reconcile_fetch_failure _ goneRemote (helpers goneRemote) exampleKey
           (start freshWorld) _ freshWorld eq_refl).
Defined.

(** X5: For an intent that is marked for deletion and does not hold the
    engine's finalizer, [Reconcile] succeeds after the fetch alone: no
    cleanup and no update. *)
Theorem Reconcile_deleting_without_finalizer :
  forall (W : Type) (remote : Remote W) (r : Helpers W) (req : NamespacedName)
         (st : State W) (pd : ParkedDomain) (w1 : W),
    k8s_Get remote req (world st) = (Ok pd, w1) ->
    IsZero (DeletionTimestamp (Meta pd)) = false ->
    controllerutil.ContainsFinalizer pd finalizerName = false ->
    Reconcile remote r req st
    = ((noResult, None), mkState w1 (log st ++ [Ev (KGet req) None])).
Proof.
  intros W remote r req st pd w1 Hget Hzero Hfin.
  unfold Reconcile. unfold bind, request. step Hget. now rewrite Hzero, Hfin.
Qed.

Lemma Reconcile_deleting_without_finalizer_witness :
  Reconcile releasedRemote (helpers releasedRemote) exampleKey (start freshWorld)
  = ((noResult, None), mkState freshWorld [Ev (KGet exampleKey) None]).
Proof.
  exact (@Reconcile_deleting_without_finalizer _ releasedRemote (helpers releasedRemote)
           exampleKey (start freshWorld) releasedDomain freshWorld
           eq_refl eq_refl eq_refl).
Defined.

(** X6: [Reconcile] never asks to be requeued: whatever the helpers and
    the world do, the result it returns is the zero [ctrl.Result]. *)
Theorem Reconcile_never_requeues :
  forall (W : Type) (remote : Remote W) (r : Helpers W) (req : NamespacedName)
         (st : State W),
    fst (fst (Reconcile remote r req st)) = noResult.
Proof.
  intros W remote r req st.
  assert (Hstages : forall pd s, fst (fst (reconcileResources remote r pd s)) = noResult).
  { intros pd s. rewrite reconcileResources_run. cbv zeta.
    destruct (fst (reconcileRoute53Zone r pd s)) as [[zoneID nameservers]|err];
      [|reflexivity].
    destruct (fst (reconcileS3Bucket r pd _)) as [s3Endpoint|err]; [|reflexivity].
    destruct (fst (reconcileRoute53ARecord r pd zoneID s3Endpoint _)); reflexivity. }
  assert (Hfinalize : forall pd s, fst (fst (finalize remote r pd s)) = noResult).
  { intros pd s. unfold finalize. rewrite bind_run.
    destruct (fst (cleanupS3Bucket r pd s)); [reflexivity|]. rewrite bind_run.
    destruct (fst (cleanupRoute53Zone r pd _)); [reflexivity|]. rewrite bind_run.
    destruct (fst (request_ _ _ _)); reflexivity. }
  unfold Reconcile. rewrite bind_run.
  destruct (fst (request (KGet req) (k8s_Get remote req) st)) as [pd|err].
  2:{ destruct (apierrors_IsNotFound err); reflexivity. }
  destruct (IsZero (DeletionTimestamp (Meta pd))).
  - destruct (negb (controllerutil.ContainsFinalizer pd finalizerName));
      [|apply Hstages].
    rewrite bind_run. destruct (fst (request_ _ _ _)); [reflexivity|apply Hstages].
  - destruct (controllerutil.ContainsFinalizer pd finalizerName);
      [apply Hfinalize|reflexivity].
Qed.

(** What [RemoveFinalizer] leaves: every finalizer but the one removed. *)
Lemma In_RemoveFinalizer (pd : ParkedDomain) (f g : string) :
  In g (Finalizers (Meta (controllerutil.RemoveFinalizer pd f)))
  <-> In g (Finalizers (Meta pd)) /\ g <> f.
Proof.
  unfold controllerutil.RemoveFinalizer, set_Finalizers. cbn [Meta Finalizers].
  rewrite filter_In, negb_true_iff, String.eqb_neq. reflexivity.
Qed.

Lemma Reconcile_finalizes {W} (remote : Remote W) (r : Helpers W) (req : NamespacedName)
      (st : State W) (pd : ParkedDomain) (w1 : W) :
  k8s_Get remote req (world st) = (Ok pd, w1) ->
  IsZero (DeletionTimestamp (Meta pd)) = false ->
  controllerutil.ContainsFinalizer pd finalizerName = true ->
  Reconcile remote r req st
  = finalize remote r pd (mkState w1 (log st ++ [Ev (KGet req) None])).
Proof.
  intros Hget Hzero Hfin.
  unfold Reconcile. unfold bind at 1, request. step Hget. now rewrite Hzero, Hfin.
Qed.

(** X7: When both cleanups of the deletion path succeed, the object that
    [Reconcile] sends in its final update is the fetched one without the
    engine's finalizer: every other finalizer is still there, and name,
    deletion mark, specification and status are the fetched ones. *)
Theorem Reconcile_keeps_other_finalizers :
  forall (W : Type) (remote : Remote W) (r : Helpers W) (req : NamespacedName)
         (st : State W) (pd : ParkedDomain) (w1 : W),
    k8s_Get remote req (world st) = (Ok pd, w1) ->
    IsZero (DeletionTimestamp (Meta pd)) = false ->
    controllerutil.ContainsFinalizer pd finalizerName = true ->
    let bucket := cleanupS3Bucket r pd (mkState w1 (log st ++ [Ev (KGet req) None])) in
    let zone := cleanupRoute53Zone r pd (snd bucket) in
    fst bucket = None ->
    fst zone = None ->
    exists (released : ParkedDomain) (outcome : option error),
      log (snd (Reconcile remote r req st))
        = (log (snd zone) ++ [Ev (KUpdate released) outcome])%list
      /\ snd (fst (Reconcile remote r req st)) = outcome
      /\ (forall g, In g (Finalizers (Meta released))
                    <-> In g (Finalizers (Meta pd)) /\ g <> finalizerName)
      /\ Name (Meta released) = Name (Meta pd)
      /\ Namespace (Meta released) = Namespace (Meta pd)
      /\ DeletionTimestamp (Meta released) = DeletionTimestamp (Meta pd)
      /\ Spec released = Spec pd
      /\ PDStatus released = PDStatus pd.
Proof.
  intros W remote r req st pd w1 Hget Hzero Hfin bucket zone Hbucket Hzone.
  rewrite (@Reconcile_finalizes _ remote r req st pd w1 Hget Hzero Hfin). unfold finalize. rewrite bind_run. fold bucket. rewrite Hbucket.
  rewrite bind_run. fold zone. rewrite Hzone.
  unfold bind, request_.
  destruct (k8s_Update remote _ (world (snd zone))) as [outcome w3].
  exists (controllerutil.RemoveFinalizer pd finalizerName), outcome.
  split; [destruct outcome; reflexivity|].
  split; [destruct outcome; reflexivity|].
  split; [intros g; apply In_RemoveFinalizer|]. repeat split.
Qed.

Lemma Reconcile_keeps_other_finalizers_witness :
  exists (released : ParkedDomain) (outcome : option error),
    last (log (snd (Reconcile sharedRemote (helpers sharedRemote) exampleKey
                      (start freshWorld))))
         (Ev (KGet exampleKey) None)
    = Ev (KUpdate released) outcome
    /\ (forall g, In g (Finalizers (Meta released))
                  <-> In g ["backup.example.org/hold"; finalizerName]
                      /\ g <> finalizerName).
Proof.
  destruct (@Reconcile_keeps_other_finalizers _ sharedRemote (helpers sharedRemote)
              exampleKey (start freshWorld) sharedDomain freshWorld
              eq_refl eq_refl eq_refl eq_refl eq_refl)
    as (released & outcome & Hlog & _ & Hfin & _).
  exists released, outcome. split.
  - rewrite Hlog. apply last_last.
  - exact Hfin.
Defined.

(** ** [reconcileS3Bucket]: the existence check and the template *)

(** X8: When [HeadBucket] reports the bucket as not found,
    [reconcileS3Bucket] asks for its creation, with the region as location
    constraint except in us-east-1, where none is sent.  If the creation
    fails the function returns that error wrapped and requests nothing
    more; if it succeeds the function goes on with its remaining steps. *)
Theorem reconcileS3Bucket_creates_absent_bucket :
  forall (W : Type) (remote : Remote W) (pd : ParkedDomain) (st : State W)
         (w1 w2 : W) (e : error),
    let bucketName := DomainName (Spec pd) in
    let region := regionOf pd in
    s3_GetClient remote region (world st) = (None, w1) ->
    s3_HeadBucket remote bucketName w1 = (Some e, w2) ->
    errors_As S3NotFound e = true ->
    let location := if region =? "us-east-1" then None else Some region in
    let create := s3_CreateBucket remote bucketName location w2 in
    let st3 := mkState (snd create)
                 (log st ++ [ Ev (S3GetClient region) None;
                              Ev (S3HeadBucket bucketName) (Some e);
                              Ev (S3CreateBucket bucketName location) (fst create) ]) in
    S3Helpers.reconcileS3Bucket remote pd st
    = match fst create with
      | Some createErr => (Err (fmt_Errorf "failed to create S3 bucket: " createErr), st3)
      | None => S3Helpers.configureBucket remote pd region st3
      end.
Proof.
  intros W remote pd st w1 w2 e bucketName region Hclient Hhead Has location create st3.
  subst st3 create.
  assert (Hloc : (if negb (region =? "us-east-1") then Some region else None) = location).
  { subst location. now destruct (region =? "us-east-1"). }
  unfold S3Helpers.reconcileS3Bucket. fold bucketName region.
  unfold bind, request_. norm. step Hclient. step Hhead. rewrite Has, Hloc. norm.
  destruct (s3_CreateBucket remote bucketName location w2) as [[createErr|] w3]; norm;
    rewrite <- !app_assoc; reflexivity.
Qed.

Lemma reconcileS3Bucket_creates_absent_bucket_witness :
  calls_of (log (snd (S3Helpers.reconcileS3Bucket exampleRemote (exampleDomain "us-east-1")
                        (start freshWorld))))
  = [ S3GetClient "us-east-1"; S3HeadBucket "example.com";
      S3CreateBucket "example.com" None;
      KGetConfigMap {| nnNamespace := "default"; nnName := "parking-templates" |};
      S3PutObject "example.com" "index.html" "<h1>example.com</h1>" "text/html";
      S3PutBucketWebsite "example.com" "index.html";
      S3PutBucketPolicy "example.com" (S3Helpers.publicReadPolicy "example.com") ].
Proof.
  rewrite (@reconcileS3Bucket_creates_absent_bucket _ exampleRemote
             (exampleDomain "us-east-1") (start freshWorld) freshWorld freshWorld
             (TypedError S3NotFound "NotFound") eq_refl eq_refl eq_refl).
  reflexivity.
Defined.

(** X9: When the client for the region cannot be had, [reconcileS3Bucket]
    returns that error as it is and requests nothing from S3.  When
    [HeadBucket] fails with an error that is not a NotFound, it returns the
    error wrapped after these two requests: no creation is attempted and
    nothing is written. *)
Theorem reconcileS3Bucket_probe_failure :
  forall (W : Type) (remote : Remote W) (pd : ParkedDomain) (st : State W),
    let bucketName := DomainName (Spec pd) in
    let region := regionOf pd in
    (forall (e : error) (w1 : W),
        s3_GetClient remote region (world st) = (Some e, w1) ->
        S3Helpers.reconcileS3Bucket remote pd st
        = (Err e, mkState w1 (log st ++ [Ev (S3GetClient region) (Some e)])))
    /\ (forall (e : error) (w1 w2 : W),
          s3_GetClient remote region (world st) = (None, w1) ->
          s3_HeadBucket remote bucketName w1 = (Some e, w2) ->
          errors_As S3NotFound e = false ->
          S3Helpers.reconcileS3Bucket remote pd st
          = (Err (fmt_Errorf "failed to check S3 bucket existence: " e),
             mkState w2 (log st ++ [ Ev (S3GetClient region) None;
                                     Ev (S3HeadBucket bucketName) (Some e) ]))).
Proof.
  intros W remote pd st bucketName region. split.
  - intros e w1 Hclient.
    unfold S3Helpers.reconcileS3Bucket. fold bucketName region.
    unfold bind, request_. norm. step Hclient. reflexivity.
  - intros e w1 w2 Hclient Hhead Has.
    unfold S3Helpers.reconcileS3Bucket. fold bucketName region.
    unfold bind, request_. norm. step Hclient. step Hhead. rewrite Has.
    unfold ret. now rewrite <- app_assoc.
Qed.

(** X10: The steps after the existence check write nothing to the bucket
    unless the template is resolved.  With TEMPLATE_CONFIGMAP_NAME unset
    they fail without any request; when the ConfigMap cannot be read, or
    lacks the template key (default.html when the intent names none), they
    fail after that one read. *)
Theorem configureBucket_unresolved_template :
  forall (W : Type) (remote : Remote W) (pd : ParkedDomain) (region : string)
         (st : State W),
    let cmName := os_Getenv remote "TEMPLATE_CONFIGMAP_NAME" (world st) in
    let cmNamespace :=
      if os_Getenv remote "TEMPLATE_CONFIGMAP_NAMESPACE" (world st) =? ""
      then Namespace (Meta pd)
      else os_Getenv remote "TEMPLATE_CONFIGMAP_NAMESPACE" (world st) in
    let templateName :=
      if TemplateName (Spec pd) =? "" then "default.html" else TemplateName (Spec pd) in
    let cmKey := {| nnNamespace := cmNamespace; nnName := cmName |} in
    (cmName = "" ->
     S3Helpers.configureBucket remote pd region st
     = (Err (errors_New "TEMPLATE_CONFIGMAP_NAME environment variable must be set"), st))
    /\ (cmName <> "" ->
        forall (e : error) (w3 : W),
          k8s_GetConfigMap remote cmKey (world st) = (Err e, w3) ->
          S3Helpers.configureBucket remote pd region st
          = (Err (fmt_Errorf ("failed to get template ConfigMap '" ++ cmName
                              ++ "' in namespace '" ++ cmNamespace ++ "': ") e),
             mkState w3 (log st ++ [Ev (KGetConfigMap cmKey) (Some e)])))
    /\ (cmName <> "" ->
        forall (cm : ConfigMap) (w3 : W),
          k8s_GetConfigMap remote cmKey (world st) = (Ok cm, w3) ->
          map_lookup (cmData cm) templateName = None ->
          S3Helpers.configureBucket remote pd region st
          = (Err (errors_New ("template key '" ++ templateName
                              ++ "' not found in ConfigMap '" ++ cmName ++ "'")),
             mkState w3 (log st ++ [Ev (KGetConfigMap cmKey) None]))).
Proof.
  intros W remote pd region st cmName cmNamespace templateName cmKey.
  split; [|split].
  - intros Hname. unfold S3Helpers.configureBucket. unfold_monad.
    fold cmName. now rewrite Hname.
  - intros Hname e w3 Hcm. unfold S3Helpers.configureBucket. unfold_monad.
    fold cmName. apply String.eqb_neq in Hname. step Hname.
    fold cmNamespace. fold cmKey. step Hcm. reflexivity.
  - intros Hname cm w3 Hcm Htpl. unfold S3Helpers.configureBucket. unfold_monad.
    fold cmName. apply String.eqb_neq in Hname. step Hname.
    fold cmNamespace. fold cmKey. step Hcm. fold templateName. rewrite Htpl.
    reflexivity.
Qed.

Lemma reconcileS3Bucket_probe_failure_witness :
  S3Helpers.reconcileS3Bucket foreignBucketRemote (exampleDomain "") (start freshWorld)
  = (Err (fmt_Errorf "failed to check S3 bucket existence: " accessDenied),
     mkState freshWorld [ Ev (S3GetClient "eu-central-1") None;
                          Ev (S3HeadBucket "example.com") (Some accessDenied) ]).
Proof.
  exact (proj2 (@reconcileS3Bucket_probe_failure _ foreignBucketRemote (exampleDomain "")
                  (start freshWorld))
               accessDenied freshWorld freshWorld eq_refl eq_refl eq_refl).
Defined.

Lemma configureBucket_unresolved_template_witness :
  S3Helpers.configureBucket noTemplateRemote (exampleDomain "") "eu-central-1"
    (start freshWorld)
  = (Err (errors_New "template key 'default.html' not found in ConfigMap 'parking-templates'"),
     mkState freshWorld
       [ Ev (KGetConfigMap {| nnNamespace := "default"; nnName := "parking-templates" |})
            None ]).
Proof.
  destruct (@configureBucket_unresolved_template _ noTemplateRemote (exampleDomain "")
              "eu-central-1" (start freshWorld)) as (_ & _ & Hkey).
  exact (Hkey ltac:(discriminate) _ freshWorld eq_refl eq_refl).
Defined.

(** ** [reconcileS3Bucket]: what success means *)

(** The four requests that configure a bucket, all answered without error. *)
Lemma configureBucket_success {W} (remote : Remote W) (pd : ParkedDomain)
      (region : string) (st : State W) (s3Endpoint : string) :
  fst (S3Helpers.configureBucket remote pd region st) = Ok s3Endpoint ->
  s3Endpoint = DomainName (Spec pd) ++ ".s3-website." ++ region ++ ".amazonaws.com"
  /\ exists (key : NamespacedName) (templateContent : string),
       log (snd (S3Helpers.configureBucket remote pd region st))
       = (log st ++
          [ Ev (KGetConfigMap key) None;
            Ev (S3PutObject (DomainName (Spec pd)) "index.html"
                  (S3Helpers.finalContent templateContent (DomainName (Spec pd)))
                  "text/html") None;
            Ev (S3PutBucketWebsite (DomainName (Spec pd)) "index.html") None;
            Ev (S3PutBucketPolicy (DomainName (Spec pd))
                  (S3Helpers.publicReadPolicy (DomainName (Spec pd)))) None ])%list.
Proof.
  unfold S3Helpers.configureBucket. unfold_monad.
  destruct (os_Getenv remote "TEMPLATE_CONFIGMAP_NAME" (world st) =? "");
    [discriminate|].
  destruct (k8s_GetConfigMap remote _ (world st)) as [[cm|e] w3]; norm; [|discriminate].
  destruct (map_lookup (cmData cm) _) as [templateContent|]; norm; [|discriminate].
  destruct (s3_PutObject remote _ _ _ _ w3) as [[e|] w4]; norm; [discriminate|].
  destruct (s3_PutBucketWebsite remote _ _ w4) as [[e|] w5]; norm; [discriminate|].
  destruct (s3_PutBucketPolicy remote _ _ w5) as [[e|] w6]; norm; [discriminate|].
  intros Hok. injection Hok as <-. split; [reflexivity|].
  eexists. exists templateContent. rewrite <- !app_assoc. reflexivity.
Qed.





(** ** [reconcileRoute53Zone]: listing and creation *)

(** X13: When the listing of hosted zones fails, the list-then-adopt copy
    of [reconcileRoute53Zone] returns that error wrapped and requests
    nothing else: no zone is created on a failed lookup. *)
Theorem reconcileRoute53Zone_listing_failure :
  forall (W : Type) (remote : Remote W) (pd : ParkedDomain) (st : State W)
         (e : error) (w1 : W),
    r53_ListHostedZonesByName remote (DomainName (Spec pd)) (world st) = (Err e, w1) ->
    Route53Helpers.reconcileRoute53Zone remote pd st
    = (Err (fmt_Errorf "failed to list hosted zones: " e),
       mkState w1 (log st ++ [Ev (R53ListHostedZonesByName (DomainName (Spec pd)))
                                 (Some e)])).
Proof.
  intros W remote pd st e w1 Hlist.
  unfold Route53Helpers.reconcileRoute53Zone. unfold_monad. step Hlist. reflexivity.
Qed.

Lemma reconcileRoute53Zone_listing_failure_witness :
  Route53Helpers.reconcileRoute53Zone throttledRemote (exampleDomain "") (start freshWorld)
  = (Err (fmt_Errorf "failed to list hosted zones: "
            (TypedError (OtherType "ThrottlingException") "Rate exceeded")),
     mkState freshWorld
       [ Ev (R53ListHostedZonesByName "example.com")
            (Some (TypedError (OtherType "ThrottlingException") "Rate exceeded")) ]).
Proof.
  exact (@reconcileRoute53Zone_listing_failure _ throttledRemote (exampleDomain "")
           (start freshWorld) _ freshWorld eq_refl).
Defined.

(** X14: Only the first zone of the listing is looked at.  When the
    listing is empty or its first zone is not named exactly the domain
    followed by a dot, the list-then-adopt copy asks for a new zone, named
    after the domain, with the caller reference
    parkeddomain-operator-NAME-SECONDS (the intent's name and the clock), as
    its second and last request, and returns what the creation answers: the
    wrapped error, or the new id without "/hostedzone/" and the name
    servers. *)
Theorem reconcileRoute53Zone_creates :
  forall (W : Type) (remote : Remote W) (pd : ParkedDomain) (st : State W)
         (zones : list HostedZone) (w1 : W),
    let domainName := DomainName (Spec pd) in
    let callerReference :=
      "parkeddomain-operator-" ++ Name (Meta pd) ++ "-"
      ++ fmt_d (time_Now_Unix remote w1) in
    let create := r53_CreateHostedZone remote domainName callerReference w1 in
    r53_ListHostedZonesByName remote domainName (world st) = (Ok zones, w1) ->
    (forall first others, zones = first :: others -> hzName first <> domainName ++ ".") ->
    Route53Helpers.reconcileRoute53Zone remote pd st
    = (match fst create with
       | Ok out => Ok (strings.Replace (zoHostedZoneId out) "/hostedzone/" "" 1,
                       zoNameServers out)
       | Err e => Err (fmt_Errorf "failed to create Route 53 Hosted Zone: " e)
       end,
       mkState (snd create)
         (log st ++ [ Ev (R53ListHostedZonesByName domainName) None;
                      Ev (R53CreateHostedZone domainName callerReference)
                         (err_of (fst create)) ])).
Proof.
  intros W remote pd st zones w1 domainName callerReference create Hlist Hfirst.
  assert (Hnone : Route53Helpers.exact_first zones domainName = None).
  { destruct zones as [|first others]; [reflexivity|].
    cbn [Route53Helpers.exact_first].
    specialize (Hfirst first others eq_refl). apply String.eqb_neq in Hfirst.
    now rewrite Hfirst. }
  subst create.
  unfold Route53Helpers.reconcileRoute53Zone, Route53Helpers.createHostedZone.
  fold domainName. unfold_monad. step Hlist. step Hnone. fold callerReference.
  destruct (r53_CreateHostedZone remote domainName callerReference w1) as [[out|e] w2];
    norm; rewrite <- app_assoc; reflexivity.
Qed.

Lemma reconcileRoute53Zone_creates_witness :
  Route53Helpers.reconcileRoute53Zone secondZoneRemote (exampleDomain "") (start freshWorld)
  = (Ok ("MOCKZONEID123", ["ns-1.awsdns.com"; "ns-2.awsdns.com"]),
     mkState freshWorld
       [ Ev (R53ListHostedZonesByName "example.com") None;
         Ev (R53CreateHostedZone "example.com" "parkeddomain-operator-example-1700000000")
            None ]).
Proof.
  apply (@reconcileRoute53Zone_creates _ secondZoneRemote (exampleDomain "")
           (start freshWorld)
           [ {| hzId := "/hostedzone/Z0OTHER"; hzName := "example.org." |};
             {| hzId := "/hostedzone/Z0EXISTING"; hzName := "example.com." |} ]
           freshWorld eq_refl).
  intros first others Heq. injection Heq as <- _. discriminate.
Defined.

(** X15: The other copy of [reconcileRoute53Zone] never looks a zone up.
    With a zone id recorded in the intent's status it makes no request at
    all and returns the recorded id and name servers; without one its only
    request is a [CreateHostedZone] for the domain. *)
Theorem reconcileRoute53ZoneAlt_requests :
  forall (W : Type) (remote : Remote W) (pd : ParkedDomain) (st : State W),
    (ZoneID (PDStatus pd) <> "" ->
     Route53HelpersAlt.reconcileRoute53Zone remote pd st
     = (Ok (ZoneID (PDStatus pd), NameServers (PDStatus pd)), st))
    /\ (ZoneID (PDStatus pd) = "" ->
        exists (callerReference : string) (outcome : option error),
          log (snd (Route53HelpersAlt.reconcileRoute53Zone remote pd st))
          = (log st ++ [Ev (R53CreateHostedZone (DomainName (Spec pd)) callerReference)
                           outcome])%list).
Proof.
  intros W remote pd st. split.
  - intros Hid. unfold Route53HelpersAlt.reconcileRoute53Zone.
    apply String.eqb_neq in Hid. now rewrite Hid.
  - intros Hid.
    unfold Route53HelpersAlt.reconcileRoute53Zone, Route53Helpers.createHostedZone.
    rewrite Hid. cbn [String.eqb negb]. unfold_monad.
    destruct (r53_CreateHostedZone remote _ _ (world st)) as [[out|e] w2]; norm.
    + eexists. exists None. reflexivity.
    + eexists. exists (Some e).
      destruct (errors_As R53HostedZoneAlreadyExists e); reflexivity.
Qed.

Lemma reconcileRoute53ZoneAlt_requests_witness :
  Route53HelpersAlt.reconcileRoute53Zone zoneGoneRemote provisionedDomain (start freshWorld)
  = (Ok ("Z0EXISTING", ["ns-7.awsdns.org"]), start freshWorld)
  /\ exists (callerReference : string) (outcome : option error),
       log (snd (Route53HelpersAlt.reconcileRoute53Zone exampleRemote (exampleDomain "")
                   (start freshWorld)))
       = [Ev (R53CreateHostedZone "example.com" callerReference) outcome].
Proof.
  split.
  - apply (@reconcileRoute53ZoneAlt_requests _ zoneGoneRemote provisionedDomain
             (start freshWorld)).
    discriminate.
  - apply (@reconcileRoute53ZoneAlt_requests _ exampleRemote (exampleDomain "")
             (start freshWorld)).
    reflexivity.
Defined.

(** ** [cleanupRoute53Zone]: the batch and the order *)

Lemma In_page_events {P} (c : Call) (pages : Pager P) (ev : Event) :
  In ev (page_events c pages) -> ev_call ev = c.
Proof.
  induction pages as [e|page|page rest IH]; cbn [page_events].
  - intros [<-|[]]. reflexivity.
  - intros [<-|[]]. reflexivity.
  - intros [<-|Hin]; [reflexivity|now apply IH].
Qed.

Lemma page_events_ok {P} (c : Call) (pages : Pager P) :
  pager_error pages = None ->
  page_events c pages = map ok_event (map (fun _ => c) (pager_pages pages)).
Proof.
  induction pages as [e|page|page rest IH]; cbn [pager_error page_events pager_pages map].
  - discriminate.
  - reflexivity.
  - intros Hok. now rewrite IH.
Qed.

(** The four ways a run of [cleanupRoute53Zone] can go. *)
Lemma cleanupRoute53Zone_shape {W} (remote : Remote W) (pd : ParkedDomain) (st : State W) :
  let zoneID := ZoneID (PDStatus pd) in
  let pages := r53_ListResourceRecordSets remote zoneID (world st) in
  let changes := deletions (concat (pager_pages pages)) in
  let batch := {| cbComment := None; cbChanges := changes |} in
  let listing := page_events (R53ListResourceRecordSets zoneID) pages in
  let run := Route53Helpers.cleanupRoute53Zone remote pd st in
  exists evs : list Event,
    log (snd run) = (log st ++ evs)%list
    /\ ((zoneID = "" /\ evs = [] /\ fst run = None)
        \/ (exists e, zoneID <> "" /\ pager_error pages = Some e /\ evs = listing
                      /\ fst run = Some (fmt_Errorf "failed to list records in Hosted Zone: " e))
        \/ (exists e, zoneID <> "" /\ pager_error pages = None /\ changes <> []
                      /\ evs = (listing ++ [Ev (R53ChangeResourceRecordSets zoneID batch)
                                               (Some e)])%list
                      /\ fst run
                         = Some (fmt_Errorf "failed to delete records from Hosted Zone: " e))
        \/ (exists outcome,
               zoneID <> "" /\ pager_error pages = None
               /\ evs = (listing
                         ++ match changes with
                            | [] => []
                            | _ :: _ => [Ev (R53ChangeResourceRecordSets zoneID batch) None]
                            end
                         ++ [Ev (R53DeleteHostedZone zoneID) outcome])%list
               /\ fst run
                  = match outcome with
                    | Some e => if errors_As R53NoSuchHostedZone e then None
                                else Some (fmt_Errorf "failed to delete Hosted Zone: " e)
                    | None => None
                    end)).
Proof.
  intros zoneID pages changes batch listing run.
  destruct (String.eqb_spec zoneID "") as [Hid|Hid].
  { exists []. subst run. rewrite (cleanupRoute53Zone_empty remote pd st Hid).
    split; [now rewrite app_nil_r|]. left. now repeat split. }
  destruct (pager_error pages) as [e|] eqn:Herr.
  { exists listing. subst run. unfold Route53Helpers.cleanupRoute53Zone.
    fold zoneID. apply String.eqb_neq in Hid. rewrite Hid.
    unfold bind, observe. rewrite list_records_run. fold pages. rewrite Herr.
    split; [reflexivity|]. right. left. exists e.
    apply String.eqb_neq in Hid. now repeat split. }
  subst run. rewrite (cleanupRoute53Zone_listed remote pd st Hid Herr).
  fold zoneID pages changes batch listing. unfold request_. norm.
  destruct changes as [|ch chs] eqn:Hchanges; norm.
  - destruct (r53_DeleteHostedZone remote zoneID (world st)) as [outcome w3]. norm.
    exists (listing ++ [Ev (R53DeleteHostedZone zoneID) outcome])%list.
    split; [now rewrite app_assoc|]. right. right. right. exists outcome.
    repeat split; try assumption.
  - destruct (r53_ChangeResourceRecordSets remote zoneID batch (world st))
      as [[e|] w2]; norm.
    + exists (listing ++ [Ev (R53ChangeResourceRecordSets zoneID batch) (Some e)])%list.
      split; [now rewrite app_assoc|]. right. right. left. exists e.
      repeat split; try assumption. discriminate.
    + destruct (r53_DeleteHostedZone remote zoneID w2) as [outcome w3]. norm.
      exists (listing ++ [Ev (R53ChangeResourceRecordSets zoneID batch) None]
                      ++ [Ev (R53DeleteHostedZone zoneID) outcome])%list.
      split; [now rewrite <- !app_assoc|]. right. right. right. exists outcome.
      repeat split; try assumption.
Qed.

(** X16: Every record change that [cleanupRoute53Zone] requests is for the
    zone of the intent's status, is requested only after the whole listing
    succeeded, is not empty, and holds exactly the deletions of the listed
    records whose type is neither NS nor SOA: each such record is in it and
    nothing else is. *)
Theorem cleanupRoute53Zone_batch :
  forall (W : Type) (remote : Remote W) (pd : ParkedDomain) (st : State W),
    let zoneID := ZoneID (PDStatus pd) in
    let pages := r53_ListResourceRecordSets remote zoneID (world st) in
    exists evs : list Event,
      log (snd (Route53Helpers.cleanupRoute53Zone remote pd st)) = (log st ++ evs)%list
      /\ forall (z : string) (batch : ChangeBatch) (outcome : option error),
           In (Ev (R53ChangeResourceRecordSets z batch) outcome) evs ->
           z = zoneID
           /\ pager_error pages = None
           /\ cbChanges batch <> []
           /\ forall ch : Change,
                In ch (cbChanges batch)
                <-> chAction ch = ChangeActionDelete
                    /\ In (chResourceRecordSet ch) (concat (pager_pages pages))
                    /\ rrType (chResourceRecordSet ch) <> "NS"
                    /\ rrType (chResourceRecordSet ch) <> "SOA".
Proof.
  intros W remote pd st zoneID pages.
  destruct (cleanupRoute53Zone_shape remote pd st) as (evs & Hlog & Hshape).
  fold zoneID pages in Hshape.
  exists evs. split; [exact Hlog|].
  intros z batch outcome Hin.
  assert (Hlisting : ~ In (Ev (R53ChangeResourceRecordSets z batch) outcome)
                        (page_events (R53ListResourceRecordSets zoneID) pages)).
  { intros H. apply In_page_events in H. discriminate. }
  destruct Hshape as [(_ & -> & _)|[(e & _ & _ & -> & _)|[(e & _ & Hok & Hne & -> & _)
                     |(out & _ & Hok & -> & _)]]].
  - destruct Hin.
  - contradiction.
  - apply in_app_or in Hin. destruct Hin as [Hin|[Heq|[]]]; [contradiction|].
    injection Heq as <- <- _. cbn [cbChanges].
    split; [reflexivity|]. split; [exact Hok|]. split; [exact Hne|].
    intros ch. apply In_deletions.
  - apply in_app_or in Hin. destruct Hin as [Hin|Hin]; [contradiction|].
    apply in_app_or in Hin. destruct Hin as [Hin|[Heq|[]]]; [|discriminate].
    destruct (deletions (concat (pager_pages pages))) as [|ch0 chs] eqn:Hdel;
      [destruct Hin|].
    destruct Hin as [Heq|[]]. injection Heq as <- <- _.
    cbn [cbChanges]. rewrite <- Hdel.
    split; [reflexivity|]. split; [exact Hok|].
    split; [rewrite Hdel; discriminate|].
    intros ch. apply In_deletions.
Qed.

Lemma cleanupRoute53Zone_batch_witness :
  exists evs : list Event,
    log (snd (Route53Helpers.cleanupRoute53Zone populatedZoneRemote provisionedDomain
                (start freshWorld))) = evs
    /\ In (Ev (R53ChangeResourceRecordSets "Z0EXISTING"
                 {| cbComment := None;
                    cbChanges :=
                      [ {| chAction := ChangeActionDelete;
                           chResourceRecordSet := apexAlias |};
                        {| chAction := ChangeActionDelete;
                           chResourceRecordSet := apexTXT |} ] |}) None) evs
    /\ forall ch : Change,
         In ch [ {| chAction := ChangeActionDelete; chResourceRecordSet := apexAlias |};
                 {| chAction := ChangeActionDelete; chResourceRecordSet := apexTXT |} ]
         <-> chAction ch = ChangeActionDelete
             /\ In (chResourceRecordSet ch) [apexAlias; apexNS; apexSOA; apexTXT]
             /\ rrType (chResourceRecordSet ch) <> "NS"
             /\ rrType (chResourceRecordSet ch) <> "SOA".
Proof.
  destruct (@cleanupRoute53Zone_batch _ populatedZoneRemote provisionedDomain
              (start freshWorld)) as (evs & Hlog & Hbatch).
  exists evs. split; [exact Hlog|].
  assert (Hin : In (Ev (R53ChangeResourceRecordSets "Z0EXISTING"
                          {| cbComment := None;
                             cbChanges :=
                               [ {| chAction := ChangeActionDelete;
                                    chResourceRecordSet := apexAlias |};
                                 {| chAction := ChangeActionDelete;
                                    chResourceRecordSet := apexTXT |} ] |}) None) evs).
  { vm_compute in Hlog. subst evs. right. right. left. reflexivity. }
  split; [exact Hin|].
  exact (proj2 (proj2 (proj2 (Hbatch _ _ _ Hin)))).
Defined.

(** X17: [cleanupRoute53Zone] asks for the deletion of the zone only as
    its last request, for the zone of the intent's status, and only after
    every request before it (the listing and, if there was anything to
    delete, the batch) came back without error.  Its result is then success
    when the deletion succeeded or failed with [NoSuchHostedZone], and the
    wrapped error otherwise. *)
Theorem cleanupRoute53Zone_zone_last :
  forall (W : Type) (remote : Remote W) (pd : ParkedDomain) (st : State W),
    let run := Route53Helpers.cleanupRoute53Zone remote pd st in
    exists evs : list Event,
      log (snd run) = (log st ++ evs)%list
      /\ forall (z : string) (outcome : option error),
           In (Ev (R53DeleteHostedZone z) outcome) evs ->
           z = ZoneID (PDStatus pd)
           /\ (exists cs : list Call,
                 evs = (map ok_event cs ++ [Ev (R53DeleteHostedZone z) outcome])%list
                 /\ Forall (fun c => forall z', c <> R53DeleteHostedZone z') cs)
           /\ fst run
              = match outcome with
                | Some e => if errors_As R53NoSuchHostedZone e then None
                            else Some (fmt_Errorf "failed to delete Hosted Zone: " e)
                | None => None
                end.
Proof.
  intros W remote pd st run.
  destruct (cleanupRoute53Zone_shape remote pd st) as (evs & Hlog & Hshape).
  fold run in Hlog, Hshape.
  set (zoneID := ZoneID (PDStatus pd)) in *.
  set (pages := r53_ListResourceRecordSets remote zoneID (world st)) in *.
  exists evs. split; [exact Hlog|].
  intros z outcome Hin.
  assert (Hlisting : forall ev, In ev (page_events (R53ListResourceRecordSets zoneID) pages)
                                -> forall z', ev_call ev <> R53DeleteHostedZone z').
  { intros ev H z'. apply In_page_events in H. rewrite H. discriminate. }
  destruct Hshape as [(_ & -> & _)|[(e & _ & _ & -> & _)|[(e & _ & Hok & Hne & -> & _)
                     |(out & _ & Hok & -> & Hres)]]].
  - destruct Hin.
  - exfalso. exact (Hlisting _ Hin z eq_refl).
  - exfalso. apply in_app_or in Hin. destruct Hin as [Hin|[Heq|[]]].
    + exact (Hlisting _ Hin z eq_refl).
    + discriminate.
  - rewrite (page_events_ok _ _ Hok) in *.
    set (lists := map (fun _ => R53ListResourceRecordSets zoneID) (pager_pages pages)) in *.
    assert (Hlists : Forall (fun c => forall z', c <> R53DeleteHostedZone z') lists).
    { apply Forall_forall. intros c Hc. apply in_map_iff in Hc.
      destruct Hc as (page & <- & _). discriminate. }
    destruct (deletions (concat (pager_pages pages))) as [|ch0 chs].
    + cbn [app] in *.
      apply in_app_or in Hin. destruct Hin as [Hin|[Heq|[]]].
      * exfalso. apply in_map_iff in Hin. destruct Hin as (c & Hc & Hcin).
        injection Hc as Hc _. rewrite Forall_forall in Hlists.
        exact (Hlists c Hcin z Hc).
      * injection Heq as <- <-. split; [reflexivity|]. split; [|exact Hres].
        exists lists. split; [reflexivity|exact Hlists].
    + cbn [app] in *.
      apply in_app_or in Hin. destruct Hin as [Hin|[Heq|[Heq|[]]]].
      * exfalso. apply in_map_iff in Hin. destruct Hin as (c & Hc & Hcin).
        injection Hc as Hc _. rewrite Forall_forall in Hlists.
        exact (Hlists c Hcin z Hc).
      * discriminate.
      * injection Heq as <- <-. split; [reflexivity|]. split; [|exact Hres].
        eexists (lists ++ [_])%list. split.
        -- rewrite map_app. cbn [map ok_event]. now rewrite <- app_assoc.
        -- apply Forall_app. split; [exact Hlists|]. constructor; [discriminate|constructor].
Qed.

Lemma cleanupRoute53Zone_zone_last_witness :
  fst (Route53Helpers.cleanupRoute53Zone populatedZoneRemote provisionedDomain
         (start freshWorld)) = None
  /\ calls_of (log (snd (Route53Helpers.cleanupRoute53Zone populatedZoneRemote
                           provisionedDomain (start freshWorld))))
     = [ R53ListResourceRecordSets "Z0EXISTING"; R53ListResourceRecordSets "Z0EXISTING";
         R53ChangeResourceRecordSets "Z0EXISTING"
           {| cbComment := None;
              cbChanges :=
                [ {| chAction := ChangeActionDelete; chResourceRecordSet := apexAlias |};
                  {| chAction := ChangeActionDelete; chResourceRecordSet := apexTXT |} ] |};
         R53DeleteHostedZone "Z0EXISTING" ].
Proof.
  destruct (@cleanupRoute53Zone_zone_last _ populatedZoneRemote provisionedDomain
              (start freshWorld)) as (evs & Hlog & Hlast).
  assert (Hin : In (Ev (R53DeleteHostedZone "Z0EXISTING") None) evs).
  { vm_compute in Hlog. subst evs. right. right. right. left. reflexivity. }
  destruct (Hlast _ _ Hin) as (_ & _ & Hres).
  split; [exact Hres|reflexivity].
Defined.

(** ** [cleanupS3Bucket]: failures *)

(** The ways a run of [cleanupS3Bucket] can go: no request fails, or the
    last one does. *)
Lemma cleanupS3Bucket_shape {W} (remote : Remote W) (pd : ParkedDomain) (st : State W) :
  let bucketName := DomainName (Spec pd) in
  let run := S3Helpers.cleanupS3Bucket remote pd st in
  exists evs : list Event,
    log (snd run) = (log st ++ evs)%list
    /\ ((exists cs, all_ok evs cs /\ fst run = None)
        \/ exists (c : Call) (e : error),
             failed_at evs c e
             /\ ((c = S3GetClient (regionOf pd) /\ fst run = Some e)
                 \/ (c = S3ListObjectsV2 bucketName /\ fst run = list_failure e)
                 \/ ((exists keys, c = S3DeleteObjects bucketName keys)
                     /\ fst run
                        = Some (fmt_Errorf "failed to delete objects from S3 bucket: " e))
                 \/ (c = S3DeleteBucket bucketName
                     /\ fst run
                        = if errors_As S3NoSuchBucket e then None
                          else Some (fmt_Errorf "failed to delete S3 bucket: " e)))).
Proof.
  intros bucketName run. subst run.
  unfold S3Helpers.cleanupS3Bucket. fold bucketName.
  unfold bind, request_, observe. norm.
  destruct (s3_GetClient remote (regionOf pd) (world st)) as [[e0|] w1]; norm.
  { exists [Ev (S3GetClient (regionOf pd)) (Some e0)]. unfold ret. norm.
    split; [reflexivity|]. right. exists (S3GetClient (regionOf pd)), e0.
    split; [now exists []|]. left. now split. }
  destruct (empty_bucket_run remote bucketName (s3_ListObjectsV2 remote bucketName w1)
              (mkState w1 (log st ++ [Ev (S3GetClient (regionOf pd)) None])))
    as (w2 & evs & Hst & Hres).
  destruct (S3Helpers.empty_bucket remote bucketName _ _) as [returned st2].
  cbn [fst snd log] in Hst, Hres. subst st2.
  destruct returned as [r|].
  { destruct Hres as (c & e & Hf & Hcase).
    exists (Ev (S3GetClient (regionOf pd)) None :: evs). unfold ret. norm.
    split; [now rewrite <- app_assoc|]. right. exists c, e.
    split; [now apply failed_at_cons|].
    destruct Hcase as [(-> & ->)|((keys & ->) & ->)].
    - right. left. now split.
    - right. right. left. split; [now exists keys|reflexivity]. }
  destruct Hres as (_ & Hall). unfold all_ok in Hall. subst evs. norm.
  set (cs := (S3GetClient (regionOf pd)
                :: bucket_calls bucketName
                     (pager_pages (s3_ListObjectsV2 remote bucketName w1)))%list).
  destruct (s3_DeleteBucket remote bucketName w2) as [[e|] w3]; norm.
  - exists (map ok_event cs ++ [Ev (S3DeleteBucket bucketName) (Some e)])%list. split.
    + destruct (negb (errors_As S3NoSuchBucket e)); unfold ret; norm;
        subst cs; cbn [map ok_event app]; now rewrite <- !app_assoc.
    + right. exists (S3DeleteBucket bucketName), e. split; [now exists cs|].
      right. right. right. split; [reflexivity|].
      destruct (errors_As S3NoSuchBucket e); reflexivity.
  - exists (map ok_event (cs ++ [S3DeleteBucket bucketName])). unfold ret. norm. split.
    + subst cs. rewrite map_app. cbn [map ok_event app]. now rewrite <- !app_assoc.
    + left. eexists. split; reflexivity.
Qed.

(** X18: [cleanupS3Bucket] stops at the first request that fails: a
    request logged with an error is the last request of the call, so no
    bucket is deleted after a failed listing or a failed deletion of
    objects.  When the call returns an error, that error classifies under
    [errors.As] exactly as the error of that last request: wrapping hides
    nothing from the caller. *)
Theorem cleanupS3Bucket_stops_at_failure :
  forall (W : Type) (remote : Remote W) (pd : ParkedDomain) (st : State W),
    let run := S3Helpers.cleanupS3Bucket remote pd st in
    exists evs : list Event,
      log (snd run) = (log st ++ evs)%list
      /\ (forall (c : Call) (e : error),
             In (Ev c (Some e)) evs -> failed_at evs c e)
      /\ (forall err : error,
             fst run = Some err ->
             exists (c : Call) (e : error),
               failed_at evs c e /\ forall t, errors_As t err = errors_As t e).
Proof.
  intros W remote pd st run.
  destruct (cleanupS3Bucket_shape remote pd st) as (evs & Hlog & Hshape).
  fold run in Hlog, Hshape. exists evs. split; [exact Hlog|].
  destruct Hshape as [(cs & Hall & Hres)|(c & e & Hf & Hcase)].
  - unfold all_ok in Hall. subst evs. split.
    + intros c e Hin. now apply all_ok_no_error in Hin.
    + intros err Herr. congruence.
  - split.
    + intros c' e' Hin. destruct (@failed_at_unique _ _ _ _ _ Hf Hin) as (-> & ->).
      exact Hf.
    + intros err Herr. exists c, e. split; [exact Hf|]. intros t.
      destruct Hcase as [(_ & Hres)|[(_ & Hres)|[(_ & Hres)|(_ & Hres)]]];
        rewrite Hres in Herr.
      * now injection Herr as <-.
      * unfold list_failure in Herr. destruct (errors_As S3NoSuchBucket e);
          [discriminate|]. now injection Herr as <-.
      * now injection Herr as <-.
      * destruct (errors_As S3NoSuchBucket e); [discriminate|]. now injection Herr as <-.
Qed.

Lemma cleanupS3Bucket_stops_at_failure_witness :
  exists err : error,
    fst (S3Helpers.cleanupS3Bucket lockedObjectsRemote provisionedDomain (start freshWorld))
    = Some err
    /\ errors_As (OtherType "AccessDenied") err = true
    /\ calls_of (log (snd (S3Helpers.cleanupS3Bucket lockedObjectsRemote provisionedDomain
                             (start freshWorld))))
       = [ S3GetClient "eu-central-1"; S3ListObjectsV2 "example.com";
           S3DeleteObjects "example.com" ["index.html"] ].
Proof.
  destruct (@cleanupS3Bucket_stops_at_failure _ lockedObjectsRemote provisionedDomain
              (start freshWorld)) as (evs & Hlog & _ & Herr).
  eexists. split; [reflexivity|].
  destruct (Herr _ eq_refl) as (c & e & Hf & Has).
  split; [|reflexivity].
  assert (Hin : In (Ev (S3DeleteObjects "example.com" ["index.html"]) (Some accessDenied))
                   evs).
  { vm_compute in Hlog. subst evs. right. right. left. reflexivity. }
  destruct Hf as (cs & ->). apply in_app_or in Hin. destruct Hin as [Hin|[Heq|[]]].
  - now apply all_ok_no_error in Hin.
  - injection Heq as _ ->. rewrite Has. reflexivity.
Defined.

(** ** The alias record and the bucket it points to *)

Lemma change_follows_policy_none (bucketName : string) (evs : list Event) :
  Forall (fun ev => not_a_change (ev_call ev)) evs ->
  change_follows_policy bucketName evs.
Proof.
  intros Hall z batch outcome Hin. exfalso.
  rewrite Forall_forall in Hall. exact (Hall _ Hin z batch eq_refl).
Qed.

Lemma change_follows_policy_app (bucketName : string) (xs ys : list Event) :
  Forall (fun ev => not_a_change (ev_call ev)) xs ->
  change_follows_policy bucketName ys ->
  change_follows_policy bucketName (xs ++ ys).
Proof.
  intros Hxs Hys z batch outcome Hin. apply in_app_or in Hin.
  destruct Hin as [Hin|Hin].
  - exfalso. rewrite Forall_forall in Hxs. exact (Hxs _ Hin z batch eq_refl).
  - destruct (Hys z batch outcome Hin) as (pre & post & ->).
    exists (xs ++ pre)%list, post. now rewrite <- app_assoc.
Qed.

Lemma configureBucket_policy_last {W} (remote : Remote W) (pd : ParkedDomain)
      (region : string) (st : State W) (s3Endpoint : string) :
  fst (S3Helpers.configureBucket remote pd region st) = Ok s3Endpoint ->
  exists pre : list Event,
    log (snd (S3Helpers.configureBucket remote pd region st))
    = (log st ++ pre ++
       [ Ev (S3PutBucketPolicy (DomainName (Spec pd))
               (S3Helpers.publicReadPolicy (DomainName (Spec pd)))) None ])%list.
Proof.
  intros Hok. destruct (configureBucket_success _ _ _ _ Hok) as (_ & key & t & Hlog).
  rewrite Hlog.
  exists [ Ev (KGetConfigMap key) None;
           Ev (S3PutObject (DomainName (Spec pd)) "index.html"
                 (S3Helpers.finalContent t (DomainName (Spec pd))) "text/html") None;
           Ev (S3PutBucketWebsite (DomainName (Spec pd)) "index.html") None ].
  reflexivity.
Qed.

Lemma helpers_policy_last {W} (remote : Remote W) : policy_last (helpers remote).
Proof.
  intros pd st s3Endpoint. cbn [reconcileS3Bucket helpers].
  unfold S3Helpers.reconcileS3Bucket. unfold bind, request_. norm.
  destruct (s3_GetClient remote (regionOf pd) (world st)) as [[e|] w1]; norm;
    [discriminate|].
  destruct (s3_HeadBucket remote (DomainName (Spec pd)) w1) as [[e|] w2]; norm.
  - destruct (errors_As S3NotFound e); [|discriminate]. norm.
    match goal with
    | |- context [s3_CreateBucket remote ?b ?l w2] =>
        destruct (s3_CreateBucket remote b l w2) as [[ce|] w3] eqn:Hcreate
    end; norm; [discriminate|].
    intros Hok. destruct (configureBucket_policy_last _ _ _ _ Hok) as (pre & Hlog).
    rewrite Hlog. cbn [log].
    match type of Hcreate with
    | s3_CreateBucket _ ?b ?l _ = _ =>
        exists ([ Ev (S3GetClient (regionOf pd)) None; Ev (S3HeadBucket b) (Some e);
                  Ev (S3CreateBucket b l) None ] ++ pre)%list
    end.
    rewrite <- !app_assoc. reflexivity.
  - intros Hok. destruct (configureBucket_policy_last _ _ _ _ Hok) as (pre & Hlog).
    rewrite Hlog. cbn [log].
    exists ([ Ev (S3GetClient (regionOf pd)) None;
              Ev (S3HeadBucket (DomainName (Spec pd))) None ] ++ pre)%list.
    rewrite <- !app_assoc. reflexivity.
Qed.

Lemma helpersAlt_policy_last {W} (remote : Remote W) : policy_last (helpersAlt remote).
Proof.
  intros pd st s3Endpoint. cbn [reconcileS3Bucket helpersAlt].
  unfold S3HelpersAlt.reconcileS3Bucket. unfold bind, request_. norm.
  destruct (s3_HeadBucket remote (DomainName (Spec pd)) (world st)) as [[e|] w2]; norm.
  - destruct (errors_As S3NotFound e); [|discriminate]. norm.
    match goal with
    | |- context [s3_CreateBucket remote ?b ?l w2] =>
        destruct (s3_CreateBucket remote b l w2) as [[ce|] w3] eqn:Hcreate
    end; norm; [discriminate|].
    intros Hok. destruct (configureBucket_policy_last _ _ _ _ Hok) as (pre & Hlog).
    rewrite Hlog. cbn [log].
    match type of Hcreate with
    | s3_CreateBucket _ ?b ?l _ = _ =>
        exists ([ Ev (S3HeadBucket b) (Some e); Ev (S3CreateBucket b l) None ] ++ pre)%list
    end.
    rewrite <- !app_assoc. reflexivity.
  - intros Hok. destruct (configureBucket_policy_last _ _ _ _ Hok) as (pre & Hlog).
    rewrite Hlog. cbn [log].
    exists ([ Ev (S3HeadBucket (DomainName (Spec pd))) None ] ++ pre)%list.
    rewrite <- !app_assoc. reflexivity.
Qed.

Lemma reconcileRoute53ARecord_one_change {W} (remote : Remote W) (pd : ParkedDomain)
      (zoneID s3Endpoint : string) (st : State W) :
  exists evs : list Event,
    log (snd (Route53Helpers.reconcileRoute53ARecord remote pd zoneID s3Endpoint st))
    = (log st ++ evs)%list
    /\ (evs = []
        \/ exists batch outcome,
             evs = [Ev (R53ChangeResourceRecordSets zoneID batch) outcome]).
Proof.
  unfold Route53Helpers.reconcileRoute53ARecord.
  destruct (Route53Helpers.getS3WebsiteHostedZoneID (regionOf pd) =? "").
  - exists []. unfold ret. cbn [snd]. split; [now rewrite app_nil_r|now left].
  - unfold_monad.
    destruct (r53_ChangeResourceRecordSets remote zoneID _ (world st)) as [[e|] w'];
      norm; eexists; (split; [reflexivity|]); right; eexists; eexists; reflexivity.
Qed.

Lemma repository_helpers_policy_last {W} (remote : Remote W) (r : Helpers W) :
  repository_helpers remote r -> policy_last r /\ one_change r.
Proof.
  intros [->| ->]; (split; [|intros pd z ep st; apply reconcileRoute53ARecord_one_change]).
  - apply helpers_policy_last.
  - apply helpersAlt_policy_last.
Qed.

Section AliasAfterPolicy.
Context {W : Type} (remote : Remote W) (r : Helpers W).
Hypothesis Hscoped : scoped_helpers r.
Hypothesis Hpolicy : policy_last r.
Hypothesis Hone : one_change r.

Lemma zone_events_no_change (pd : ParkedDomain) (evs : list Event) :
  Forall (fun ev => zone_request pd (ev_call ev)) evs ->
  Forall (fun ev => not_a_change (ev_call ev)) evs.
Proof.
  apply Forall_impl. intros ev H. destruct H; intros z batch; discriminate.
Qed.

Lemma bucket_events_no_change (pd : ParkedDomain) (evs : list Event) :
  Forall (fun ev => bucket_request pd (ev_call ev)) evs ->
  Forall (fun ev => not_a_change (ev_call ev)) evs.
Proof.
  apply Forall_impl. intros ev H. destruct H; intros z batch; discriminate.
Qed.

Lemma reconcileResources_change_follows_policy (pd : ParkedDomain) (st : State W) :
  exists evs : list Event,
    log (snd (reconcileResources remote r pd st)) = (log st ++ evs)%list
    /\ change_follows_policy (DomainName (Spec pd)) evs.
Proof.
  destruct Hscoped as (Hzone & Hbucket & _).
  rewrite reconcileResources_run. cbv zeta.
  destruct (Hzone pd st) as (evs_z & Hlz & Hallz).
  apply zone_events_no_change in Hallz.
  destruct (reconcileRoute53Zone r pd st) as [[[zoneID nameservers]|err] s1];
    cbn [fst snd] in *.
  2:{ exists (evs_z ++ [Ev (KStatusUpdate (set_Status pd "Error: Route53 Zone"))
                         (fst (k8s_StatusUpdate remote
                                 (set_Status pd "Error: Route53 Zone") (world s1)))])%list.
      unfold status_written. cbn [log]. rewrite Hlz. split; [now rewrite app_assoc|].
      apply change_follows_policy_none. apply Forall_app. split; [exact Hallz|].
      repeat constructor. intros z batch; discriminate. }
  destruct (Hbucket pd s1) as (evs_b & Hlb & Hallb).
  apply bucket_events_no_change in Hallb.
  pose proof (Hpolicy pd s1) as Hlast.
  destruct (reconcileS3Bucket r pd s1) as [[s3Endpoint|err] s2]; cbn [fst snd] in *.
  2:{ exists (evs_z ++ evs_b
               ++ [Ev (KStatusUpdate (set_Status pd "Error: S3 Bucket"))
                      (fst (k8s_StatusUpdate remote
                              (set_Status pd "Error: S3 Bucket") (world s2)))])%list.
      unfold status_written. cbn [log]. rewrite Hlb, Hlz.
      split; [now rewrite <- !app_assoc|].
      apply change_follows_policy_none. apply Forall_app. split; [exact Hallz|].
      apply Forall_app. split; [exact Hallb|].
      repeat constructor. intros z batch; discriminate. }
  destruct (Hlast s3Endpoint eq_refl) as (pre & Hpre).
  rewrite Hlb in Hpre. apply app_inv_head in Hpre. subst evs_b.
  apply Forall_app in Hallb. destruct Hallb as (Hallpre & _).
  destruct (Hone pd zoneID s3Endpoint s2) as (evs_r & Hlr & Hcase).
  set (policy := Ev (S3PutBucketPolicy (DomainName (Spec pd))
                       (S3Helpers.publicReadPolicy (DomainName (Spec pd)))) None) in *.
  assert (Hfinal : forall (written : ParkedDomain) (s3 : State W),
             log s3 = (log s2 ++ evs_r)%list ->
             exists evs : list Event,
               log (status_written remote written s3) = (log st ++ evs)%list
               /\ change_follows_policy (DomainName (Spec pd)) evs).
  { intros written s3 Hl3.
    exists ((evs_z ++ pre)
            ++ [policy] ++ evs_r
            ++ [Ev (KStatusUpdate written)
                   (fst (k8s_StatusUpdate remote written (world s3)))])%list.
    unfold status_written. cbn [log]. rewrite Hl3, Hlb, Hlz.
    split; [now rewrite <- !app_assoc|].
    apply change_follows_policy_app; [apply Forall_app; now split|].
    destruct Hcase as [->|(batch & outcome & ->)].
    - apply change_follows_policy_none.
      repeat constructor; intros z batch; discriminate.
    - intros z b o [Heq|[Heq|[Heq|[]]]]; try discriminate.
      injection Heq as <- <- <-. exists [], [Ev (KStatusUpdate written)
                   (fst (k8s_StatusUpdate remote written (world s3)))].
      reflexivity. }
  destruct (reconcileRoute53ARecord r pd zoneID s3Endpoint s2) as [[err|] s3];
    cbn [fst snd] in *; now apply Hfinal.
Qed.

Lemma Reconcile_change_follows_policy (req : NamespacedName) (st : State W)
      (fetched : ParkedDomain) (w1 : W) :
  k8s_Get remote req (world st) = (Ok fetched, w1) ->
  IsZero (DeletionTimestamp (Meta fetched)) = true ->
  exists evs : list Event,
    log (snd (Reconcile remote r req st)) = (log st ++ evs)%list
    /\ change_follows_policy (DomainName (Spec fetched)) evs.
Proof.
  intros Hget Hzero.
  unfold Reconcile. unfold bind at 1, request. step Hget. rewrite Hzero.
  destruct (negb (controllerutil.ContainsFinalizer fetched finalizerName)).
  - unfold bind, request_. norm.
    destruct (k8s_Update remote _ w1) as [[err|] w2]; norm.
    + unfold ret. cbn [snd log]. eexists. split; [now rewrite <- app_assoc|].
      apply change_follows_policy_none. repeat constructor; intros z batch; discriminate.
    + match goal with
      | |- context [reconcileResources remote r ?pd ?s] =>
          destruct (reconcileResources_change_follows_policy pd s) as (evs & Hlog & Hf)
      end.
      rewrite Hlog. cbn [log].
      exists ([ Ev (KGet req) None;
                Ev (KUpdate (controllerutil.AddFinalizer fetched finalizerName)) None ]
              ++ evs)%list.
      split; [now rewrite <- !app_assoc|].
      apply change_follows_policy_app;
        [repeat constructor; intros z batch; discriminate|].
      now rewrite (proj1 (AddFinalizer_frame fetched finalizerName)) in Hf.
  - match goal with
    | |- context [reconcileResources remote r ?pd ?s] =>
        destruct (reconcileResources_change_follows_policy pd s) as (evs & Hlog & Hf)
    end.
    rewrite Hlog. cbn [log]. exists ([Ev (KGet req) None] ++ evs)%list.
    split; [now rewrite <- !app_assoc|].
    apply change_follows_policy_app; [repeat constructor; intros z batch; discriminate|].
    exact Hf.
Qed.

End AliasAfterPolicy.

(** X19: In a [Reconcile] for an intent that is not marked for deletion,
    with either helper set of the repository, every record change that is
    requested comes directly after a public-read policy was applied without
    error to the intent's bucket in the same invocation: the alias record is
    never pointed at the bucket before the bucket is fully configured, and
    never when the bucket stage failed. *)
Theorem Reconcile_alias_follows_policy :
  forall (W : Type) (remote : Remote W) (r : Helpers W) (req : NamespacedName)
         (st : State W) (fetched : ParkedDomain) (w1 : W),
    repository_helpers remote r ->
    k8s_Get remote req (world st) = (Ok fetched, w1) ->
    IsZero (DeletionTimestamp (Meta fetched)) = true ->
    exists evs : list Event,
      log (snd (Reconcile remote r req st)) = (log st ++ evs)%list
      /\ forall (z : string) (batch : ChangeBatch) (outcome : option error),
           In (Ev (R53ChangeResourceRecordSets z batch) outcome) evs ->
           exists pre post : list Event,
             evs = (pre ++
                    [ Ev (S3PutBucketPolicy (DomainName (Spec fetched))
                            (S3Helpers.publicReadPolicy (DomainName (Spec fetched)))) None;
                      Ev (R53ChangeResourceRecordSets z batch) outcome ] ++ post)%list.
Proof.
  intros W remote r req st fetched w1 Hrepo Hget Hzero.
  destruct (repository_helpers_policy_last Hrepo) as (Hpolicy & Hone).
  exact (@Reconcile_change_follows_policy _ remote r (repository_helpers_scoped Hrepo)
           Hpolicy Hone req st fetched w1 Hget Hzero).
Qed.

Lemma Reconcile_alias_follows_policy_witness :
  exists evs : list Event,
    log (snd (Reconcile testRemote (helpersAlt testRemote) testKey (start freshWorld)))
      = (log (start freshWorld) ++ evs)%list
    /\ forall (z : string) (batch : ChangeBatch) (outcome : option error),
         In (Ev (R53ChangeResourceRecordSets z batch) outcome) evs ->
         exists pre post : list Event,
           evs = (pre ++
                  [ Ev (S3PutBucketPolicy "test.example.com"
                          (S3Helpers.publicReadPolicy "test.example.com")) None;
                    Ev (R53ChangeResourceRecordSets z batch) outcome ] ++ post)%list.
Proof.
  exact (@Reconcile_alias_follows_policy _ testRemote (helpersAlt testRemote) testKey
           (start freshWorld) testDomain freshWorld (or_intror eq_refl) eq_refl eq_refl).
Defined.

(** ** The earlier copy of [cleanupS3Bucket] *)

(** X20: In the earlier copy of [cleanupS3Bucket] a bucket that is already
    gone is an error.  A listing whose first request fails makes the call
    fail with that error wrapped, whatever its type; and after an empty
    listing a failed [DeleteBucket] is excused only when its error is a
    [NotFound], so a [NoSuchBucket] is returned wrapped. *)
Theorem cleanupS3BucketAlt_not_found :
  forall (W : Type) (remote : Remote W) (pd : ParkedDomain) (st : State W),
    let bucketName := DomainName (Spec pd) in
    (forall e : error,
        s3_ListObjectsV2 remote bucketName (world st) = PageFails e ->
        S3HelpersAlt.cleanupS3Bucket remote pd st
        = (Some (fmt_Errorf "failed to list objects in S3 bucket for deletion: " e),
           mkState (world st) (log st ++ [Ev (S3ListObjectsV2 bucketName) (Some e)])))
    /\ (forall (e : error) (w' : W),
          s3_ListObjectsV2 remote bucketName (world st) = PageLast [] ->
          s3_DeleteBucket remote bucketName (world st) = (Some e, w') ->
          S3HelpersAlt.cleanupS3Bucket remote pd st
          = (if errors_As S3NotFound e then None
             else Some (fmt_Errorf "failed to delete S3 bucket: " e),
             mkState w' (log st ++ [ Ev (S3ListObjectsV2 bucketName) None;
                                     Ev (S3DeleteBucket bucketName) (Some e) ]))).
Proof.
  intros W remote pd st bucketName. split.
  - intros e Hlist. unfold S3HelpersAlt.cleanupS3Bucket. fold bucketName.
    unfold bind at 1 2, observe. rewrite Hlist. reflexivity.
  - intros e w' Hlist Hdelete. unfold S3HelpersAlt.cleanupS3Bucket. fold bucketName.
    unfold bind at 1 2, observe. rewrite Hlist.
    cbn [S3HelpersAlt.empty_bucket S3Helpers.delete_page length Nat.ltb Nat.leb].
    unfold_monad. step Hdelete.
    destruct (errors_As S3NotFound e); cbn [negb]; rewrite <- app_assoc; reflexivity.
Qed.

Lemma cleanupS3BucketAlt_not_found_witness :
  S3HelpersAlt.cleanupS3Bucket bucketGoneRemote provisionedDomain (start freshWorld)
  = (Some (fmt_Errorf "failed to delete S3 bucket: "
             (TypedError S3NoSuchBucket "NoSuchBucket")),
     mkState freshWorld
       [ Ev (S3ListObjectsV2 "example.com") None;
         Ev (S3DeleteBucket "example.com")
            (Some (TypedError S3NoSuchBucket "NoSuchBucket")) ]).
Proof.
  exact (proj2 (@cleanupS3BucketAlt_not_found _ bucketGoneRemote provisionedDomain
                  (start freshWorld))
               (TypedError S3NoSuchBucket "NoSuchBucket") freshWorld eq_refl eq_refl).
Defined.

(** ** Deleting an intent whose zone was never recorded *)

(** X21: For an intent marked for deletion that holds the finalizer but
    has no zone id in its status, [Reconcile] (with either helper set) does
    nothing about Route 53: after the bucket cleanup succeeded, its next and
    last request is the update that removes the finalizer.  A zone created
    in a run that failed before the status was written is therefore left
    behind. *)
Theorem Reconcile_unrecorded_zone_left_behind :
  forall (W : Type) (remote : Remote W) (r : Helpers W) (req : NamespacedName)
         (st : State W) (pd : ParkedDomain) (w1 : W),
    repository_helpers remote r ->
    k8s_Get remote req (world st) = (Ok pd, w1) ->
    IsZero (DeletionTimestamp (Meta pd)) = false ->
    controllerutil.ContainsFinalizer pd finalizerName = true ->
    ZoneID (PDStatus pd) = "" ->
    let bucket := cleanupS3Bucket r pd (mkState w1 (log st ++ [Ev (KGet req) None])) in
    let released := controllerutil.RemoveFinalizer pd finalizerName in
    let update := k8s_Update remote released (world (snd bucket)) in
    fst bucket = None ->
    Reconcile remote r req st
    = ((noResult, fst update),
       mkState (snd update) (log (snd bucket) ++ [Ev (KUpdate released) (fst update)])).
Proof.
  intros W remote r req st pd w1 Hrepo Hget Hzero Hfin Hid bucket released update Hbucket.
  rewrite (@Reconcile_finalizes _ remote r req st pd w1 Hget Hzero Hfin).
  unfold finalize. rewrite bind_run. fold bucket. rewrite Hbucket. rewrite bind_run.
  assert (Hzone : cleanupRoute53Zone r pd (snd bucket) = (None, snd bucket)).
  { destruct Hrepo as [->| ->]; cbn [cleanupRoute53Zone helpers helpersAlt];
      now apply cleanupRoute53Zone_empty. }
  rewrite Hzone. cbn [fst snd]. unfold bind, request_. fold released. subst update.
  destruct (k8s_Update remote released (world (snd bucket))) as [[err|] w3]; reflexivity.
Qed.

Lemma Reconcile_unrecorded_zone_left_behind_witness :
  calls_of (log (snd (Reconcile unrecordedRemote (helpers unrecordedRemote) exampleKey
                        (start freshWorld))))
  = [ KGet exampleKey;
      S3GetClient "eu-central-1"; S3ListObjectsV2 "example.com";
      S3DeleteBucket "example.com";
      KUpdate (controllerutil.RemoveFinalizer unrecordedDomain finalizerName) ].
Proof.
  rewrite (@Reconcile_unrecorded_zone_left_behind _ unrecordedRemote
             (helpers unrecordedRemote) exampleKey (start freshWorld) unrecordedDomain
             freshWorld (or_introl eq_refl) eq_refl eq_refl eq_refl eq_refl eq_refl).
  reflexivity.
Defined.

(** ** The other copy of [reconcileRoute53Zone]: creation *)

(** X22: Without a recorded zone id, the copy of [reconcileRoute53Zone]
    that only creates returns, when the creation succeeds, the new id
    without "/hostedzone/" and the name servers of the answer, and when it
    fails with an error that is not [HostedZoneAlreadyExists], that error
    wrapped. *)
Theorem reconcileRoute53ZoneAlt_creates :
  forall (W : Type) (remote : Remote W) (pd : ParkedDomain) (st : State W),
    let callerReference :=
      "parkeddomain-operator-" ++ Name (Meta pd) ++ "-"
      ++ fmt_d (time_Now_Unix remote (world st)) in
    let create :=
      r53_CreateHostedZone remote (DomainName (Spec pd)) callerReference (world st) in
    ZoneID (PDStatus pd) = "" ->
    (forall out, fst create = Ok out ->
                 fst (Route53HelpersAlt.reconcileRoute53Zone remote pd st)
                 = Ok (strings.Replace (zoHostedZoneId out) "/hostedzone/" "" 1,
                       zoNameServers out))
    /\ (forall e, fst create = Err e ->
                  errors_As R53HostedZoneAlreadyExists e = false ->
                  fst (Route53HelpersAlt.reconcileRoute53Zone remote pd st)
                  = Err (fmt_Errorf "failed to create Route 53 Hosted Zone: " e)).
Proof.
  intros W remote pd st callerReference create Hid. subst create.
  unfold Route53HelpersAlt.reconcileRoute53Zone, Route53Helpers.createHostedZone.
  rewrite Hid. cbn [String.eqb negb]. unfold_monad. fold callerReference.
  destruct (r53_CreateHostedZone remote (DomainName (Spec pd)) callerReference (world st))
    as [[out|e] w2]; norm; split.
  - intros out' Hout. now injection Hout as <-.
  - intros e Herr. discriminate.
  - intros out Hout. discriminate.
  - intros e' Herr Has. injection Herr as <-. now rewrite Has.
Qed.

Lemma reconcileRoute53ZoneAlt_creates_witness :
  fst (Route53HelpersAlt.reconcileRoute53Zone testRemote testDomain (start freshWorld))
  = Ok ("MOCKZONEID123", ["ns-1.awsdns.com"; "ns-2.awsdns.com"]).
Proof.
  exact (proj1 (@reconcileRoute53ZoneAlt_creates _ testRemote testDomain
                  (start freshWorld) eq_refl)
               mockZone eq_refl).
Defined.

(** ** What [Reconcile] writes to the intent itself *)

(** X23: Whatever path [Reconcile] takes (with either helper set), an
    update of the intent object that it requests carries the fetched object
    with the engine's finalizer added or removed and nothing else changed:
    specification, status, name and deletion mark are the fetched ones. *)
Theorem Reconcile_updates_only_finalizer :
  forall (W : Type) (remote : Remote W) (r : Helpers W) (req : NamespacedName)
         (st : State W) (fetched : ParkedDomain) (w1 : W),
    repository_helpers remote r ->
    k8s_Get remote req (world st) = (Ok fetched, w1) ->
    exists evs : list Event,
      log (snd (Reconcile remote r req st)) = (log st ++ evs)%list
      /\ Forall (fun ev =>
                   forall updated, ev_call ev = KUpdate updated ->
                     (updated = controllerutil.AddFinalizer fetched finalizerName
                      \/ updated = controllerutil.RemoveFinalizer fetched finalizerName)
                     /\ Spec updated = Spec fetched
                     /\ PDStatus updated = PDStatus fetched
                     /\ Name (Meta updated) = Name (Meta fetched)
                     /\ Namespace (Meta updated) = Namespace (Meta fetched)
                     /\ DeletionTimestamp (Meta updated)
                        = DeletionTimestamp (Meta fetched)) evs.
Proof.
  intros W remote r req st fetched w1 Hrepo Hget.
  apply (@Reconcile_requests _ remote r
           (fun c => forall updated, c = KUpdate updated ->
              (updated = controllerutil.AddFinalizer fetched finalizerName
               \/ updated = controllerutil.RemoveFinalizer fetched finalizerName)
              /\ Spec updated = Spec fetched
              /\ PDStatus updated = PDStatus fetched
              /\ Name (Meta updated) = Name (Meta fetched)
              /\ Namespace (Meta updated) = Namespace (Meta fetched)
              /\ DeletionTimestamp (Meta updated) = DeletionTimestamp (Meta fetched))
           (repository_helpers_scoped Hrepo) req st fetched w1 Hget).
  - discriminate.
  - intros _. split.
    + intros updated Heq. injection Heq as <-. split; [now left|].
      unfold controllerutil.AddFinalizer.
      destruct (controllerutil.ContainsFinalizer fetched finalizerName);
        repeat split.
    + intros pd _. split; [|split; [|split]].
      * intros c [] updated; discriminate.
      * intros c [] updated; discriminate.
      * intros zoneID s3Endpoint c [] updated; discriminate.
      * discriminate.
  - intros _. split; [|split].
    + intros c [] updated; discriminate.
    + intros c [] updated; discriminate.
    + intros updated Heq. injection Heq as <-. split; [now right|]. repeat split.
Qed.

Lemma Reconcile_updates_only_finalizer_witness :
  exists evs : list Event,
    log (snd (Reconcile sharedRemote (helpers sharedRemote) exampleKey (start freshWorld)))
      = (log (start freshWorld) ++ evs)%list
    /\ Forall (fun ev =>
                 forall updated, ev_call ev = KUpdate updated ->
                   (updated = controllerutil.AddFinalizer sharedDomain finalizerName
                    \/ updated = controllerutil.RemoveFinalizer sharedDomain finalizerName)
                   /\ Spec updated = Spec sharedDomain
                   /\ PDStatus updated = PDStatus sharedDomain
                   /\ Name (Meta updated) = Name (Meta sharedDomain)
                   /\ Namespace (Meta updated) = Namespace (Meta sharedDomain)
                   /\ DeletionTimestamp (Meta updated)
                      = DeletionTimestamp (Meta sharedDomain)) evs.
Proof.
  exact (@Reconcile_updates_only_finalizer _ sharedRemote (helpers sharedRemote)
           exampleKey (start freshWorld) sharedDomain freshWorld
           (or_introl eq_refl) eq_refl).
Defined.
